(** * Structure inference and section ranking of the PDF document analyzer

    A shallow embedding of [src/main.py], [src/main2.py] and
    [src/main3.py]: [analyze_document_structure] / [identify_structure] /
    [detect] (title and heading inference over styled text fragments), the
    extraction of fragments and page sections, and the keyword-overlap
    ranking of page sections, with the properties stated about them.

    Modelling conventions.
    - Text is [string]; the character classes of Python's [str] methods and
      of [re] ([\s], [\d], [\w], [lower]) are given on the ASCII range,
      characters above 127 carry no class.
    - Font sizes are Python floats (IEEE 754 binary64).  A finite float is
      modelled by the rational [Q] that it denotes, so that [<], [>=] and
      [==] are the comparisons of [Q]; every arithmetic operation rounds
      its exact result to the nearest float, ties to even, and a literal
      such as [0.9] is the float nearest to the decimal ([Float.lit]).
      Infinities and NaN are outside the model: sizes are finite and no
      operation overflows (no size reaches 1e300).
    - [flags] and [page] are Python ints, modelled as [Z].
    - Exceptions ([ZeroDivisionError] of [/], [ValueError] of [max] on an
      empty list) are results of an error monad.
    - [set] objects are [gset string]; [list.sort] is a stable sort. *)

From Stdlib Require Import ZArith QArith Qminmax Lia Lqa Bool List Ascii String.
From Stdlib Require Import Permutation Sorted OrdersEx.
From stdpp Require Import gmap strings.
Import ListNotations.

#[local] Open Scope string_scope.
#[local] Open Scope list_scope.

(** ** Python runtime: characters and [str] methods *)

Module Py.

Definition code (c : ascii) : N := N_of_ascii c.

Definition in_range (lo hi : N) (c : ascii) : bool :=
  (N.leb lo (code c)) && (N.leb (code c) hi).

(** [str.isspace] on ASCII: TAB..CR, FS..US and the space. *)
Definition is_space (c : ascii) : bool :=
  in_range 9 13 c || in_range 28 32 c.

Definition is_digit (c : ascii) : bool := in_range 48 57 c.
Definition is_upper (c : ascii) : bool := in_range 65 90 c.
Definition is_lower (c : ascii) : bool := in_range 97 122 c.

(** The class [\w]: alphanumerics and the underscore. *)
Definition is_word (c : ascii) : bool :=
  is_digit c || is_upper c || is_lower c || Ascii.eqb c "_".

Definition lower_char (c : ascii) : ascii :=
  if is_upper c then ascii_of_N (code c + 32) else c.

Definition chars (s : string) : list ascii := list_ascii_of_string s.
Definition str (l : list ascii) : string := string_of_list_ascii l.

(** [s.lower()] *)
Definition lower (s : string) : string := str (map lower_char (chars s)).

Fixpoint lstrip_chars (l : list ascii) : list ascii :=
  match l with
  | c :: l' => if is_space c then lstrip_chars l' else l
  | [] => []
  end.

Definition strip_chars (l : list ascii) : list ascii :=
  rev (lstrip_chars (rev (lstrip_chars l))).

(** [s.strip()] *)
Definition strip (s : string) : string := str (strip_chars (chars s)).

(** [s.split()]: the maximal runs of non-whitespace characters.
    [cur] is the run being read, reversed. *)
Fixpoint split_chars (cur : list ascii) (l : list ascii) : list (list ascii) :=
  match l with
  | [] => match cur with [] => [] | _ => [rev cur] end
  | c :: l' =>
      if is_space c
      then match cur with
           | [] => split_chars [] l'
           | _ => rev cur :: split_chars [] l'
           end
      else split_chars (c :: cur) l'
  end.

Definition split (s : string) : list string := map str (split_chars [] (chars s)).

(** [len(s)] *)
Definition len (s : string) : Z := Z.of_nat (String.length s).

Fixpoint starts_with_chars (p l : list ascii) : bool :=
  match p, l with
  | [], _ => true
  | a :: p', b :: l' => Ascii.eqb a b && starts_with_chars p' l'
  | _ :: _, [] => false
  end.

(** [s.startswith(p)] *)
Definition startswith (s p : string) : bool := starts_with_chars (chars p) (chars s).

(** [s.endswith(p)] *)
Definition endswith (s p : string) : bool :=
  starts_with_chars (rev (chars p)) (rev (chars s)).

Fixpoint contains_chars (p l : list ascii) : bool :=
  starts_with_chars p l ||
  match l with
  | [] => false
  | _ :: l' => contains_chars p l'
  end.

(** [p in s] for strings *)
Definition contains (s p : string) : bool := contains_chars (chars p) (chars s).

(** [s[:n]] for a non-negative [n] *)
Definition take (n : nat) (s : string) : string := str (firstn n (chars s)).

(** [re.sub(r'\s+', ' ', s)]: every maximal whitespace run becomes one
    space; [in_ws] tells that the previous character was whitespace. *)
Fixpoint collapse_chars (in_ws : bool) (l : list ascii) : list ascii :=
  match l with
  | [] => []
  | c :: l' =>
      if is_space c
      then if in_ws then collapse_chars true l' else " "%char :: collapse_chars true l'
      else c :: collapse_chars false l'
  end.

Definition sub_ws_space (s : string) : string := str (collapse_chars false (chars s)).

End Py.

(** ** Python runtime: regular expressions, [re.match]

    Only the truth value of [re.match] is used by the program and the
    patterns have neither groups that are read nor look-around, so a pattern
    is its language: [re.match(p, s)] is truthy iff some prefix of [s]
    belongs to it. *)

Module Re.

Inductive regex : Type :=
| Void : regex
| Eps : regex
| Cls : (ascii -> bool) -> regex
| Cat : regex -> regex -> regex
| Alt : regex -> regex -> regex
| Star : regex -> regex.

Definition Plus (r : regex) : regex := Cat r (Star r).
Definition Opt (r : regex) : regex := Alt r Eps.
Definition Chr (c : ascii) : regex := Cls (Ascii.eqb c).

Fixpoint Lit_chars (l : list ascii) : regex :=
  match l with
  | [] => Eps
  | c :: l' => Cat (Chr c) (Lit_chars l')
  end.

Definition Lit (s : string) : regex := Lit_chars (Py.chars s).

Fixpoint Seq (rs : list regex) : regex :=
  match rs with
  | [] => Eps
  | [r] => r
  | r :: rs' => Cat r (Seq rs')
  end.

(** The language of a regex. *)
Inductive Matches : regex -> list ascii -> Prop :=
| MEps : Matches Eps []
| MCls p c : p c = true -> Matches (Cls p) [c]
| MCat r1 r2 l1 l2 : Matches r1 l1 -> Matches r2 l2 -> Matches (Cat r1 r2) (l1 ++ l2)
| MAltL r1 r2 l : Matches r1 l -> Matches (Alt r1 r2) l
| MAltR r1 r2 l : Matches r2 l -> Matches (Alt r1 r2) l
| MStar0 r : Matches (Star r) []
| MStarS r l1 l2 : Matches r l1 -> Matches (Star r) l2 -> Matches (Star r) (l1 ++ l2).

Fixpoint nullable (r : regex) : bool :=
  match r with
  | Void => false
  | Eps => true
  | Cls _ => false
  | Cat r1 r2 => nullable r1 && nullable r2
  | Alt r1 r2 => nullable r1 || nullable r2
  | Star _ => true
  end.

Definition is_void (r : regex) : bool :=
  match r with Void => true | _ => false end.

Definition cat (r1 r2 : regex) : regex :=
  if is_void r1 || is_void r2 then Void else Cat r1 r2.

Definition alt (r1 r2 : regex) : regex :=
  if is_void r1 then r2 else if is_void r2 then r1 else Alt r1 r2.

(** Brzozowski derivative. *)
Fixpoint deriv (c : ascii) (r : regex) : regex :=
  match r with
  | Void => Void
  | Eps => Void
  | Cls p => if p c then Eps else Void
  | Cat r1 r2 =>
      if nullable r1
      then alt (cat (deriv c r1) r2) (deriv c r2)
      else cat (deriv c r1) r2
  | Alt r1 r2 => alt (deriv c r1) (deriv c r2)
  | Star r1 => cat (deriv c r1) (Star r1)
  end.

(** The whole of [l] is in the language of [r]. *)
Fixpoint full_match (r : regex) (l : list ascii) : bool :=
  match l with
  | [] => nullable r
  | c :: l' => full_match (deriv c r) l'
  end.

(** Some prefix of [l] is in the language of [r]. *)
Fixpoint prefix_match (r : regex) (l : list ascii) : bool :=
  nullable r ||
  match l with
  | [] => false
  | c :: l' => prefix_match (deriv c r) l'
  end.

Definition newline : ascii := ascii_of_N 10.

(** A pattern [^body] or [^body$].  [$] holds at the end of the string and
    just before a newline that ends the string. *)
Record pattern : Type := Pattern { body : regex; dollar : bool }.

Definition match_chars (p : pattern) (l : list ascii) : bool :=
  if dollar p
  then full_match (body p) l ||
       match rev l with
       | c :: l' => Ascii.eqb c newline && full_match (body p) (rev l')
       | [] => false
       end
  else prefix_match (body p) l.

(** [bool(re.match(p, s))] *)
Definition re_match (p : pattern) (s : string) : bool := match_chars p (Py.chars s).

Definition digit : regex := Cls Py.is_digit.
Definition space : regex := Cls Py.is_space.
Definition word : regex := Cls Py.is_word.
Definition upper : regex := Cls Py.is_upper.
Definition lower : regex := Cls Py.is_lower.
Definition dot : regex := Chr ".".

End Re.

(** ** Python runtime: floating point

    Binary64 arithmetic on the rationals that the floats denote: 53 bits
    of precision, least exponent -1074, round to nearest, ties to even. *)

Module Float.

Definition emin : Z := (-1074)%Z.

(** The integer nearest to [N / D], ties to even, for [0 <= N], [0 < D]. *)
Definition nearest_even (N D : Z) : Z :=
  let q := (N / D)%Z in
  let r := (N mod D)%Z in
  match (2 * r ?= D)%Z with
  | Lt => q
  | Gt => (q + 1)%Z
  | Eq => if Z.even q then q else (q + 1)%Z
  end.

(** [floor (log2 (n / d))] for positive [n] and [d]. *)
Definition ilog2 (n d : Z) : Z :=
  let e0 := (Z.log2 n - Z.log2 d)%Z in
  if (n * 2 ^ Z.max 0 (- e0) <? d * 2 ^ Z.max 0 e0)%Z then (e0 - 1)%Z else e0.

(** The float nearest to [n / d], for positive [n] and [d]: a multiple
    [m * 2 ^ k] with [m] of at most 53 bits. *)
Definition round_pos (n d : Z) : Q :=
  let e := ilog2 n d in
  let k := Z.max (e - 52) emin in
  if (0 <=? k)%Z
  then inject_Z (nearest_even n (d * 2 ^ k) * 2 ^ k)
  else Qmake (nearest_even (n * 2 ^ (- k)) d) (Z.to_pos (2 ^ (- k))).

Definition round (q : Q) : Q :=
  Qred
    match Qnum q with
    | Z0 => 0%Q
    | Zpos n => round_pos (Zpos n) (Zpos (Qden q))
    | Zneg n => (- round_pos (Zpos n) (Zpos (Qden q)))%Q
    end.

(** [x + y], [x - y], [x * y], [x / y] on floats *)
Definition add (x y : Q) : Q := round (x + y).
Definition sub (x y : Q) : Q := round (x - y).
Definition mul (x y : Q) : Q := round (x * y).
Definition div (x y : Q) : Q := round (x / y).

(** A float literal, and the conversion of an int in mixed arithmetic. *)
Definition lit (q : Q) : Q := round q.
Definition of_int (z : Z) : Q := round (inject_Z z).

End Float.

(** ** Python runtime: exceptions, numbers, [max], [sorted] *)

Inductive exn : Type := ZeroDivisionError | ValueError.

Inductive result (A : Type) : Type :=
| Ok : A -> result A
| Raise : exn -> result A.

Arguments Ok {A} _.
Arguments Raise {A} _.

#[global] Instance result_ret : MRet result := fun _ a => Ok a.

#[global] Instance result_bind : MBind result := fun _ _ k m =>
  match m with
  | Ok a => k a
  | Raise e => Raise e
  end.

Definition Qltb (x y : Q) : bool := negb (Qle_bool y x).
Definition Qleb (x y : Q) : bool := Qle_bool x y.
Definition Qeqb (x y : Q) : bool := Qeq_bool x y.

(** [sum(l)]: the floats are added from left to right, from the int 0,
    each partial sum rounded. *)
Definition py_sum (l : list Q) : Q := fold_left Float.add l 0%Q.

(** [x / n] for a float [x] and an int [n] *)
Definition py_div (x : Q) (n : Z) : result Q :=
  if Z.eqb n 0 then Raise ZeroDivisionError else Ok (Float.div x (Float.of_int n)).

(** [max(l)]: the first of the largest elements; [ValueError] on []. *)
Definition py_max (l : list Q) : result Q :=
  match l with
  | [] => Raise ValueError
  | x :: l' => Ok (fold_left (fun m y => if Qltb m y then y else m) l' x)
  end.

(** [x in l] and [l.index(x)] on floats, with [==]. *)
Definition Q_in (x : Q) (l : list Q) : bool := existsb (Qeqb x) l.

Fixpoint Q_index (x : Q) (l : list Q) : nat :=
  match l with
  | [] => 0
  | y :: l' => if Qeqb y x then 0 else S (Q_index x l')
  end.

(** [set(l)] on floats, as the list of its distinct values. *)
Fixpoint Q_set (l : list Q) : list Q :=
  match l with
  | [] => []
  | x :: l' => if Q_in x l' then Q_set l' else x :: Q_set l'
  end.

Section StableSort.
Context {A K : Type}.
Variable ltb : K -> K -> bool.
Variable key : A -> K.

(** [x] comes from the left of everything in [l]: it is placed before
    the first element that is not smaller. *)
Fixpoint insert_by (x : A) (l : list A) : list A :=
  match l with
  | [] => [x]
  | y :: l' => if ltb (key y) (key x) then y :: insert_by x l' else x :: y :: l'
  end.

(** [l.sort(key=key)]: the stable arrangement of [l] by [key]. *)
Fixpoint sort_by (l : list A) : list A :=
  match l with
  | [] => []
  | x :: l' => insert_by x (sort_by l')
  end.
End StableSort.

(** [sorted(l, reverse=True)] on floats *)
Definition sorted_desc (l : list Q) : list Q := sort_by (fun a b => Qltb b a) (fun x => x) l.

(** [max(l, key=key)] on a non-empty list [x :: l]: the first element
    whose key is largest. *)
Definition max_by {A : Type} (key : A -> Q) (x : A) (l : list A) : A :=
  fold_left (fun m y => if Qltb (key m) (key y) then y else m) l x.

(** Tuple comparison [(a1, b1) < (a2, b2)]. *)
Definition pair_ltb {A B : Type} (eqA ltA : A -> A -> bool) (ltB : B -> B -> bool)
  (x y : A * B) : bool :=
  if eqA (fst x) (fst y) then ltB (snd x) (snd y) else ltA (fst x) (fst y).

Definition str_ltb (a b : string) : bool :=
  match String_as_OT.compare a b with Lt => true | _ => false end.

(** ** Data model *)

Inductive level : Type := H1 | H2 | H3 | H4.

(** A text span as [extract_text_from_pdf] builds it.  The keys ["font"]
    and ["bbox"] are never read by the analysis and are left out. *)
Record element : Type := Element {
  text : string;
  size : Q;
  flags : Z;
  page : Z
}.

(** An entry of [possible_titles]. *)
Record candidate : Type := Candidate {
  c_text : string;
  c_size : Q;
  c_page : Z
}.

(** An entry of [potential_headings]. *)
Record pheading : Type := PHeading {
  p_text : string;
  p_level : level;
  p_page : Z;
  p_size : Q
}.

(** An entry of the returned outline. *)
Record heading : Type := Heading {
  h_level : level;
  h_text : string;
  h_page : Z
}.

(** A page section as [split_document_by_sections] builds it. *)
Record section : Type := Section_ {
  document : string;
  start_page : Z;
  end_page : Z;
  section_title : string;
  refined_text : string;
  s_level : string
}.

(** An entry of the ranked list. *)
Record ranked : Type := Ranked {
  r_document : string;
  r_start_page : Z;
  r_section_title : string;
  importance_rank : Z;
  r_refined_text : string
}.

(** ** The patterns of the source, shared by [main.py] and [main2.py] *)

Module Pat.
Import Re.

Definition colon : regex := Chr ":".
Definition P (r : list regex) : pattern := Pattern (Seq r) false.
Definition P_end (r : list regex) : pattern := Pattern (Seq r) true.

(** "^\d+\.?\s" *)
Definition leading_number : pattern := P [Plus digit; Opt dot; space].

(** "^\d+$" *)
Definition only_digits : pattern := P_end [Plus digit].
(** "^page\s+\d+", "^figure\s+\d+", "^table\s+\d+" *)
Definition page_n : pattern := P [Lit "page"; Plus space; Plus digit].
Definition figure_n : pattern := P [Lit "figure"; Plus space; Plus digit].
Definition table_n : pattern := P [Lit "table"; Plus space; Plus digit].
(** "^\w{1,2}$" *)
Definition short_token : pattern := P_end [word; Opt word].
(** "^[^\w\s]+$" *)
Definition punctuation : pattern :=
  P_end [Plus (Cls (fun c => negb (Py.is_word c || Py.is_space c)))].
(** "^\d{4}$" *)
Definition year : pattern := P_end [digit; digit; digit; digit].
(** "^www\." *)
Definition www : pattern := P [Lit "www"; dot].
(** "@" *)
Definition at_sign : pattern := P [Chr "@"].

(** "^\d+\.?\s+[A-Z]" *)
Definition num1_cap : pattern := P [Plus digit; Opt dot; Plus space; upper].
(** "^\d+\.\d+\.?\s+[A-Z]" *)
Definition num2_cap : pattern :=
  P [Plus digit; dot; Plus digit; Opt dot; Plus space; upper].
(** "^\d+\.\d+\.\d+\.?\s+[A-Z]" *)
Definition num3_cap : pattern :=
  P [Plus digit; dot; Plus digit; dot; Plus digit; Opt dot; Plus space; upper].
(** "^\d+\.\d+\.\d+\.\d+\.?\s+[A-Z]" *)
Definition num4_cap : pattern :=
  P [Plus digit; dot; Plus digit; dot; Plus digit; dot; Plus digit; Opt dot;
     Plus space; upper].
(** "^[A-Z][a-z]+(\s+[A-Z&][a-z]*" followed by ")*:?\s*$" *)
Definition title_case : pattern :=
  P_end [upper; Plus lower;
         Star (Seq [Plus space; Cls (fun c => Py.is_upper c || Ascii.eqb c "&");
                    Star lower]);
         Opt colon; Star space].
(** "^[A-Z][A-Z\s&]+:?\s*$" *)
Definition all_caps : pattern :=
  P_end [upper;
         Plus (Cls (fun c => Py.is_upper c || Py.is_space c || Ascii.eqb c "&"));
         Opt colon; Star space].
(** "^Appendix\s+[A-Z]" *)
Definition appendix : pattern := P [Lit "Appendix"; Plus space; upper].
(** "^Phase\s+[IVX]" *)
Definition IVX : regex :=
  Cls (fun c => Ascii.eqb c "I" || Ascii.eqb c "V" || Ascii.eqb c "X").
Definition phase : pattern := P [Lit "Phase"; Plus space; IVX].
(** "^For\s+(each|the)\s+[A-Z]" *)
Definition for_each : pattern :=
  P [Lit "For"; Plus space; Alt (Lit "each") (Lit "the"); Plus space; upper].
(** "^\d+\.\s+[A-Z]" *)
Definition num_dot_cap : pattern := P [Plus digit; dot; Plus space; upper].

(** "^\d+\.\d+\.?\s+" *)
Definition num2 : pattern := P [Plus digit; dot; Plus digit; Opt dot; Plus space].
(** "^\d+\.\d+\.\d+\.?\s+" *)
Definition num3 : pattern :=
  P [Plus digit; dot; Plus digit; dot; Plus digit; Opt dot; Plus space].
(** "^\d+\.\d+\.\d+\.\d+\.?\s+" *)
Definition num4 : pattern :=
  P [Plus digit; dot; Plus digit; dot; Plus digit; dot; Plus digit; Opt dot;
     Plus space].
(** "^Appendix\s+[A-Z]:" *)
Definition appendix_colon : pattern := P [Lit "Appendix"; Plus space; upper; colon].
(** "^Phase\s+[IVX]+:" *)
Definition phase_colon : pattern := P [Lit "Phase"; Plus space; Plus IVX; colon].

(** The ends of the numbered patterns: "\.?\s+[A-Z]" and "\.?\s+". *)
Definition tail_cap : regex := Cat (Opt dot) (Cat (Plus space) upper).
Definition tail_ws : regex := Cat (Opt dot) (Plus space).

End Pat.

(** ** [src/main.py] *)

Module Main.
Import Pat.

(** [clean_text]: [re.sub(r'\s+', ' ', text_string.strip())] *)
Definition clean_text (text_string : string) : string :=
  Py.sub_ws_space (Py.strip text_string).

Definition non_heading_patterns : list Re.pattern :=
  [only_digits; page_n; figure_n; table_n; short_token; punctuation; year; www;
   at_sign].

Definition heading_patterns : list Re.pattern :=
  [num1_cap; num2_cap; num3_cap; num4_cap; title_case; all_caps; appendix;
   phase; for_each; num_dot_cap].

Definition common_heading_words : list string :=
  ["summary"; "background"; "introduction"; "conclusion";
   "abstract"; "references"; "methodology"; "approach";
   "requirements"; "evaluation"; "timeline"; "milestones";
   "appendix"; "phase"; "business"; "plan"].

Section Closure.
(** The variables of [analyze_document_structure] that its nested
    functions read. *)
Variable all_sizes : list Q.
Variable average_size : Q.
Variable unique_font_sizes : list Q.

Definition could_be_title (text_item : string) (size : Q) (page_num flags_value : Z)
  : result bool :=
  if (page_num >? 2)%Z then mret false
  else
    m ← py_max all_sizes;
    if Qltb size (Float.mul m (Float.lit 0.9)) then mret false
    else
      let word_count := Z.of_nat (length (Py.split text_item)) in
      if (word_count <? 3)%Z || (word_count >? 25)%Z then mret false
      else if Re.re_match leading_number text_item then mret false
      else if Py.startswith (Py.lower text_item) "page"
              || Py.startswith (Py.lower text_item) "chapter" then mret false
      else mret true.

Definition heading_score (normalized_text : string) (size : Q) (flags_value : Z) : Z :=
  let is_bold := negb (Z.land flags_value 16 =? 0)%Z in
  let larger_than_normal := Qltb (Float.mul average_size (Float.lit 1.15)) size in
  let matches_pattern :=
    existsb (fun p => Re.re_match p normalized_text) heading_patterns in
  let contains_keyword :=
    existsb (fun w => Py.contains (Py.lower normalized_text) w) common_heading_words in
  let ends_with_colon := Py.endswith normalized_text ":" in
  ((if is_bold then 2 else 0)
   + (if matches_pattern then 3 else 0)
   + (if larger_than_normal then 1 else 0)
   + (if contains_keyword then 2 else 0)
   + (if ends_with_colon then 1 else 0)
   + (if Qleb (Float.mul average_size (Float.lit 1.3)) size then 1 else 0))%Z.

Definition looks_like_heading (text_item : string) (size : Q) (page_num flags_value : Z)
  : bool :=
  let normalized_text := clean_text text_item in
  if (Py.len normalized_text <? 2)%Z || (Py.len normalized_text >? 150)%Z then false
  else
    let word_count := Z.of_nat (length (Py.split normalized_text)) in
    if (word_count >? 20)%Z then false
    else if existsb (fun p => Re.re_match p (Py.lower normalized_text))
              non_heading_patterns then false
    else (heading_score normalized_text size flags_value >=? 4)%Z.

Definition determine_heading_level (text_item : string) (size : Q) (page_num : Z)
  : level :=
  let clean_text := Py.sub_ws_space (Py.strip text_item) in
  if Re.re_match num1_cap clean_text then H1
  else if Re.re_match num2 clean_text then H2
  else if Re.re_match num3 clean_text then H3
  else if Re.re_match num4 clean_text then H4
  else if Re.re_match appendix_colon clean_text then H2
  else if Re.re_match phase_colon clean_text then H3
  else if Re.re_match for_each clean_text then H4
  else if Re.re_match num_dot_cap clean_text then H3
  else if (4 <=? length unique_font_sizes)%nat then
    let size_rank :=
      if Q_in size unique_font_sizes then Q_index size unique_font_sizes
      else (length unique_font_sizes - 1)%nat in
    match size_rank with
    | 0%nat => H1
    | 1%nat => H2
    | 2%nat => H3
    | _ => H4
    end
  else if Qleb (Float.mul average_size (Float.lit 1.4)) size then H1
  else if Qleb (Float.mul average_size (Float.lit 1.25)) size then H2
  else if Qleb (Float.mul average_size (Float.lit 1.1)) size then H3
  else H4.

(** The loop that fills [possible_titles]. *)
Fixpoint title_loop (text_elements : list element) (possible_titles : list candidate)
  : result (list candidate) :=
  match text_elements with
  | [] => mret possible_titles
  | element :: rest =>
      b ← could_be_title (text element) (size element) (page element) (flags element);
      title_loop rest
        (if (b : bool)
         then possible_titles ++
                [Candidate (clean_text (text element)) (size element) (page element)]
         else possible_titles)
  end.

(** [best_candidate]: [max(possible_titles, key=size * 1000 - page)],
    under the guard [if possible_titles]. *)
Definition title_key (x : candidate) : Q :=
  Float.sub (Float.mul (c_size x) (Float.of_int 1000)) (Float.of_int (c_page x)).

Definition best_candidate (possible_titles : list candidate) : option candidate :=
  match possible_titles with
  | [] => None
  | x :: l => Some (max_by title_key x l)
  end.

Definition select_title (possible_titles : list candidate) : string :=
  match best_candidate possible_titles with
  | Some best => c_text best
  | None => "Untitled Document"
  end.

(** One round of the loop over [text_elements] that fills
    [potential_headings] and [processed_texts]. *)
Definition heading_step (doc_title : string)
  (st : list pheading * gset string) (element : element)
  : list pheading * gset string :=
  let '(potential_headings, processed_texts) := st in
  let text_cleaned := clean_text (text element) in
  let text_lower := Py.lower text_cleaned in
  if bool_decide (text_lower ∈ processed_texts)
     || String.eqb text_lower (Py.lower doc_title)
  then st
  else if looks_like_heading (text element) (size element) (page element) (flags element)
  then
    let heading_type :=
      determine_heading_level (text element) (size element) (page element) in
    (potential_headings ++
       [PHeading text_cleaned heading_type (page element) (size element)],
     {[text_lower]} ∪ processed_texts)
  else st.

Definition heading_loop (doc_title : string) (text_elements : list element)
  (st : list pheading * gset string) : list pheading * gset string :=
  fold_left (heading_step doc_title) text_elements st.
End Closure.

(** The sort key [(x["page"], -x["size"])] and its order. *)
Definition heading_key (x : pheading) : Z * Q := (p_page x, (- p_size x)%Q).
Definition heading_key_ltb : Z * Q -> Z * Q -> bool := pair_ltb Z.eqb Z.ltb Qltb.

(** The condition of the final filtering loop. *)
Definition quality_check (text_content : string) : bool :=
  (2 <=? Z.of_nat (length (Py.split text_content)))%Z
  && negb (Re.re_match only_digits text_content)
  && negb (existsb (String.eqb (Py.lower text_content)) ["page"; "figure"; "table"])
  && (3 <=? Py.len (Py.strip text_content))%Z.

Definition confirm (h : pheading) : heading :=
  Heading (p_level h) (p_text h) (p_page h).

(** [potential_headings] after the sort and the final filtering, still
    with the font sizes. *)
Definition confirmed_potential (potential_headings : list pheading) : list pheading :=
  List.filter (fun h => quality_check (p_text h))
    (sort_by heading_key_ltb heading_key potential_headings).

Definition analyze_document_structure (text_elements : list element)
  : result (list heading * string) :=
  match text_elements with
  | [] => Ok ([], "No Title Found")
  | _ :: _ =>
      let all_sizes := map size text_elements in
      average_size ← py_div (py_sum all_sizes) (Z.of_nat (length all_sizes));
      let unique_font_sizes := sorted_desc (Q_set all_sizes) in
      possible_titles ← title_loop all_sizes text_elements [];
      let doc_title := select_title possible_titles in
      let potential_headings :=
        fst (heading_loop average_size unique_font_sizes doc_title text_elements ([], ∅)) in
      mret (map confirm (confirmed_potential potential_headings), doc_title)
  end.

(** *** Persona analysis: the ranking of page sections *)

(** [set(s.lower().split())] *)
Definition word_set (s : string) : gset string := list_to_set (Py.split (Py.lower s)).

(** [search_terms] *)
Definition search_terms (task_description role_input : string) : gset string :=
  word_set (task_description ++ " " ++ role_input).

(** [len(search_terms & section_words)] *)
Definition match_count (terms : gset string) (title : string) : Z :=
  Z.of_nat (base.size (terms ∩ word_set title)).

(** The loop that fills [important_sections]. *)
Definition important_sections (terms : gset string) (all_doc_sections : list section)
  : list ranked :=
  map (fun section =>
         Ranked (document section) (start_page section) (section_title section) 0
           (Py.take 1000 (refined_text section)))
    (List.filter (fun section => negb (match_count terms (section_title section) =? 0)%Z)
       all_doc_sections).

(** The sort key [(-len(...), s["document"], s["start_page"])]. *)
Definition section_key (terms : gset string) (s : ranked) : Z * (string * Z) :=
  ((- match_count terms (r_section_title s))%Z, (r_document s, r_start_page s)).

Definition section_key_ltb : Z * (string * Z) -> Z * (string * Z) -> bool :=
  pair_ltb Z.eqb Z.ltb (pair_ltb String.eqb str_ltb Z.ltb).

(** [for i, section in enumerate(l, i): section["importance_rank"] = i] *)
Fixpoint assign_ranks (i : Z) (l : list ranked) : list ranked :=
  match l with
  | [] => []
  | s :: l' =>
      Ranked (r_document s) (r_start_page s) (r_section_title s) i (r_refined_text s)
        :: assign_ranks (i + 1) l'
  end.

(** [top_sections], with the number of slots (5 in the source) as [top_k]. *)
Definition top_sections_k (top_k : nat) (all_doc_sections : list section)
  (role_input task_description : string) : list ranked :=
  let terms := search_terms task_description role_input in
  assign_ranks 1
    (firstn top_k
       (sort_by section_key_ltb (section_key terms)
          (important_sections terms all_doc_sections))).

Definition top_sections := top_sections_k 5.

End Main.

(** ** [src/main2.py] *)

Module Main2.
Import Pat.

(** [clean_heading_text] *)
Definition clean_heading_text (text : string) : string :=
  Py.sub_ws_space (Py.strip text).

Definition skip_patterns : list Re.pattern :=
  [only_digits; page_n; figure_n; table_n; short_token; punctuation; year; www;
   at_sign].

Definition heading_patterns : list Re.pattern :=
  [num1_cap; num2_cap; num3_cap; num4_cap; title_case; all_caps; appendix;
   phase; for_each; num_dot_cap].

Definition heading_keywords : list string :=
  ["summary"; "background"; "introduction"; "conclusion"; "abstract";
   "references"; "methodology"; "approach"; "requirements"; "evaluation";
   "timeline"; "milestones"; "appendix"; "phase"; "business"; "plan"].

Section Closure.
Variable font_sizes : list Q.
Variable avg_size : Q.
Variable unique_sizes : list Q.

Definition is_title_candidate (text : string) (size : Q) (page flags : Z)
  : result bool :=
  if (page >? 2)%Z then mret false
  else
    m ← py_max font_sizes;
    if Qltb size (Float.mul m (Float.lit 0.9)) then mret false
    else
      let word_count := Z.of_nat (length (Py.split text)) in
      if (word_count <? 3)%Z || (word_count >? 25)%Z then mret false
      else if Re.re_match leading_number text
              || (Py.startswith (Py.lower text) "page"
                  || Py.startswith (Py.lower text) "chapter") then mret false
      else mret true.

Definition is_heading_candidate (text : string) (size : Q) (page flags : Z) : bool :=
  let text_clean := clean_heading_text text in
  if (Py.len text_clean <? 2)%Z || (Py.len text_clean >? 150)%Z then false
  else
    let word_count := Z.of_nat (length (Py.split text_clean)) in
    if (word_count >? 20)%Z then false
    else if existsb (fun pattern => Re.re_match pattern (Py.lower text_clean))
              skip_patterns then false
    else
      let is_bold := negb (Z.land flags 16 =? 0)%Z in
      let is_larger := Qltb (Float.mul avg_size (Float.lit 1.15)) size in
      let matches_pattern :=
        existsb (fun pattern => Re.re_match pattern text_clean) heading_patterns in
      let has_keyword :=
        existsb (fun keyword => Py.contains (Py.lower text_clean) keyword)
          heading_keywords in
      let ends_with_colon := Py.endswith text_clean ":" in
      let score :=
        ((if is_bold then 2 else 0)
         + (if matches_pattern then 3 else 0)
         + (if is_larger then 1 else 0)
         + (if has_keyword then 2 else 0)
         + (if ends_with_colon then 1 else 0)
         + (if Qleb (Float.mul avg_size (Float.lit 1.3)) size then 1 else 0))%Z in
      (score >=? 4)%Z.

Definition classify_heading_level (text : string) (size : Q) (page : Z) : level :=
  let text_clean := clean_heading_text text in
  if Re.re_match num1_cap text_clean then H1
  else if Re.re_match num2 text_clean then H2
  else if Re.re_match num3 text_clean then H3
  else if Re.re_match num4 text_clean then H4
  else if Re.re_match appendix_colon text_clean then H2
  else if Re.re_match phase_colon text_clean then H3
  else if Re.re_match for_each text_clean then H4
  else if Re.re_match num_dot_cap text_clean then H3
  else if (4 <=? length unique_sizes)%nat then
    let size_rank :=
      if Q_in size unique_sizes then Q_index size unique_sizes
      else (length unique_sizes - 1)%nat in
    match size_rank with
    | 0%nat => H1
    | 1%nat => H2
    | 2%nat => H3
    | _ => H4
    end
  else if Qleb (Float.mul avg_size (Float.lit 1.4)) size then H1
  else if Qleb (Float.mul avg_size (Float.lit 1.25)) size then H2
  else if Qleb (Float.mul avg_size (Float.lit 1.1)) size then H3
  else H4.

(** Step 1: the loop that fills [title_candidates]. *)
Fixpoint title_loop (text_items : list element) (title_candidates : list candidate)
  : result (list candidate) :=
  match text_items with
  | [] => mret title_candidates
  | item :: rest =>
      b ← is_title_candidate (text item) (size item) (page item) (flags item);
      title_loop rest
        (if (b : bool)
         then title_candidates ++
                [Candidate (clean_heading_text (text item)) (size item) (page item)]
         else title_candidates)
  end.

(** [best_title] *)
Definition best_title (title_candidates : list candidate) : option candidate :=
  match title_candidates with
  | [] => None
  | x :: l =>
      Some (max_by
              (fun x => Float.sub (Float.mul (c_size x) (Float.of_int 1000))
                          (Float.of_int (c_page x)))
              x l)
  end.

Definition select_title (title_candidates : list candidate) : string :=
  match best_title title_candidates with
  | Some best => c_text best
  | None => "Untitled Document"
  end.

(** Step 2: one round of the loop that fills [heading_candidates] and
    [seen_texts]. *)
Definition heading_step (title : string)
  (st : list pheading * gset string) (item : element)
  : list pheading * gset string :=
  let '(heading_candidates, seen_texts) := st in
  let text_clean := clean_heading_text (text item) in
  let text_lower := Py.lower text_clean in
  if bool_decide (text_lower ∈ seen_texts)
     || String.eqb text_lower (Py.lower title)
  then st
  else if is_heading_candidate (text item) (size item) (page item) (flags item)
  then
    let level := classify_heading_level (text item) (size item) (page item) in
    (heading_candidates ++ [PHeading text_clean level (page item) (size item)],
     {[text_lower]} ∪ seen_texts)
  else st.

Definition heading_loop (title : string) (text_items : list element)
  (st : list pheading * gset string) : list pheading * gset string :=
  fold_left (heading_step title) text_items st.
End Closure.

(** The final filtering of [heading_candidates], after the sort. *)
Definition final_headings (heading_candidates : list pheading) : list heading :=
  map (fun heading => Heading (p_level heading) (p_text heading) (p_page heading))
    (List.filter
       (fun heading =>
          let text := p_text heading in
          (2 <=? Z.of_nat (length (Py.split text)))%Z
          && negb (Re.re_match only_digits text)
          && negb (existsb (String.eqb (Py.lower text)) ["page"; "figure"; "table"])
          && (3 <=? Py.len (Py.strip text))%Z)
       (sort_by (pair_ltb Z.eqb Z.ltb Qltb) (fun x => (p_page x, (- p_size x)%Q))
          heading_candidates)).

Definition identify_structure (text_items : list element)
  : result (list heading * string) :=
  match text_items with
  | [] => Ok ([], "Untitled Document")
  | _ :: _ =>
      let font_sizes := map size text_items in
      avg_size ← py_div (py_sum font_sizes) (Z.of_nat (length font_sizes));
      let unique_sizes := sorted_desc (Q_set font_sizes) in
      title_candidates ← title_loop font_sizes text_items [];
      let title := select_title title_candidates in
      let heading_candidates :=
        fst (heading_loop avg_size unique_sizes title text_items ([], ∅)) in
      mret (final_headings heading_candidates, title)
  end.

(** *** The ranking of page sections *)

(** [keyword_set] *)
Definition keyword_set (job_description user_persona : string) : gset string :=
  list_to_set (Py.split (Py.lower (job_description ++ " " ++ user_persona))).

(** [len(keyword_set & title_words)] *)
Definition match_score (keywords : gset string) (title : string) : Z :=
  Z.of_nat (base.size (keywords ∩ list_to_set (Py.split (Py.lower title)))).

(** [for idx, sec in enumerate(l): sec["importance_rank"] = idx + 1] *)
Fixpoint assign_ranks (idx : Z) (l : list ranked) : list ranked :=
  match l with
  | [] => []
  | sec :: l' =>
      Ranked (r_document sec) (r_start_page sec) (r_section_title sec) (idx + 1)
        (r_refined_text sec)
        :: assign_ranks (idx + 1) l'
  end.

(** [relevant_sections] at the end, with the number of slots (5 in the
    source) as [top_k]. *)
Definition relevant_sections_k (top_k : nat) (all_sections : list section)
  (user_persona job_description : string) : list ranked :=
  let keywords := keyword_set job_description user_persona in
  let relevant_sections :=
    map (fun section =>
           Ranked (document section) (start_page section) (section_title section) 0
             (Py.take 1000 (refined_text section)))
      (List.filter (fun section => negb (match_score keywords (section_title section) =? 0)%Z)
         all_sections) in
  assign_ranks 0
    (firstn top_k
       (sort_by (pair_ltb Z.eqb Z.ltb (pair_ltb String.eqb str_ltb Z.ltb))
          (fun sec => ((- match_score keywords (r_section_title sec))%Z,
                       (r_document sec, r_start_page sec)))
          relevant_sections)).

Definition relevant_sections := relevant_sections_k 5.

End Main2.

(** ** Notions used in the statements *)

(** Some prefix of [l] is a word of [r]. *)
Definition PrefixIn (r : Re.regex) (l : list ascii) : Prop :=
  exists l1 l2, l = l1 ++ l2 /\ Re.Matches r l1.

(** Every word of [r] starts with a character that satisfies [P]. *)
Definition Starts (P : ascii -> Prop) (r : Re.regex) : Prop :=
  forall l, Re.Matches r l -> exists c l', l = c :: l' /\ P c.

Fixpoint drop_while (p : ascii -> bool) (l : list ascii) : list ascii :=
  match l with
  | c :: l' => if p c then drop_while p l' else l
  | [] => []
  end.

Fixpoint take_while (p : ascii -> bool) (l : list ascii) : list ascii :=
  match l with
  | c :: l' => if p c then c :: take_while p l' else []
  | [] => []
  end.

(** A strict order given by a boolean test: asymmetric, and its negation
    ("not after") is transitive. *)
Definition asym {K : Type} (ltb : K -> K -> bool) : Prop :=
  forall x y, ltb x y = true -> ltb y x = false.

Definition negtrans {K : Type} (ltb : K -> K -> bool) : Prop :=
  forall x y z, ltb y x = false -> ltb z y = false -> ltb z x = false.

Definition trichotomous {K : Type} (ltb : K -> K -> bool) : Prop :=
  forall x y, ltb x y = false -> ltb y x = false -> x = y.

(** [a] is not after [b] in the order of the key. *)
Definition not_after {A K : Type} (ltb : K -> K -> bool) (key : A -> K) (a b : A) : Prop :=
  ltb (key b) (key a) = false.

(** Page ascending, then font size descending. *)
Definition heading_le (a b : pheading) : Prop :=
  (p_page a < p_page b)%Z \/ (p_page a = p_page b /\ (p_size b <= p_size a)%Q).

(** The headings of the result whose text is [t] up to letter case. *)
Definition heading_for (t : string) (h : heading) : bool :=
  String.eqb (Py.lower (h_text h)) t.

Definition pheading_for (t : string) (p : pheading) : bool :=
  String.eqb (Py.lower (p_text p)) t.

(** The fragment's normalized text is [t] up to letter case and the
    fragment passes the heading filter. *)
Definition passes (average_size : Q) (t : string) (e : element) : bool :=
  String.eqb (Py.lower (Main.clean_text (text e))) t
  && Main.looks_like_heading average_size (text e) (size e) (page e) (flags e).

(** Match score descending, then document name ascending, then page
    number ascending. *)
Definition section_le (terms : gset string) (a b : ranked) : Prop :=
  (Main.match_count terms (r_section_title b) < Main.match_count terms (r_section_title a))%Z
  \/ (Main.match_count terms (r_section_title a) = Main.match_count terms (r_section_title b)
      /\ (String_as_OT.lt (r_document a) (r_document b)
          \/ (r_document a = r_document b /\ (r_start_page a <= r_start_page b)%Z))).

(** [o] is the entry [s] with the rank [i]. *)
Definition ranked_as (i : Z) (s o : ranked) : Prop :=
  o = Ranked (r_document s) (r_start_page s) (r_section_title s) i (r_refined_text s).

(** The entry that the heading loop appends for a fragment. *)
Definition heading_entry (average_size : Q) (unique_font_sizes : list Q) (e : element)
  : pheading :=
  PHeading (Main.clean_text (text e))
    (Main.determine_heading_level average_size unique_font_sizes
       (text e) (size e) (page e))
    (page e) (size e).

(** ** Inputs of the worked examples *)

(** "Executive Summary" (18, bold, page 1), "1. Introduction" (14, page 2),
    "1.1 Background" (12, page 2); bold is bit 16 of the flags. *)
Definition summary_example : list element :=
  [Element "Executive Summary" 18 16 1;
   Element "1. Introduction" 14 0 2;
   Element "1.1 Background" 12 0 2].

(** Two title candidates: the larger font, by 0.0005, is on the later page. *)
Definition close_sizes_example : list element :=
  [Element "Annual Report Overview" 12 0 1;
   Element "Prepared For Review" (Float.lit 12.0005) 0 2].

(** The same one-word heading twice, in two letter cases. *)
Definition one_word_example : list element :=
  [Element "Summary:" 12 16 1; Element "SUMMARY:" 12 16 2].

(** The same two-word heading twice, in two letter cases. *)
Definition duplicate_example : list element :=
  [Element "body text of the first page" 10 0 1;
   Element "Project Background" 14 16 3;
   Element "PROJECT  BACKGROUND" 16 16 2].

(** Two page sections, the second without a word of the query. *)
Definition ranking_example : list section :=
  [Section_ "plan.pdf" 1 1 "Project timeline and milestones" "Project timeline" "auto";
   Section_ "plan.pdf" 2 2 "Catering options" "Catering options for the event" "auto"].

(** Nine page sections of three documents; eight share a word with the
    query "review project timeline" / "manager". *)
Definition eight_matches_example : list section :=
  [Section_ "a.pdf" 1 1 "project timeline review" "text a1" "auto";
   Section_ "a.pdf" 2 2 "project kickoff" "text a2" "auto";
   Section_ "a.pdf" 3 3 "Timeline of the Project" "text a3" "auto";
   Section_ "b.pdf" 1 1 "manager review notes" "text b1" "auto";
   Section_ "b.pdf" 2 2 "budget timeline" "text b2" "auto";
   Section_ "b.pdf" 3 3 "project manager timeline review" "text b3" "auto";
   Section_ "c.pdf" 1 1 "review" "text c1" "auto";
   Section_ "c.pdf" 2 2 "the project" "text c2" "auto";
   Section_ "c.pdf" 3 3 "unrelated" "text c3" "auto"].

(** ** The page dictionaries of the PDF library

    What the program reads of [page.get_text("dict")]: the blocks of a
    page, the lines of a block (the key ["lines"] is absent from image
    blocks), the spans of a line, and of a span its text, size, font and,
    when present, flags.  The bounding box is copied, never inspected, and
    is left out. *)

Module Fitz.

Record span : Type := Span {
  sp_text : string;
  sp_size : Q;
  sp_font : string;
  sp_flags : option Z
}.

(** [line["spans"]] *)
Definition line : Type := list span.

(** [block["lines"]], [None] when the key is absent *)
Definition block : Type := option (list line).

(** [pdf_doc[i].get_text("dict")["blocks"]] *)
Definition page_dict : Type := list block.

(** The opened document, page by page. *)
Definition pdf : Type := list page_dict.

End Fitz.

(** [sep.join(l)] *)
Fixpoint py_join (sep : string) (l : list string) : string :=
  match l with
  | [] => ""
  | [x] => x
  | x :: rest => x ++ sep ++ py_join sep rest
  end.

(** ** [src/main.py]: extraction of fragments and of page sections *)

Module MainPdf.
Import Fitz.

(** The body of the innermost loop of [extract_text_from_pdf]. *)
Definition span_content (page_number : Z) (text_span : span) : list element :=
  let clean_text := Py.strip (sp_text text_span) in
  if String.eqb clean_text "" || (Py.len clean_text <=? 1)%Z then []
  else [Element clean_text (sp_size text_span)
          (match sp_flags text_span with Some f => f | None => 0%Z end)
          page_number].

Definition block_content (page_number : Z) (b : block) : list element :=
  match b with
  | None => []
  | Some lines => flat_map (fun ln => flat_map (span_content page_number) ln) lines
  end.

(** The loop over [range(max_pages)], from the page index [current_page]. *)
Fixpoint pages_content (current_page : Z) (pages : list page_dict) : list element :=
  match pages with
  | [] => []
  | page_blocks :: rest =>
      flat_map (block_content (current_page + 1)) page_blocks
        ++ pages_content (current_page + 1) rest
  end.

Definition extract_text_from_pdf (pdf_doc : pdf) : list element :=
  let max_pages := Nat.min (length pdf_doc) 50 in
  pages_content 0 (firstn max_pages pdf_doc).

(** [page_content] of [split_document_by_sections] *)
Definition page_content (page_blocks : page_dict) : list string :=
  flat_map
    (fun content_block : block =>
       match content_block with
       | None => []
       | Some lines =>
           flat_map
             (fun text_line : line =>
                flat_map
                  (fun text_span =>
                     let line_content := Py.strip (sp_text text_span) in
                     if String.eqb line_content "" then [] else [line_content])
                  text_line)
             lines
       end)
    page_blocks.

(** The loop over [range(len(pdf_document))], from the index [page_num]. *)
Fixpoint sections_from (filename : string) (page_num : Z) (pages : list page_dict)
  : list section :=
  match pages with
  | [] => []
  | page_blocks :: rest =>
      let full_page_text := py_join " " (page_content page_blocks) in
      Section_ filename (page_num + 1) (page_num + 1)
        (Py.take 80 full_page_text) full_page_text "auto"
        :: sections_from filename (page_num + 1) rest
  end.

Definition split_document_by_sections (pdf_document : pdf) (filename : string)
  : list section :=
  sections_from filename 0 pdf_document.

(** [all_doc_sections]: the sections of every uploaded file, in order. *)
Definition all_doc_sections (uploaded_files : list (string * pdf)) : list section :=
  flat_map (fun document => split_document_by_sections (snd document) (fst document))
    uploaded_files.

(** The persona tab, from the uploaded files to [top_sections]. *)
Definition persona_analysis (uploaded_files : list (string * pdf))
  (role_input task_description : string) : list ranked :=
  Main.top_sections (all_doc_sections uploaded_files) role_input task_description.


End MainPdf.

(** ** [src/main2.py]: extraction of fragments and of page sections *)

Module Main2Pdf.
Import Fitz.

Fixpoint pages_content (page_num : Z) (pages : list page_dict) : list element :=
  match pages with
  | [] => []
  | blocks :: rest =>
      flat_map
        (fun b : block =>
           match b with
           | Some lines =>
               flat_map
                 (fun ln : line =>
                    flat_map
                      (fun span =>
                         let text := Py.strip (sp_text span) in
                         if negb (String.eqb text "") && (Py.len text >? 1)%Z
                         then [Element text (sp_size span)
                                 (match sp_flags span with Some f => f | None => 0%Z end)
                                 (page_num + 1)]
                         else [])
                      ln)
                 lines
           | None => []
           end)
        blocks
        ++ pages_content (page_num + 1) rest
  end.

Definition get_pdf_content (pdf : pdf) : list element :=
  pages_content 0 (firstn (Nat.min (length pdf) 50) pdf).

Fixpoint sections_from (file_name : string) (page : Z) (pages : list page_dict)
  : list section :=
  match pages with
  | [] => []
  | blocks :: rest =>
      let page_text :=
        flat_map
          (fun b : block =>
             match b with
             | Some lines =>
                 flat_map
                   (fun ln : line =>
                      flat_map
                        (fun span =>
                           let line_text := Py.strip (sp_text span) in
                           if negb (String.eqb line_text "") then [line_text] else [])
                        ln)
                   lines
             | None => []
             end)
          blocks in
      let full_text := py_join " " page_text in
      Section_ file_name (page + 1) (page + 1) (Py.take 80 full_text) full_text "auto"
        :: sections_from file_name (page + 1) rest
  end.

Definition split_pdf_into_sections (pdf : pdf) (file_name : string) : list section :=
  sections_from file_name 0 pdf.

End Main2Pdf.

(** ** [src/main3.py] *)

Module Main3.
Import Fitz.

(** A fragment as [extract] builds it: no flags, the font name is kept. *)
Record fragment : Type := Fragment {
  f_text : string;
  f_size : Q;
  f_font : string;
  f_page : Z
}.

Fixpoint pages_content (i : Z) (pages : list page_dict) : list fragment :=
  match pages with
  | [] => []
  | blocks :: rest =>
      flat_map
        (fun blk : block =>
           match blk with
           | Some lines =>
               flat_map
                 (fun ln : line =>
                    map (fun sp => Fragment (Py.strip (sp_text sp)) (sp_size sp)
                                     (sp_font sp) (i + 1))
                      ln)
                 lines
           | None => []
           end)
        blocks
        ++ pages_content (i + 1) rest
  end.

Definition extract (doc : pdf) : list fragment :=
  pages_content 0 (firstn (Nat.min (length doc) 50) doc).

(** One round of the loop of [detect] over the state [(ttl, out)]. *)
Definition detect_step (avg mx : Q) (st : string * list heading) (d : fragment)
  : string * list heading :=
  let '(ttl, out) := st in
  let txt := f_text d in
  let sz := f_size d in
  let ft := Py.lower (f_font d) in
  if String.eqb txt "" || (Py.len txt <? 3)%Z then st
  else if Qleb (Float.mul mx (Float.lit 0.95)) sz && String.eqb ttl "Untitled"
  then (txt, out)
  else if Qltb (Float.mul avg (Float.lit 1.2)) sz
          && (Py.contains ft "bold" || Qltb (Float.mul avg (Float.lit 1.5)) sz)
  then
    let lvl :=
      if Qleb (Float.mul avg (Float.lit 1.5)) sz then H1
      else if Qleb (Float.mul avg (Float.lit 1.3)) sz then H2 else H3 in
    (ttl, out ++ [Heading lvl txt (f_page d)])
  else st.

Definition detect (data : list fragment) : result (list heading * string) :=
  match data with
  | [] => Ok ([], "Untitled")
  | _ :: _ =>
      let sizes := map f_size data in
      avg ← py_div (py_sum sizes) (Z.of_nat (length sizes));
      mx ← py_max sizes;
      let '(ttl, out) := fold_left (detect_step avg mx) data ("Untitled", []) in
      mret (out, ttl)
  end.

Fixpoint sections_from (filename : string) (i : Z) (pages : list page_dict)
  : list section :=
  match pages with
  | [] => []
  | blocks :: rest =>
      let content :=
        flat_map
          (fun blk : block =>
             match blk with
             | Some lines =>
                 flat_map
                   (fun ln : line =>
                      flat_map
                        (fun sp =>
                           let txt := Py.strip (sp_text sp) in
                           if negb (String.eqb txt "") then [txt] else [])
                        ln)
                   lines
             | None => []
             end)
          blocks in
      let full_text := py_join " " content in
      Section_ filename (i + 1) (i + 1) (Py.take 80 full_text) full_text "auto"
        :: sections_from filename (i + 1) rest
  end.

Definition extract_sections (doc : pdf) (filename : string) : list section :=
  sections_from filename 0 doc.

(** [len(twords & keys)] *)
Definition score (keys : gset string) (title : string) : Z :=
  Z.of_nat (base.size (list_to_set (Py.split (Py.lower title)) ∩ keys)).

Fixpoint assign_ranks (i : Z) (l : list ranked) : list ranked :=
  match l with
  | [] => []
  | m :: l' =>
      Ranked (r_document m) (r_start_page m) (r_section_title m) (i + 1)
        (r_refined_text m)
        :: assign_ranks (i + 1) l'
  end.

(** [matched] at the end of the persona tab. *)
Definition matched (all_parts : list section) (persona task : string) : list ranked :=
  let keys : gset string :=
    list_to_set (Py.split (Py.lower (task ++ " " ++ persona))) in
  let matched :=
    map (fun s =>
           Ranked (document s) (start_page s) (section_title s) 0
             (Py.take 1000 (refined_text s)))
      (List.filter
         (fun s => negb (String.eqb (refined_text s) "")
                   && negb (score keys (section_title s) =? 0)%Z)
         all_parts) in
  assign_ranks 0
    (firstn 5
       (sort_by (pair_ltb Z.eqb Z.ltb (pair_ltb String.eqb str_ltb Z.ltb))
          (fun x => ((- score keys (r_section_title x))%Z,
                     (r_document x, r_start_page x)))
          matched)).

End Main3.

(** ** Notions used in the statements about the rest of the code *)

(** Depth of a level: 1 for H1 up to 4 for H4. *)
Definition depth (l : level) : Z :=
  match l with H1 => 1 | H2 => 2 | H3 => 3 | H4 => 4 end%Z.

(** No whitespace at either end, and every whitespace character is a
    single space between two other characters. *)
Fixpoint single_spaced (l : list ascii) : bool :=
  match l with
  | [] => true
  | a :: l' =>
      (negb (Py.is_space a)
       || (Ascii.eqb a " "
           && match l' with
              | b :: _ => negb (Py.is_space b)
              | [] => false
              end))
      && single_spaced l'
  end.

Definition normalized (s : string) : Prop :=
  match Py.chars s with
  | [] => True
  | a :: _ => Py.is_space a = false
  end
  /\ single_spaced (Py.chars s) = true.

(** The test of [could_be_title], the maximum size being [m]. *)
Definition title_test (m : Q) (e : element) : Prop :=
  (page e <= 2)%Z
  /\ (Float.mul m (Float.lit 0.9) <= size e)%Q
  /\ (3 <= Z.of_nat (length (Py.split (text e))) <= 25)%Z
  /\ Re.re_match Pat.leading_number (text e) = false
  /\ Py.startswith (Py.lower (text e)) "page" = false
  /\ Py.startswith (Py.lower (text e)) "chapter" = false.

(** A document of two pages. *)
Definition pdf_example : Fitz.pdf :=
  [[Some [[Fitz.Span "  Project Plan  " 20 "Arial-Bold" (Some 16%Z);
           Fitz.Span " " 10 "Arial" None;
           Fitz.Span "x" 10 "Arial" (Some 0%Z)]];
    None];
   [Some [[Fitz.Span "1. Introduction" 14 "Arial" None];
          [Fitz.Span "The timeline of the project" 10 "Arial" (Some 0%Z)]]]].

(** The first, respectively the last, character is not whitespace. *)
Definition starts_clean (l : list ascii) : Prop :=
  match l with
  | [] => True
  | a :: _ => Py.is_space a = false
  end.

Fixpoint ends_clean (l : list ascii) : Prop :=
  match l with
  | [] => True
  | [a] => Py.is_space a = false
  | _ :: l' => ends_clean l'
  end.

(** The text of an entry of [potential_headings], lower-cased. *)
Definition lower_text (p : pheading) : string := Py.lower (p_text p).

(** The key of a title candidate is computed without rounding error. *)
Definition exact_key (c : candidate) : Prop :=
  (Main.title_key c == c_size c * 1000 - inject_Z (c_page c))%Q.

(** Two title candidates of one font size, the second on the earlier page. *)
Definition equal_sizes_example : list element :=
  [Element "Prepared For Review" 12 0 2;
   Element "Annual Report Overview" 12 0 1].

(** * Properties *)

(** ** The runtime model on small inputs *)

Example clean_text_example :
  Main.clean_text "  1.1   Project    scope " = "1.1 Project scope".
Proof. reflexivity. Qed.

Example split_example : Py.split "  a  bc d " = ["a"; "bc"; "d"].
Proof. reflexivity. Qed.

Example lower_example : Py.lower "Phase IV: Roll-Out" = "phase iv: roll-out".
Proof. reflexivity. Qed.

Example numbered_pattern_examples :
  Re.re_match Pat.num1_cap "1. Introduction" = true
  /\ Re.re_match Pat.num1_cap "1.1 Section" = false
  /\ Re.re_match Pat.num2_cap "1.1 Section" = true
  /\ Re.re_match Pat.num3_cap "1.1.1 Subsection" = true
  /\ Re.re_match Pat.num4_cap "1.1.1.1 Sub-subsection" = true
  /\ Re.re_match Pat.num1_cap "1. introduction" = false.
Proof. repeat split; reflexivity. Qed.

Example anchored_pattern_examples :
  Re.re_match Pat.only_digits "2024" = true
  /\ Re.re_match Pat.only_digits "2024 plan" = false
  /\ Re.re_match Pat.short_token "ab" = true
  /\ Re.re_match Pat.short_token "abc" = false
  /\ Re.re_match Pat.title_case "Executive Summary" = true
  /\ Re.re_match Pat.title_case "Executive summary" = false
  /\ Re.re_match Pat.all_caps "TERMS & CONDITIONS:" = true
  /\ Re.re_match Pat.at_sign "@home" = true
  /\ Re.re_match Pat.at_sign "me@home" = false.
Proof. repeat split; reflexivity. Qed.

Example heading_filter_examples :
  Main.looks_like_heading 12 "Page 3" 12 1 16 = false
  /\ Main.looks_like_heading 12 "1. Introduction" 12 1 0 = true
  /\ Main.looks_like_heading 12 "an ordinary sentence of body text" 12 1 0 = false.
Proof. repeat split; reflexivity. Qed.

Example eight_matches_ranking :
  map (fun o => (importance_rank o, r_document o, r_start_page o))
    (Main.top_sections eight_matches_example "manager" "review project timeline")
  = [(1, "b.pdf", 3); (2, "a.pdf", 1); (3, "a.pdf", 3); (4, "b.pdf", 1);
     (5, "a.pdf", 2)]%Z
  /\ length (Main.important_sections
               (Main.search_terms "review project timeline" "manager")
               eight_matches_example) = 8%nat.
Proof. split; vm_compute; reflexivity. Qed.

(** Rounding shows in the thresholds: [13 * 0.9] is the float above 11.7
    and [12 * 1.15] the float below 13.8. *)
Example rounded_products :
  (Float.lit 11.7 < Float.mul 13 (Float.lit 0.9))%Q
  /\ (Float.mul 12 (Float.lit 1.15) < Float.lit 13.8)%Q.
Proof. split; vm_compute; reflexivity. Qed.

(** A fragment of size 11.7 is no title candidate next to one of size 13. *)
Example title_threshold_example :
  Main.could_be_title [13%Q; Float.lit 11.7] "Annual Report Overview"
    (Float.lit 11.7) 1 0 = Ok false.
Proof. vm_compute. reflexivity. Qed.

(** With one size 10 and ten sizes 9 the average times 1.1 is the float
    above 10: the size 10 is below the H3 threshold. *)
Example level_threshold_example :
  py_div (py_sum [10; 9; 9; 9; 9; 9; 9; 9; 9; 9; 9]%Q) 11
  = Ok (Float.div 100 (Float.of_int 11))
  /\ (10 < Float.mul (Float.div 100 (Float.of_int 11)) (Float.lit 1.1))%Q
  /\ Main.determine_heading_level (Float.div 100 (Float.of_int 11)) [10%Q; 9%Q]
       "Project Background" 10 1 = H4.
Proof. repeat split; vm_compute; reflexivity. Qed.

(** With the sizes 7, 14, 14 the average times 1.2 is the float below 14:
    [detect] of [main3.py] makes the third fragment a heading. *)
Example detect_threshold_example :
  Main3.detect
    [Main3.Fragment "body text" 7 "Arial" 1;
     Main3.Fragment "The Title" 14 "Arial-Bold" 1;
     Main3.Fragment "Background" 14 "Arial-Bold" 1]
  = Ok ([Heading H3 "Background" 1], "The Title").
Proof. vm_compute. reflexivity. Qed.

(** At the size 1e14 the keys of the pages 1 and 2 are one float, and the
    candidate of page 2, first in the list, is selected. *)
Example equal_keys_example :
  Main.title_key (Candidate "Prepared For Review" 100000000000000 2)
  = Main.title_key (Candidate "Annual Report Overview" 100000000000000 1)
  /\ Main.best_candidate
       [Candidate "Prepared For Review" 100000000000000 2;
        Candidate "Annual Report Overview" 100000000000000 1]
     = Some (Candidate "Prepared For Review" 100000000000000 2).
Proof. split; vm_compute; reflexivity. Qed.

(** ** The matcher computes the language *)

Module ReFacts.
Import Re.

Lemma Matches_Void_inv l : Matches Void l -> False.
Proof. inversion 1. Qed.

Lemma nullable_spec r : nullable r = true <-> Matches r [].
Proof.
  induction r as [| | p | r1 IH1 r2 IH2 | r1 IH1 r2 IH2 | r IH]; simpl.
  - split; [discriminate | intros H; destruct (Matches_Void_inv _ H)].
  - split; [constructor | reflexivity].
  - split; [discriminate | inversion 1].
  - rewrite andb_true_iff, IH1, IH2. split.
    + intros [Ha Hb]. apply (MCat r1 r2 [] []); assumption.
    + intros H. inversion H as [| |? ? l1 l2 Ha Hb Heq| | | |]; subst.
      destruct l1; [|discriminate]. destruct l2; [|discriminate]. split; assumption.
  - rewrite orb_true_iff, IH1, IH2. split.
    + intros [Ha|Hb]; [apply MAltL | apply MAltR]; assumption.
    + intros H. inversion H; subst; [left | right]; assumption.
  - split; [constructor | reflexivity].
Qed.

Lemma cat_spec r1 r2 l : Matches (cat r1 r2) l <-> Matches (Cat r1 r2) l.
Proof.
  unfold cat. destruct r1, r2; simpl; try reflexivity;
    (split; [intros H; exfalso; exact (Matches_Void_inv _ H) |]);
    intros H; inversion H; subst;
    match goal with Hv : Matches Void _ |- _ => destruct (Matches_Void_inv _ Hv) end.
Qed.

Lemma alt_spec r1 r2 l : Matches (alt r1 r2) l <-> Matches (Alt r1 r2) l.
Proof.
  unfold alt. destruct r1; simpl.
  1: { split; [apply MAltR |]. inversion 1; subst; [exfalso; eauto using Matches_Void_inv | assumption]. }
  all: destruct r2; simpl; try reflexivity.
  all: split; [apply MAltL |].
  all: inversion 1; subst; [assumption | exfalso; eauto using Matches_Void_inv].
Qed.

Lemma Cat_inv r1 r2 l :
  Matches (Cat r1 r2) l -> exists l1 l2, l = l1 ++ l2 /\ Matches r1 l1 /\ Matches r2 l2.
Proof. inversion 1; subst. eauto. Qed.

Lemma Alt_inv r1 r2 l : Matches (Alt r1 r2) l -> Matches r1 l \/ Matches r2 l.
Proof. inversion 1; subst; auto. Qed.

Lemma Cls_inv p l : Matches (Cls p) l -> exists c, l = [c] /\ p c = true.
Proof. inversion 1; subst. eauto. Qed.

Lemma Eps_inv l : Matches Eps l -> l = [].
Proof. inversion 1; reflexivity. Qed.

(** A non-empty word of [Star r] starts with a non-empty word of [r]. *)
Lemma Star_cons_inv r c l :
  Matches (Star r) (c :: l) ->
  exists l1 l2, l = l1 ++ l2 /\ Matches r (c :: l1) /\ Matches (Star r) l2.
Proof.
  intros H. remember (Star r) as s eqn:Hs. remember (c :: l) as w eqn:Hw.
  revert c l Hw. induction H as [| | | | | |r' l1 l2 H1 _ H2 IH2]; try discriminate.
  injection Hs as ->. intros c l Hw. destruct l1 as [|a l1]; simpl in Hw.
  - apply IH2; [reflexivity | assumption].
  - injection Hw as -> <-. exists l1, l2. auto.
Qed.

Lemma deriv_spec c r : forall l, Matches (deriv c r) l <-> Matches r (c :: l).
Proof.
  induction r as [| | p | r1 IH1 r2 IH2 | r1 IH1 r2 IH2 | r IH]; intros l; simpl.
  - split; intros H; destruct (Matches_Void_inv _ H).
  - split; [intros H; destruct (Matches_Void_inv _ H) | inversion 1].
  - destruct (p c) eqn:Hp.
    + split.
      * intros H. apply Eps_inv in H. subst. constructor. assumption.
      * intros H. apply Cls_inv in H. destruct H as (c' & Heq & _).
        injection Heq as _ ->. constructor.
    + split; [intros H; destruct (Matches_Void_inv _ H) |].
      intros H. apply Cls_inv in H. destruct H as (c' & Heq & Hc).
      injection Heq as <- _. congruence.
  - assert (Hcat : Matches (cat (deriv c r1) r2) l <->
                   exists l1 l2, l = l1 ++ l2 /\ Matches r1 (c :: l1) /\ Matches r2 l2).
    { rewrite cat_spec. split.
      - intros H. apply Cat_inv in H. destruct H as (l1 & l2 & -> & Ha & Hb).
        exists l1, l2. rewrite <- IH1. auto.
      - intros (l1 & l2 & -> & Ha & Hb). constructor; [apply IH1|]; assumption. }
    assert (Hgoal : Matches (Cat r1 r2) (c :: l) <->
                    (exists l1 l2, l = l1 ++ l2 /\ Matches r1 (c :: l1) /\ Matches r2 l2)
                    \/ (Matches r1 [] /\ Matches r2 (c :: l))).
    { split.
      - intros H. apply Cat_inv in H. destruct H as (l1 & l2 & Heq & Ha & Hb).
        destruct l1 as [|a l1]; simpl in Heq.
        + subst l2. right. auto.
        + injection Heq as <- ->. left. eauto.
      - intros [(l1 & l2 & -> & Ha & Hb) | [Ha Hb]].
        + apply (MCat r1 r2 (c :: l1) l2); assumption.
        + apply (MCat r1 r2 [] (c :: l)); assumption. }
    rewrite Hgoal. destruct (nullable r1) eqn:Hn.
    + rewrite alt_spec. split.
      * intros H. apply Alt_inv in H. destruct H as [H|H].
        -- left. apply Hcat. assumption.
        -- right. split; [apply nullable_spec; assumption | apply IH2; assumption].
      * intros [H|[_ H]]; [apply MAltL, Hcat | apply MAltR, IH2]; assumption.
    + rewrite Hcat. split; [auto |]. intros [H|[H _]]; [assumption |].
      apply nullable_spec in H. congruence.
  - rewrite alt_spec. split.
    + intros H. apply Alt_inv in H.
      destruct H as [H|H]; [apply MAltL, IH1 | apply MAltR, IH2]; assumption.
    + intros H. apply Alt_inv in H.
      destruct H as [H|H]; [apply MAltL, IH1 | apply MAltR, IH2]; assumption.
  - rewrite cat_spec. split.
    + intros H. apply Cat_inv in H. destruct H as (l1 & l2 & -> & Ha & Hb).
      apply (MStarS r (c :: l1) l2); [apply IH|]; assumption.
    + intros H. apply Star_cons_inv in H. destruct H as (l1 & l2 & -> & Ha & Hb).
      constructor; [apply IH|]; assumption.
Qed.

Lemma full_match_spec : forall l r, full_match r l = true <-> Matches r l.
Proof.
  induction l as [|c l IH]; intros r; simpl.
  - apply nullable_spec.
  - rewrite IH. apply deriv_spec.
Qed.

Lemma prefix_match_spec : forall l r,
  prefix_match r l = true <-> exists l1 l2, l = l1 ++ l2 /\ Matches r l1.
Proof.
  induction l as [|c l IH]; intros r; simpl.
  - rewrite orb_false_r, nullable_spec. split.
    + intros H. exists [], []. auto.
    + intros (l1 & l2 & Heq & H). symmetry in Heq. apply app_eq_nil in Heq.
      destruct Heq as [-> _]. assumption.
  - rewrite orb_true_iff, IH, nullable_spec. split.
    + intros [H | (l1 & l2 & -> & H)].
      * exists [], (c :: l). auto.
      * exists (c :: l1), l2. split; [reflexivity | apply deriv_spec; assumption].
    + intros (l1 & l2 & Heq & H). destruct l1 as [|a l1]; simpl in Heq.
      * left. assumption.
      * injection Heq as <- ->. right. exists l1, l2.
        split; [reflexivity | apply deriv_spec; assumption].
Qed.

End ReFacts.

(** ** Scanning lemmas: how a pattern reads the head of a text *)

Module Scan.
Import Re ReFacts.

Lemma re_match_prefix r s :
  re_match (Pattern r false) s = true <-> PrefixIn r (Py.chars s).
Proof. unfold re_match, match_chars. simpl. apply prefix_match_spec. Qed.

Lemma PrefixIn_Cls p r l :
  PrefixIn (Cat (Cls p) r) l <-> exists c t, l = c :: t /\ p c = true /\ PrefixIn r t.
Proof.
  split.
  - intros (l1 & l2 & -> & H). apply Cat_inv in H.
    destruct H as (a & b & -> & Ha & Hb). apply Cls_inv in Ha.
    destruct Ha as (c & -> & Hc). exists c, (b ++ l2). simpl.
    repeat split; [assumption |]. exists b, l2. auto.
  - intros (c & t & -> & Hc & (l1 & l2 & -> & H)).
    exists (c :: l1), l2. split; [reflexivity |].
    apply (MCat (Cls p) r [c] l1); [constructor |]; assumption.
Qed.

Lemma PrefixIn_Cls_last p l :
  PrefixIn (Cls p) l <-> exists c t, l = c :: t /\ p c = true.
Proof.
  split.
  - intros (l1 & l2 & -> & H). apply Cls_inv in H. destruct H as (c & -> & Hc).
    exists c, l2. auto.
  - intros (c & t & -> & Hc). exists [c], t. split; [reflexivity | constructor; assumption].
Qed.

Lemma PrefixIn_Opt a r l :
  PrefixIn (Cat (Opt a) r) l <-> PrefixIn (Cat a r) l \/ PrefixIn r l.
Proof.
  split.
  - intros (l1 & l2 & -> & H). apply Cat_inv in H.
    destruct H as (x & y & -> & Hx & Hy). apply Alt_inv in Hx. destruct Hx as [Hx|Hx].
    + left. exists (x ++ y), l2. split; [reflexivity | constructor; assumption].
    + apply Eps_inv in Hx. subst x. right. exists y, l2. auto.
  - intros [(l1 & l2 & -> & H) | (l1 & l2 & -> & H)].
    + apply Cat_inv in H. destruct H as (x & y & -> & Hx & Hy).
      exists (x ++ y), l2. split; [reflexivity |]. constructor; [apply MAltL|]; assumption.
    + exists l1, l2. split; [reflexivity |].
      apply (MCat (Opt a) r [] l1); [apply MAltR; constructor | assumption].
Qed.

Lemma Star_Cls_all p l : Matches (Star (Cls p)) l <-> Forall (fun c => p c = true) l.
Proof.
  split.
  - induction l as [|c l IH]; intros H; [constructor |].
    apply Star_cons_inv in H. destruct H as (l1 & l2 & -> & Ha & Hb).
    apply Cls_inv in Ha. destruct Ha as (c' & Heq & Hc).
    injection Heq as Hc' Hl1. subst c' l1.
    constructor; [assumption |]. apply IH. assumption.
  - induction 1 as [|c l Hc _ IH]; [constructor |].
    apply (MStarS (Cls p) [c] l); [constructor |]; assumption.
Qed.

Lemma Plus_Cls_inv p l :
  Matches (Plus (Cls p)) l <->
  exists c l', l = c :: l' /\ p c = true /\ Forall (fun c => p c = true) l'.
Proof.
  unfold Plus. split.
  - intros H. apply Cat_inv in H. destruct H as (x & y & -> & Hx & Hy).
    apply Cls_inv in Hx. destruct Hx as (c & -> & Hc). apply Star_Cls_all in Hy.
    exists c, y. auto.
  - intros (c & l' & -> & Hc & Hall).
    apply (MCat (Cls p) (Star (Cls p)) [c] l'); [constructor | apply Star_Cls_all]; assumption.
Qed.

Lemma drop_while_app p l c t :
  Forall (fun c => p c = true) l -> p c = false -> drop_while p (l ++ c :: t) = c :: t.
Proof.
  induction 1 as [|a l Ha _ IH]; intros Hc; simpl.
  - rewrite Hc. reflexivity.
  - rewrite Ha. apply IH. assumption.
Qed.

Lemma take_drop_while p l : l = take_while p l ++ drop_while p l.
Proof.
  induction l as [|c l IH]; simpl; [reflexivity |].
  destruct (p c); simpl; [f_equal; assumption | reflexivity].
Qed.

Lemma take_while_all p l : Forall (fun c => p c = true) (take_while p l).
Proof.
  induction l as [|c l IH]; simpl; [constructor |].
  destruct (p c) eqn:Hc; constructor; assumption.
Qed.

(** [p+] followed by something that cannot start in [p] reads the whole
    run of [p]: the backtracking into the run never helps. *)
Lemma PrefixIn_Plus p r l :
  Starts (fun c => p c = false) r ->
  PrefixIn (Cat (Plus (Cls p)) r) l <->
  exists c t, l = c :: t /\ p c = true /\ PrefixIn r (drop_while p t).
Proof.
  intros Hstart. split.
  - intros (l1 & l2 & -> & H). apply Cat_inv in H.
    destruct H as (x & y & -> & Hx & Hy). apply Plus_Cls_inv in Hx.
    destruct Hx as (c & x' & -> & Hc & Hall).
    destruct (Hstart _ Hy) as (a & y' & -> & Ha).
    exists c, (x' ++ a :: y' ++ l2). split; [|split; [assumption |]].
    + simpl. rewrite <- !app_assoc. reflexivity.
    + rewrite drop_while_app by assumption. exists (a :: y'), l2. auto.
  - intros (c & t & -> & Hc & (l1 & l2 & Heq & H)).
    exists ((c :: take_while p t) ++ l1), l2. split.
    + simpl. rewrite <- app_assoc, <- Heq, <- (take_drop_while p t). reflexivity.
    + constructor; [|assumption]. apply Plus_Cls_inv.
      exists c, (take_while p t). auto using take_while_all.
Qed.

Lemma PrefixIn_Plus_head p r l :
  PrefixIn (Cat (Plus (Cls p)) r) l -> exists c t, l = c :: t /\ p c = true.
Proof.
  intros (l1 & l2 & -> & H). apply Cat_inv in H.
  destruct H as (x & y & -> & Hx & Hy). apply Plus_Cls_inv in Hx.
  destruct Hx as (c & x' & -> & Hc & _). exists c, (x' ++ y ++ l2).
  split; [|assumption]. simpl. rewrite <- app_assoc. reflexivity.
Qed.

Lemma Starts_Cls (P : ascii -> Prop) p : (forall c, p c = true -> P c) -> Starts P (Cls p).
Proof.
  intros HP l H. apply Cls_inv in H. destruct H as (c & -> & Hc). exists c, []. auto.
Qed.

Lemma Starts_Cat P r1 r2 : Starts P r1 -> Starts P (Cat r1 r2).
Proof.
  intros H1 l H. apply Cat_inv in H. destruct H as (x & y & -> & Hx & _).
  destruct (H1 _ Hx) as (c & x' & -> & Hc). exists c, (x' ++ y). auto.
Qed.

Lemma Starts_Opt_Cat P a r : Starts P a -> Starts P r -> Starts P (Cat (Opt a) r).
Proof.
  intros Ha Hr l H. apply Cat_inv in H. destruct H as (x & y & -> & Hx & Hy).
  apply Alt_inv in Hx. destruct Hx as [Hx|Hx].
  - destruct (Ha _ Hx) as (c & x' & -> & Hc). exists c, (x' ++ y). auto.
  - apply Eps_inv in Hx. subst x. apply Hr. assumption.
Qed.

Lemma digit_not_space c : Py.is_digit c = true -> Py.is_space c = false.
Proof. destruct c as [[] [] [] [] [] [] [] []]; vm_compute; congruence. Qed.

Lemma dot_not_digit c : Ascii.eqb "." c = true -> Py.is_digit c = false.
Proof. intros H. apply Ascii.eqb_eq in H. subst c. reflexivity. Qed.

Lemma space_not_digit c : Py.is_space c = true -> Py.is_digit c = false.
Proof. destruct c as [[] [] [] [] [] [] [] []]; vm_compute; congruence. Qed.

Lemma dot_not_space c : Ascii.eqb "." c = true -> Py.is_space c = false.
Proof. intros H. apply Ascii.eqb_eq in H. subst c. reflexivity. Qed.

Ltac starts :=
  repeat first [ apply Starts_Opt_Cat | apply Starts_Cat | apply Starts_Cls ];
  auto using dot_not_digit, space_not_digit.

End Scan.

(** ** The numbered patterns and the order of the level rules *)

Module Numbered.
Import Re ReFacts Scan Pat.

Lemma Starts_tail_cap : Starts (fun c => Py.is_digit c = false) tail_cap.
Proof. unfold tail_cap. starts. Qed.

Lemma Starts_tail_ws : Starts (fun c => Py.is_digit c = false) tail_ws.
Proof. unfold tail_ws. starts. Qed.

(** After the digits comes the dot: the digits are read to their end. *)
Lemma digits_dot r l :
  PrefixIn (Cat (Plus digit) (Cat dot r)) l <->
  exists c t u, l = c :: t /\ Py.is_digit c = true
                /\ drop_while Py.is_digit t = "."%char :: u /\ PrefixIn r u.
Proof.
  unfold digit. rewrite PrefixIn_Plus by starts. split.
  - intros (c & t & -> & Hc & H). apply PrefixIn_Cls in H.
    destruct H as (a & u & Heq & Ha & Hu). apply Ascii.eqb_eq in Ha. subst a.
    exists c, t, u. auto.
  - intros (c & t & u & -> & Hc & Heq & Hu). exists c, t.
    repeat split; [assumption |]. rewrite Heq. apply PrefixIn_Cls.
    exists "."%char, u. auto.
Qed.

Lemma tail_cap_fail d u :
  Py.is_digit d = true -> ~ PrefixIn tail_cap ("."%char :: d :: u).
Proof.
  intros Hd H. apply PrefixIn_Opt in H. destruct H as [H|H].
  - apply PrefixIn_Cls in H. destruct H as (a & t & Heq & _ & H).
    injection Heq as <- <-. apply PrefixIn_Plus_head in H.
    destruct H as (c & t & Heq & Hc). injection Heq as <- _.
    rewrite (digit_not_space _ Hd) in Hc. discriminate.
  - apply PrefixIn_Plus_head in H. destruct H as (c & t & Heq & Hc).
    injection Heq as <- _. discriminate.
Qed.

Lemma tail_ws_fail d u :
  Py.is_digit d = true -> ~ PrefixIn tail_ws ("."%char :: d :: u).
Proof.
  intros Hd H. apply PrefixIn_Opt in H. destruct H as [H|H].
  - apply PrefixIn_Cls in H. destruct H as (a & t & Heq & _ & H).
    injection Heq as <- <-. apply PrefixIn_Cls in H.
    destruct H as (c & t & Heq & Hc & _). injection Heq as <- _.
    rewrite (digit_not_space _ Hd) in Hc. discriminate.
  - apply PrefixIn_Cls in H. destruct H as (c & t & Heq & Hc & _).
    injection Heq as <- _. discriminate.
Qed.

(** [digits tail] fails where a dot and a digit follow the digits. *)
Lemma digits_tail_fail tail l c t d u :
  Starts (fun c => Py.is_digit c = false) tail ->
  ~ PrefixIn tail ("."%char :: d :: u) ->
  l = c :: t -> drop_while Py.is_digit t = "."%char :: d :: u ->
  ~ PrefixIn (Cat (Plus digit) tail) l.
Proof.
  intros Hs Hfail -> Hdrop H. unfold digit in H. apply PrefixIn_Plus in H; [|assumption].
  destruct H as (c' & t' & Heq & _ & H). injection Heq as <- <-.
  rewrite Hdrop in H. contradiction.
Qed.

Lemma not_true_false b : b <> true -> b = false.
Proof. destruct b; congruence. Qed.

Lemma num_dot_cap_num1_cap s :
  re_match num_dot_cap s = true -> re_match num1_cap s = true.
Proof.
  unfold num_dot_cap, num1_cap, P. rewrite !re_match_prefix. cbn [Seq].
  intros (l1 & l2 & -> & H). exists l1, l2. split; [reflexivity |].
  apply Cat_inv in H. destruct H as (a & b & -> & Ha & Hb).
  apply Cat_inv in Hb. destruct Hb as (x & y & -> & Hx & Hy).
  constructor; [assumption |]. constructor; [apply MAltL |]; assumption.
Qed.

Lemma num2_not_num1_cap s : re_match num2 s = true -> re_match num1_cap s = false.
Proof.
  unfold num2, num1_cap, P. intros H. apply not_true_false. revert H.
  rewrite !re_match_prefix. cbn [Seq]. intros H H1.
  apply digits_dot in H. destruct H as (c & t & u & Hl & Hc & Hdrop & H).
  apply PrefixIn_Plus_head in H. destruct H as (d & u' & -> & Hd).
  exact (digits_tail_fail tail_cap _ c t d u' Starts_tail_cap
           (tail_cap_fail d u' Hd) Hl Hdrop H1).
Qed.

Lemma num3_not_num1_cap s : re_match num3 s = true -> re_match num1_cap s = false.
Proof.
  unfold num3, num1_cap, P. intros H. apply not_true_false. revert H.
  rewrite !re_match_prefix. cbn [Seq]. intros H H1.
  apply digits_dot in H. destruct H as (c & t & u & Hl & Hc & Hdrop & H).
  apply PrefixIn_Plus_head in H. destruct H as (d & u' & -> & Hd).
  exact (digits_tail_fail tail_cap _ c t d u' Starts_tail_cap
           (tail_cap_fail d u' Hd) Hl Hdrop H1).
Qed.

Lemma num3_not_num2 s : re_match num3 s = true -> re_match num2 s = false.
Proof.
  unfold num3, num2, P. intros H. apply not_true_false. revert H.
  rewrite !re_match_prefix. cbn [Seq]. intros H H2.
  apply digits_dot in H. destruct H as (c & t & u & Hl & Hc & Hdrop & H).
  apply digits_dot in H. destruct H as (c1 & t1 & u1 & Hu & Hc1 & Hdrop1 & H).
  apply PrefixIn_Plus_head in H. destruct H as (d & u' & -> & Hd).
  apply digits_dot in H2. destruct H2 as (c' & t' & v & Hl' & _ & Hdrop' & H2).
  rewrite Hl in Hl'. injection Hl' as _ <-. rewrite Hdrop in Hdrop'.
  injection Hdrop' as <-.
  exact (digits_tail_fail tail_ws _ c1 t1 d u' Starts_tail_ws
           (tail_ws_fail d u' Hd) Hu Hdrop1 H2).
Qed.

Lemma num4_not_num1_cap s : re_match num4 s = true -> re_match num1_cap s = false.
Proof.
  unfold num4, num1_cap, P. intros H. apply not_true_false. revert H.
  rewrite !re_match_prefix. cbn [Seq]. intros H H1.
  apply digits_dot in H. destruct H as (c & t & u & Hl & Hc & Hdrop & H).
  apply PrefixIn_Plus_head in H. destruct H as (d & u' & -> & Hd).
  exact (digits_tail_fail tail_cap _ c t d u' Starts_tail_cap
           (tail_cap_fail d u' Hd) Hl Hdrop H1).
Qed.

Lemma num4_not_num2 s : re_match num4 s = true -> re_match num2 s = false.
Proof.
  unfold num4, num2, P. intros H. apply not_true_false. revert H.
  rewrite !re_match_prefix. cbn [Seq]. intros H H2.
  apply digits_dot in H. destruct H as (c & t & u & Hl & Hc & Hdrop & H).
  apply digits_dot in H. destruct H as (c1 & t1 & u1 & Hu & Hc1 & Hdrop1 & H).
  apply PrefixIn_Plus_head in H. destruct H as (d & u' & -> & Hd).
  apply digits_dot in H2. destruct H2 as (c' & t' & v & Hl' & _ & Hdrop' & H2).
  rewrite Hl in Hl'. injection Hl' as _ <-. rewrite Hdrop in Hdrop'.
  injection Hdrop' as <-.
  exact (digits_tail_fail tail_ws _ c1 t1 d u' Starts_tail_ws
           (tail_ws_fail d u' Hd) Hu Hdrop1 H2).
Qed.

Lemma num4_not_num3 s : re_match num4 s = true -> re_match num3 s = false.
Proof.
  unfold num4, num3, P. intros H. apply not_true_false. revert H.
  rewrite !re_match_prefix. cbn [Seq]. intros H H3.
  apply digits_dot in H. destruct H as (c & t & u & Hl & Hc & Hdrop & H).
  apply digits_dot in H. destruct H as (c1 & t1 & u1 & Hu & Hc1 & Hdrop1 & H).
  apply digits_dot in H. destruct H as (c2 & t2 & u2 & Hu1 & Hc2 & Hdrop2 & H).
  apply PrefixIn_Plus_head in H. destruct H as (d & u' & -> & Hd).
  apply digits_dot in H3. destruct H3 as (c' & t' & v & Hl' & _ & Hdrop' & H3).
  rewrite Hl in Hl'. injection Hl' as _ <-. rewrite Hdrop in Hdrop'.
  injection Hdrop' as <-.
  apply digits_dot in H3. destruct H3 as (c1' & t1' & v1 & Hu' & _ & Hdrop1' & H3).
  rewrite Hu in Hu'. injection Hu' as _ <-. rewrite Hdrop1 in Hdrop1'.
  injection Hdrop1' as <-.
  exact (digits_tail_fail tail_ws _ c2 t2 d u' Starts_tail_ws
           (tail_ws_fail d u' Hd) Hu1 Hdrop2 H3).
Qed.

End Numbered.

(** ** Level assignment *)

Lemma main2_level_eq average_size unique_font_sizes text size page :
  Main2.classify_heading_level average_size unique_font_sizes text size page
  = Main.determine_heading_level average_size unique_font_sizes text size page.
Proof. reflexivity. Qed.

(** C4: a text whose normalized form starts with a multi-level number is
    assigned its level by the pattern alone: H2 for two levels
    ("2.3 Something"), H3 for three ("2.3.1 Something"), H4 for four,
    whatever the font size, the page and the font statistics of the
    document, in [main.py] and in [main2.py]. *)
Theorem multilevel_number_decides_level
  (average_size : Q) (unique_font_sizes : list Q) (text : string) (size : Q) (page : Z) :
  (Re.re_match Pat.num2 (Main.clean_text text) = true ->
   Main.determine_heading_level average_size unique_font_sizes text size page = H2
   /\ Main2.classify_heading_level average_size unique_font_sizes text size page = H2)
  /\
  (Re.re_match Pat.num3 (Main.clean_text text) = true ->
   Main.determine_heading_level average_size unique_font_sizes text size page = H3
   /\ Main2.classify_heading_level average_size unique_font_sizes text size page = H3)
  /\
  (Re.re_match Pat.num4 (Main.clean_text text) = true ->
   Main.determine_heading_level average_size unique_font_sizes text size page = H4
   /\ Main2.classify_heading_level average_size unique_font_sizes text size page = H4).
Proof.
  split; [| split]; intros H.
  - assert (Main.determine_heading_level average_size unique_font_sizes text size page = H2)
      as E.
    { unfold Main.determine_heading_level. fold (Main.clean_text text).
      rewrite (Numbered.num2_not_num1_cap _ H), H. reflexivity. }
    split; [exact E | exact E].
  - assert (Main.determine_heading_level average_size unique_font_sizes text size page = H3)
      as E.
    { unfold Main.determine_heading_level. fold (Main.clean_text text).
      rewrite (Numbered.num3_not_num1_cap _ H), (Numbered.num3_not_num2 _ H), H.
      reflexivity. }
    split; [exact E | exact E].
  - assert (Main.determine_heading_level average_size unique_font_sizes text size page = H4)
      as E.
    { unfold Main.determine_heading_level. fold (Main.clean_text text).
      rewrite (Numbered.num4_not_num1_cap _ H), (Numbered.num4_not_num2 _ H),
        (Numbered.num4_not_num3 _ H), H.
      reflexivity. }
    split; [exact E | exact E].
Qed.

Lemma multilevel_number_decides_level_witness :
  (Re.re_match Pat.num2 (Main.clean_text "2.3 Something") = true
   /\ Main.determine_heading_level 12 [30%Q; 12%Q] "2.3 Something" 30 1 = H2)
  /\
  (Re.re_match Pat.num3 (Main.clean_text "2.3.1   Something") = true
   /\ Main.determine_heading_level 12 [30%Q; 12%Q] "2.3.1   Something" 30 7 = H3)
  /\
  (Re.re_match Pat.num4 (Main.clean_text "2.3.1.10 something") = true
   /\ Main.determine_heading_level 12 [30%Q; 12%Q] "2.3.1.10 something" 30 7 = H4).
Proof.
  split; [| split]; (split; [reflexivity |]).
  - apply (proj1 (multilevel_number_decides_level 12 [30%Q; 12%Q] "2.3 Something" 30 1)).
    reflexivity.
  - apply (proj1 (proj2 (multilevel_number_decides_level 12 [30%Q; 12%Q]
                           "2.3.1   Something" 30 7))).
    reflexivity.
  - apply (proj2 (proj2 (multilevel_number_decides_level 12 [30%Q; 12%Q]
                           "2.3.1.10 something" 30 7))).
    reflexivity.
Defined.

(** C5, as stated, fails: the bold fragment "3. Overview" qualifies as a
    heading, is a bare numbered item with no deeper numbering, and is not
    assigned H3. *)
Lemma bare_numbered_item_is_not_H3 :
  Main.looks_like_heading 12 "3. Overview" 12 1 16 = true
  /\ Re.re_match Pat.num_dot_cap (Main.clean_text "3. Overview") = true
  /\ Re.re_match Pat.num2 (Main.clean_text "3. Overview") = false
  /\ Re.re_match Pat.appendix_colon (Main.clean_text "3. Overview") = false
  /\ Re.re_match Pat.phase_colon (Main.clean_text "3. Overview") = false
  /\ Re.re_match Pat.for_each (Main.clean_text "3. Overview") = false
  /\ Main.determine_heading_level 12 [12%Q] "3. Overview" 12 1 <> H3.
Proof. repeat split; try reflexivity. vm_compute. discriminate. Qed.

(** C5, amended: a text whose normalized form is a bare numbered item
    (a number, a period, whitespace, a capital) is assigned H1: the first
    rule of the level assignment already matches it, so the later rule
    for the same form is never reached. *)
Theorem bare_numbered_item_is_H1
  (average_size : Q) (unique_font_sizes : list Q) (text : string) (size : Q) (page : Z) :
  Re.re_match Pat.num_dot_cap (Main.clean_text text) = true ->
  Main.determine_heading_level average_size unique_font_sizes text size page = H1
  /\ Main2.classify_heading_level average_size unique_font_sizes text size page = H1.
Proof.
  intros H.
  assert (Main.determine_heading_level average_size unique_font_sizes text size page = H1)
    as E.
  { unfold Main.determine_heading_level. fold (Main.clean_text text).
    rewrite (Numbered.num_dot_cap_num1_cap _ H). reflexivity. }
  split; [exact E | exact E].
Qed.

Lemma bare_numbered_item_is_H1_witness :
  Re.re_match Pat.num_dot_cap (Main.clean_text "3. Overview") = true
  /\ Main.determine_heading_level 12 [12%Q] "3. Overview" 12 1 = H1.
Proof.
  split; [reflexivity |].
  apply (bare_numbered_item_is_H1 12 [12%Q] "3. Overview" 12 1). reflexivity.
Defined.

(** ** The stable sort *)

Section SortFacts.
Context {A K : Type}.
Variable ltb : K -> K -> bool.
Variable key : A -> K.

Lemma insert_by_perm x l : Permutation (insert_by ltb key x l) (x :: l).
Proof.
  induction l as [|y l IH]; simpl; [apply Permutation_refl |].
  destruct (ltb (key y) (key x)); [| apply Permutation_refl].
  apply Permutation_trans with (y :: x :: l); [| apply perm_swap].
  apply perm_skip. exact IH.
Qed.

Lemma sort_by_perm l : Permutation (sort_by ltb key l) l.
Proof.
  induction l as [|x l IH]; simpl; [apply perm_nil |].
  apply Permutation_trans with (x :: sort_by ltb key l);
    [apply insert_by_perm | apply perm_skip; exact IH].
Qed.

Lemma sort_by_In x l : In x (sort_by ltb key l) <-> In x l.
Proof.
  split; apply Permutation_in;
    [apply sort_by_perm | apply Permutation_sym, sort_by_perm].
Qed.

Hypothesis ltb_asym : asym ltb.
Hypothesis ltb_negtrans : negtrans ltb.

Lemma insert_by_sorted x l :
  StronglySorted (not_after ltb key) l ->
  StronglySorted (not_after ltb key) (insert_by ltb key x l).
Proof.
  induction 1 as [|y l Hs IH Hall]; simpl.
  - constructor; constructor.
  - destruct (ltb (key y) (key x)) eqn:Hyx.
    + constructor; [exact IH |].
      apply List.Forall_forall. intros z Hz.
      apply (Permutation_in _ (insert_by_perm x l)) in Hz. destruct Hz as [<- | Hz].
      * apply ltb_asym. exact Hyx.
      * rewrite List.Forall_forall in Hall. apply Hall. exact Hz.
    + constructor; [constructor; assumption |].
      constructor; [exact Hyx |].
      apply List.Forall_forall. intros z Hz. rewrite List.Forall_forall in Hall.
      apply (ltb_negtrans (key x) (key y) (key z)); [exact Hyx | apply Hall; exact Hz].
Qed.

Lemma sort_by_sorted l : StronglySorted (not_after ltb key) (sort_by ltb key l).
Proof.
  induction l as [|x l IH]; simpl; [constructor | apply insert_by_sorted; exact IH].
Qed.
End SortFacts.

Lemma StronglySorted_filter_keep {A : Type} (R : A -> A -> Prop) (f : A -> bool) l :
  StronglySorted R l -> StronglySorted R (List.filter f l).
Proof.
  induction 1 as [|x l Hs IH Hall]; simpl; [constructor |].
  destruct (f x); [| exact IH]. constructor; [exact IH |].
  apply List.Forall_forall. intros y Hy. apply List.filter_In in Hy.
  rewrite List.Forall_forall in Hall. apply Hall. tauto.
Qed.

Lemma StronglySorted_weaken {A : Type} (R S : A -> A -> Prop) l :
  (forall a b, R a b -> S a b) -> StronglySorted R l -> StronglySorted S l.
Proof.
  intros HRS. induction 1 as [|x l Hs IH Hall]; constructor; [exact IH |].
  apply List.Forall_forall. intros y Hy. rewrite List.Forall_forall in Hall. auto.
Qed.

(** ** The orders of the sort keys *)

Section PairOrder.
Context {A B : Type}.
Variables (eqA ltA : A -> A -> bool) (ltB : B -> B -> bool).
Hypothesis eqA_spec : forall x y, eqA x y = true <-> x = y.
Hypothesis ltA_asym : asym ltA.
Hypothesis ltA_negtrans : negtrans ltA.
Hypothesis ltA_tri : trichotomous ltA.
Hypothesis ltB_asym : asym ltB.
Hypothesis ltB_negtrans : negtrans ltB.

Lemma eqA_refl x : eqA x x = true.
Proof. apply eqA_spec. reflexivity. Qed.

Lemma eqA_false x y : x <> y -> eqA x y = false.
Proof.
  intros Hne. destruct (eqA x y) eqn:E; [| reflexivity].
  apply eqA_spec in E. contradiction.
Qed.

Lemma pair_ltb_asym : asym (pair_ltb eqA ltA ltB).
Proof.
  intros [x1 x2] [y1 y2]. unfold pair_ltb. simpl.
  destruct (eqA x1 y1) eqn:E.
  - apply eqA_spec in E. subst y1. rewrite eqA_refl. apply ltB_asym.
  - intros H. rewrite eqA_false.
    + apply ltA_asym. exact H.
    + intros ->. rewrite eqA_refl in E. discriminate.
Qed.

Lemma pair_ltb_negtrans : negtrans (pair_ltb eqA ltA ltB).
Proof.
  intros [x1 x2] [y1 y2] [z1 z2]. unfold pair_ltb. simpl.
  destruct (eqA y1 x1) eqn:Eyx; destruct (eqA z1 y1) eqn:Ezy.
  - apply eqA_spec in Eyx, Ezy. subst. rewrite eqA_refl. apply ltB_negtrans.
  - apply eqA_spec in Eyx. subst y1. rewrite Ezy. auto.
  - apply eqA_spec in Ezy. subst z1. rewrite Eyx. auto.
  - intros Hyx Hzy. destruct (eqA z1 x1) eqn:Ezx.
    + apply eqA_spec in Ezx. subst z1.
      rewrite (ltA_tri _ _ Hyx Hzy), eqA_refl in Eyx. discriminate.
    + exact (ltA_negtrans _ _ _ Hyx Hzy).
Qed.

Lemma pair_ltb_tri : trichotomous ltB -> trichotomous (pair_ltb eqA ltA ltB).
Proof.
  intros ltB_tri [x1 x2] [y1 y2]. unfold pair_ltb. simpl.
  destruct (eqA x1 y1) eqn:E.
  - apply eqA_spec in E. subst y1. rewrite eqA_refl. intros H1 H2.
    f_equal. apply ltB_tri; assumption.
  - intros H1 H2. destruct (eqA y1 x1) eqn:E'.
    + apply eqA_spec in E'. subst y1. rewrite eqA_refl in E. discriminate.
    + rewrite (ltA_tri _ _ H1 H2), eqA_refl in E. discriminate.
Qed.
End PairOrder.

Lemma Zltb_asym : asym Z.ltb.
Proof. intros x y. rewrite Z.ltb_lt, Z.ltb_ge. lia. Qed.

Lemma Zltb_negtrans : negtrans Z.ltb.
Proof. intros x y z. rewrite !Z.ltb_ge. lia. Qed.

Lemma Zltb_tri : trichotomous Z.ltb.
Proof. intros x y. rewrite !Z.ltb_ge. lia. Qed.

Lemma Qltb_lt x y : Qltb x y = true <-> (x < y)%Q.
Proof.
  unfold Qltb. rewrite negb_true_iff. split.
  - intros H. apply Qnot_le_lt. intros Hle. apply Qle_bool_iff in Hle. congruence.
  - intros H. destruct (Qle_bool y x) eqn:E; [| reflexivity].
    apply Qle_bool_iff in E. exfalso. exact (Qlt_not_le _ _ H E).
Qed.

Lemma Qltb_ge x y : Qltb x y = false <-> (y <= x)%Q.
Proof.
  unfold Qltb. rewrite negb_false_iff. apply Qle_bool_iff.
Qed.

Lemma Qltb_asym : asym Qltb.
Proof. intros x y. rewrite Qltb_lt, Qltb_ge. apply Qlt_le_weak. Qed.

Lemma Qltb_negtrans : negtrans Qltb.
Proof. intros x y z. rewrite !Qltb_ge. apply Qle_trans. Qed.

Lemma str_ltb_lt a b : str_ltb a b = true <-> String_as_OT.lt a b.
Proof.
  unfold str_ltb, String_as_OT.lt. destruct (String_as_OT.compare a b); split; congruence.
Qed.

Lemma str_ltb_asym : asym str_ltb.
Proof.
  intros x y H. apply str_ltb_lt in H. destruct (str_ltb y x) eqn:E; [| reflexivity].
  apply str_ltb_lt in E. exfalso.
  exact (StrictOrder_Irreflexive x (StrictOrder_Transitive _ _ _ H E)).
Qed.

Lemma str_ltb_ge a b : str_ltb b a = false <-> String_as_OT.lt a b \/ a = b.
Proof.
  split.
  - intros H. destruct (String_as_OT.compare_spec a b) as [E | E | E]; auto.
    apply str_ltb_lt in E. congruence.
  - intros [H | ->].
    + apply str_ltb_asym, str_ltb_lt. exact H.
    + destruct (str_ltb b b) eqn:E; [| reflexivity].
      apply str_ltb_lt in E. exfalso. exact (StrictOrder_Irreflexive b E).
Qed.

Lemma str_ltb_negtrans : negtrans str_ltb.
Proof.
  intros x y z. rewrite !str_ltb_ge. intros [H1 | ->] [H2 | ->]; auto.
  left. exact (StrictOrder_Transitive _ _ _ H1 H2).
Qed.

Lemma str_ltb_tri : trichotomous str_ltb.
Proof.
  intros x y H1 H2. apply str_ltb_ge in H1, H2.
  destruct H1 as [H1 | H1]; [| congruence]. destruct H2 as [H2 | H2]; [| assumption].
  exfalso. exact (StrictOrder_Irreflexive x (StrictOrder_Transitive _ _ _ H2 H1)).
Qed.

Lemma heading_key_asym : asym Main.heading_key_ltb.
Proof.
  apply pair_ltb_asym; auto using Z.eqb_eq, Zltb_asym, Qltb_asym.
Qed.

Lemma heading_key_negtrans : negtrans Main.heading_key_ltb.
Proof.
  apply pair_ltb_negtrans;
    auto using Z.eqb_eq, Zltb_negtrans, Zltb_tri, Qltb_negtrans.
Qed.

Lemma heading_not_after_le a b :
  not_after Main.heading_key_ltb Main.heading_key a b -> heading_le a b.
Proof.
  unfold not_after, Main.heading_key_ltb, Main.heading_key, pair_ltb, heading_le. simpl.
  destruct (Z.eqb_spec (p_page b) (p_page a)) as [E | E].
  - rewrite Qltb_ge. intros H. right. split; [congruence |].
    apply Qopp_le_compat in H. rewrite !Qopp_involutive in H. exact H.
  - rewrite Z.ltb_ge. lia.
Qed.

(** ** [analyze_document_structure] returns: no exception is raised *)

Lemma py_div_ok x n : n <> 0%Z -> py_div x n = Ok (Float.div x (Float.of_int n)).
Proof.
  intros Hn. unfold py_div. destruct (Z.eqb_spec n 0); [contradiction | reflexivity].
Qed.

Lemma py_max_ok l : l <> [] -> exists m, py_max l = Ok m.
Proof. destruct l as [|x l]; [congruence |]. intros _. simpl. eauto. Qed.

Lemma could_be_title_ok all_sizes t s p f :
  all_sizes <> [] ->
  exists b, Main.could_be_title all_sizes t s p f = Ok b /\ (b = true -> (p <= 2)%Z).
Proof.
  intros Hne. destruct (py_max_ok all_sizes Hne) as [m Hm].
  unfold Main.could_be_title. destruct (Z.gtb_spec p 2) as [Hp | Hp].
  - exists false. split; [reflexivity | discriminate].
  - rewrite Hm. simpl.
    repeat match goal with
           | |- context [if ?c then _ else _] => destruct c
           end;
      (eexists; split; [reflexivity | first [discriminate | intros _; lia]]).
Qed.

Lemma title_loop_ok all_sizes : all_sizes <> [] -> forall elems acc,
  exists cands, Main.title_loop all_sizes elems acc = Ok cands
    /\ forall c, In c cands ->
         In c acc \/ exists e, In e elems
           /\ c = Candidate (Main.clean_text (text e)) (size e) (page e)
           /\ (page e <= 2)%Z.
Proof.
  intros Hne. induction elems as [|e elems IH]; intros acc; simpl.
  - exists acc. split; [reflexivity | auto].
  - destruct (could_be_title_ok all_sizes (text e) (size e) (page e) (flags e) Hne)
      as (b & Hb & Hpage).
    rewrite Hb. simpl.
    destruct (IH (if b then acc ++ [Candidate (Main.clean_text (text e)) (size e) (page e)]
                  else acc)) as (cands & Hc & Hin).
    exists cands. split; [exact Hc |]. intros c Hcin. destruct (Hin c Hcin) as [H | H].
    + destruct b; [| auto]. apply in_app_or in H. destruct H as [H | [<- | []]]; [auto |].
      right. exists e. auto.
    + right. destruct H as (e' & He' & H). exists e'. auto.
Qed.

(** The result on a non-empty list, in terms of the loops. *)
Lemma analyze_unfold elems : elems <> [] ->
  exists average_size cands,
    py_div (py_sum (map size elems)) (Z.of_nat (length (map size elems))) = Ok average_size
    /\ Main.title_loop (map size elems) elems [] = Ok cands
    /\ Main.analyze_document_structure elems =
         Ok (map Main.confirm
               (Main.confirmed_potential
                  (fst (Main.heading_loop average_size (sorted_desc (Q_set (map size elems)))
                          (Main.select_title cands) elems ([], ∅)))),
             Main.select_title cands).
Proof.
  intros Hne.
  assert (Hsizes : map size elems <> []).
  { destruct elems; [congruence | discriminate]. }
  assert (Hlen : Z.of_nat (length (map size elems)) <> 0%Z).
  { destruct elems; [congruence | simpl; lia]. }
  destruct (title_loop_ok (map size elems) Hsizes elems []) as (cands & Hc & _).
  exists (Float.div (py_sum (map size elems))
            (Float.of_int (Z.of_nat (length (map size elems))))), cands.
  split; [apply py_div_ok; exact Hlen |]. split; [exact Hc |].
  destruct elems as [|e elems']; [congruence |].
  unfold Main.analyze_document_structure.
  rewrite (py_div_ok _ _ Hlen). cbn [mbind result_bind].
  rewrite Hc. reflexivity.
Qed.

Lemma analyze_total elems : exists r, Main.analyze_document_structure elems = Ok r.
Proof.
  destruct elems as [|e elems].
  - eexists. reflexivity.
  - destruct (analyze_unfold (e :: elems)) as (a & c & _ & _ & H); [discriminate |].
    eexists. exact H.
Qed.

(** ** Empty input and the worked example *)

(** C1, as stated, fails for [main.py]: on the empty list it does not
    return the title "Untitled Document". *)
Lemma empty_input_title_differs :
  Main.analyze_document_structure [] <> Ok ([], "Untitled Document").
Proof. simpl. intros H. discriminate H. Qed.

(** C1, amended: on the empty list both functions return, without
    raising, the empty heading sequence; [identify_structure] with the
    title "Untitled Document" and [analyze_document_structure] with the
    title "No Title Found". *)
Theorem empty_input_result :
  Main.analyze_document_structure [] = Ok ([], "No Title Found")
  /\ Main2.identify_structure [] = Ok ([], "Untitled Document").
Proof. split; reflexivity. Qed.

(** C2, as stated, fails: the result on the three fragments is not the
    two numbered headings alone. *)
Lemma summary_example_not_two_headings :
  Main.analyze_document_structure summary_example
  <> Ok ([Heading H1 "1. Introduction" 2; Heading H2 "1.1 Background" 2],
         "Untitled Document").
Proof. vm_compute. intros H. discriminate H. Qed.

(** C2, amended: on the three fragments the title is "Untitled Document"
    and the headings are "Executive Summary" (H3, page 1),
    "1. Introduction" (H1, page 2) and "1.1 Background" (H2, page 2). *)
Theorem summary_example_result :
  Main.analyze_document_structure summary_example
  = Ok ([Heading H3 "Executive Summary" 1;
         Heading H1 "1. Introduction" 2;
         Heading H2 "1.1 Background" 2],
        "Untitled Document").
Proof. vm_compute. reflexivity. Qed.

(** Why "Executive Summary" is kept: it scores 8 (bold, title case, larger
    than 1.15 times the average, the float nearest to 44/3, the keyword
    "summary"), and the size fallback with three distinct sizes puts 18
    between 1.1 and 1.25 times the average. *)
Lemma summary_example_score :
  Main.heading_score (Float.div 44 (Float.of_int 3)) "Executive Summary" 18 16 = 8%Z
  /\ Main.determine_heading_level (Float.div 44 (Float.of_int 3)) [18%Q; 14%Q; 12%Q]
       "Executive Summary" 18 1 = H3.
Proof. split; reflexivity. Qed.

(** ** Title selection *)

Lemma max_by_spec {A : Type} (key : A -> Q) l : forall x,
  In (max_by key x l) (x :: l)
  /\ forall y, In y (x :: l) -> (key y <= key (max_by key x l))%Q.
Proof.
  induction l as [|a l IH]; intros x.
  - simpl. split; [auto |]. intros y [<- | []]. apply Qle_refl.
  - change (max_by key x (a :: l))
      with (max_by key (if Qltb (key x) (key a) then a else x) l).
    destruct (IH (if Qltb (key x) (key a) then a else x)) as [Hin Hmax].
    split.
    + destruct Hin as [Hin | Hin]; [| right; right; exact Hin].
      rewrite <- Hin. destruct (Qltb (key x) (key a)); simpl; auto.
    + assert (Hm : (key x <= key (if Qltb (key x) (key a) then a else x)
                    /\ key a <= key (if Qltb (key x) (key a) then a else x))%Q).
      { destruct (Qltb (key x) (key a)) eqn:E.
        - apply Qltb_lt in E. split; [apply Qlt_le_weak; exact E | apply Qle_refl].
        - apply Qltb_ge in E. split; [apply Qle_refl | exact E]. }
      destruct Hm as [Hx Ha].
      intros y [<- | [<- | Hy]].
      * eapply Qle_trans; [exact Hx | apply Hmax; left; reflexivity].
      * eapply Qle_trans; [exact Ha | apply Hmax; left; reflexivity].
      * apply Hmax. right. exact Hy.
Qed.

(** C3, as stated, fails: both fragments are title candidates, the second
    has the larger font size, and the first is selected. *)
Lemma largest_font_is_not_selected :
  Main.title_loop (map size close_sizes_example) close_sizes_example []
  = Ok [Candidate "Annual Report Overview" 12 1;
        Candidate "Prepared For Review" (Float.lit 12.0005) 2]
  /\ Main.best_candidate
       [Candidate "Annual Report Overview" 12 1;
        Candidate "Prepared For Review" (Float.lit 12.0005) 2]
     = Some (Candidate "Annual Report Overview" 12 1)
  /\ (c_size (Candidate "Annual Report Overview" 12 1)
      < c_size (Candidate "Prepared For Review" (Float.lit 12.0005) 2))%Q
  /\ exists hs, Main.analyze_document_structure close_sizes_example
                = Ok (hs, "Annual Report Overview").
Proof.
  split; [vm_compute; reflexivity |]. split; [vm_compute; reflexivity |].
  split; [reflexivity |]. eexists. vm_compute. reflexivity.
Qed.

(** [max] keeps the first of the elements with the largest key. *)
Lemma max_by_first {A : Type} (key : A -> Q) (l : list A) : forall x,
  exists before after,
    x :: l = before ++ max_by key x l :: after
    /\ (forall c, In c before -> (key c < key (max_by key x l))%Q)
    /\ (forall c, In c after -> (key c <= key (max_by key x l))%Q).
Proof.
  induction l as [|y l IH] using rev_ind; intros x.
  - exists [], []. split; [reflexivity |]. split; intros c [].
  - destruct (IH x) as (before & after & Heq & Hb & Ha).
    unfold max_by in *. rewrite fold_left_app. cbn [fold_left].
    set (b := fold_left (fun m y0 => if Qltb (key m) (key y0) then y0 else m) l x) in *.
    destruct (Qltb (key b) (key y)) eqn:E.
    + apply Qltb_lt in E. exists (x :: l), []. split; [reflexivity |].
      split; [| intros c []]. intros c Hc. rewrite Heq in Hc.
      apply in_app_or in Hc. destruct Hc as [Hc | [<- | Hc]].
      * eapply Qlt_trans; [apply Hb; exact Hc | exact E].
      * exact E.
      * eapply Qle_lt_trans; [apply Ha; exact Hc | exact E].
    + apply Qltb_ge in E. exists before, (after ++ [y]). split.
      * change (x :: l ++ [y]) with ((x :: l) ++ [y]). rewrite Heq, <- app_assoc.
        reflexivity.
      * split; [exact Hb |]. intros c Hc. apply in_app_or in Hc.
        destruct Hc as [Hc | [<- | []]]; [apply Ha; exact Hc | exact E].
Qed.

(** C3, amended: the selected title is a candidate whose key
    [font_size * 1000 - page], as the floating-point arithmetic computes
    it, is largest, and the first such candidate in document order: the
    candidates before it have a smaller key and those after it none
    larger.  Against a candidate whose key, like its own, is computed
    without rounding error, it is on the earliest page when the font
    sizes are equal, it has the larger font size when the pages are
    equal, and, pages being counted from 1, its font size is smaller by
    at most 0.001. *)
Theorem title_maximizes_key (elems : list element) (cands : list candidate)
  (best : candidate) :
  Forall (fun e => (1 <= page e)%Z) elems ->
  Main.title_loop (map size elems) elems [] = Ok cands ->
  Main.best_candidate cands = Some best ->
  In best cands
  /\ (forall c, In c cands -> (Main.title_key c <= Main.title_key best)%Q)
  /\ (exists before after,
        cands = before ++ best :: after
        /\ (forall c, In c before -> (Main.title_key c < Main.title_key best)%Q)
        /\ (forall c, In c after -> (Main.title_key c <= Main.title_key best)%Q))
  /\ (forall c, In c cands -> exact_key best -> exact_key c ->
        (c_size c == c_size best -> (c_page best <= c_page c)%Z)
        /\ (c_page c = c_page best -> (c_size c <= c_size best)%Q)
        /\ (c_size c <= c_size best + (1 # 1000))%Q).
Proof.
  intros Hpages Hloop Hbest.
  assert (Hne : map size elems <> []).
  { destruct elems; [| discriminate]. simpl in Hloop. injection Hloop as <-.
    discriminate Hbest. }
  destruct (title_loop_ok (map size elems) Hne elems []) as (cands' & Hc' & Hfrom).
  rewrite Hloop in Hc'. injection Hc' as <-.
  assert (Hbounds : forall c, In c cands -> (1 <= c_page c <= 2)%Z).
  { intros c Hc. destruct (Hfrom c Hc) as [[] | (e & He & -> & Hp)]. simpl.
    rewrite List.Forall_forall in Hpages. specialize (Hpages e He). lia. }
  unfold Main.best_candidate in Hbest. destruct cands as [|x l]; [discriminate |].
  injection Hbest as <-.
  destruct (max_by_spec Main.title_key l x) as [Hin Hmax].
  split; [exact Hin |]. split; [exact Hmax |].
  split; [exact (max_by_first Main.title_key l x) |].
  intros c Hc Eb Ec.
  pose proof (Hmax c Hc) as Hkey. set (b := max_by Main.title_key x l) in *.
  clearbody b.
  pose proof (Hbounds c Hc) as [_ Hc2]. pose proof (Hbounds b Hin) as [Hb1 _].
  unfold exact_key in Ec, Eb. rewrite Ec, Eb in Hkey.
  assert (Hc2q : (inject_Z (c_page c) <= 2)%Q).
  { change 2%Q with (inject_Z 2). rewrite <- Zle_Qle. exact Hc2. }
  assert (Hb1q : (1 <= inject_Z (c_page b))%Q).
  { change 1%Q with (inject_Z 1). rewrite <- Zle_Qle. exact Hb1. }
  split; [| split].
  - intros Heq. rewrite Heq in Hkey. rewrite Zle_Qle. lra.
  - intros Heq. rewrite Heq in Hkey. lra.
  - lra.
Qed.

Lemma title_maximizes_key_witness :
  exact_key (Candidate "Annual Report Overview" 12 1)
  /\ exact_key (Candidate "Prepared For Review" 12 2)
  /\ (c_page (Candidate "Annual Report Overview" 12 1)
      <= c_page (Candidate "Prepared For Review" 12 2))%Z.
Proof.
  assert (Hbest : exact_key (Candidate "Annual Report Overview" 12 1))
    by (vm_compute; reflexivity).
  assert (Hc : exact_key (Candidate "Prepared For Review" 12 2))
    by (vm_compute; reflexivity).
  split; [exact Hbest |]. split; [exact Hc |].
  refine (proj1 (proj2 (proj2 (proj2
            (title_maximizes_key equal_sizes_example
               [Candidate "Prepared For Review" 12 2;
                Candidate "Annual Report Overview" 12 1]
               (Candidate "Annual Report Overview" 12 1) _ _ _)))
            (Candidate "Prepared For Review" 12 2) _ Hbest Hc) _).
  - repeat constructor; simpl; lia.
  - vm_compute. reflexivity.
  - vm_compute. reflexivity.
  - simpl. auto.
  - reflexivity.
Defined.

(** ** The heading sequence *)

Lemma length_str l : String.length (Py.str l) = length l.
Proof. induction l as [|c l IH]; simpl; [reflexivity | f_equal; exact IH]. Qed.

Lemma length_chars s : length (Py.chars s) = String.length s.
Proof. induction s as [|c s IH]; simpl; [reflexivity | f_equal; exact IH]. Qed.

Lemma lstrip_length l : (length (Py.lstrip_chars l) <= length l)%nat.
Proof.
  induction l as [|c l IH]; simpl; [lia |]. destruct (Py.is_space c); simpl; lia.
Qed.

Lemma strip_len s : (Py.len (Py.strip s) <= Py.len s)%Z.
Proof.
  unfold Py.len, Py.strip, Py.strip_chars.
  rewrite length_str, length_rev, <- length_chars.
  pose proof (lstrip_length (rev (Py.lstrip_chars (Py.chars s)))) as H1.
  rewrite length_rev in H1. pose proof (lstrip_length (Py.chars s)) as H2. lia.
Qed.


Lemma quality_check_spec t :
  Main.quality_check t = true ->
  (2 <= Z.of_nat (length (Py.split t)))%Z
  /\ Re.re_match Pat.only_digits t = false
  /\ (Py.lower t <> "page" /\ Py.lower t <> "figure" /\ Py.lower t <> "table")
  /\ (3 <= Py.len (Py.strip t))%Z
  /\ (3 <= Py.len t)%Z.
Proof.
  unfold Main.quality_check. rewrite !andb_true_iff, !negb_true_iff.
  intros [[[Hw Hd] Hn] Hl]. apply Z.leb_le in Hw, Hl.
  split; [exact Hw |]. split; [exact Hd |]. split.
  - simpl in Hn. rewrite !orb_false_iff in Hn. destruct Hn as (H1 & H2 & H3 & _).
    repeat split; intros E; rewrite E in *; discriminate.
  - split; [exact Hl |]. pose proof (strip_len t). lia.
Qed.

Section HeadingLoop.
Variables (average_size : Q) (unique_font_sizes : list Q) (doc_title : string).

(** The loop keeps: every entry's lower-cased text is in
    [processed_texts], and these texts are pairwise distinct. *)
Lemma heading_loop_distinct elems : forall acc (seen : gset string),
  (forall p, In p acc -> lower_text p ∈ seen) ->
  NoDup (map lower_text acc) ->
  NoDup (map lower_text
           (fst (Main.heading_loop average_size unique_font_sizes doc_title elems
                   (acc, seen)))).
Proof.
  unfold Main.heading_loop.
  induction elems as [|e elems IH]; intros acc seen Hseen Hnd; simpl; [exact Hnd |].
  set (te := Py.lower (Main.clean_text (text e))).
  destruct (bool_decide_reflect (te ∈ seen)) as [Hin | Hin]; simpl;
    [apply IH; assumption |].
  destruct (String.eqb te (Py.lower doc_title)); [apply IH; assumption |].
  destruct (Main.looks_like_heading _ _ _ _ _); [| apply IH; assumption].
  apply IH.
  - intros p Hp. apply in_app_or in Hp. destruct Hp as [Hp | [<- | []]].
    + apply elem_of_union. right. apply Hseen. exact Hp.
    + apply elem_of_union. left. apply elem_of_singleton. reflexivity.
  - rewrite map_app. simpl. apply NoDup_app. split; [exact Hnd |]. split.
    + intros t Ht Ht'. apply list_elem_of_In in Ht, Ht'.
      destruct Ht' as [<- | []]. apply in_map_iff in Ht.
      destruct Ht as (p & Hp & Hpin). apply Hin.
      assert (E : lower_text p = te) by exact Hp.
      rewrite <- E. apply Hseen. exact Hpin.
    + apply NoDup_singleton.
Qed.

(** Every entry comes from a fragment that passes the heading filter and
    whose text is not the title. *)
Lemma heading_loop_passed elems : forall st p,
  In p (fst (Main.heading_loop average_size unique_font_sizes doc_title elems st)) ->
  In p (fst st)
  \/ exists e, In e elems
       /\ p = heading_entry average_size unique_font_sizes e
       /\ Main.looks_like_heading average_size (text e) (size e) (page e) (flags e) = true
       /\ Py.lower (Main.clean_text (text e)) <> Py.lower doc_title.
Proof.
  unfold Main.heading_loop.
  induction elems as [|e elems IH]; intros st p Hp; simpl in Hp; [auto |].
  destruct (IH _ p Hp) as [H | (e' & He' & H)].
  - destruct st as [ph seen]. unfold Main.heading_step in H.
    destruct (bool_decide _) in H; [auto |]. simpl in H.
    destruct (String.eqb_spec (Py.lower (Main.clean_text (text e))) (Py.lower doc_title))
      as [E | E]; [auto |].
    destruct (Main.looks_like_heading _ _ _ _ _) eqn:Hl in H; [| auto].
    simpl in H. apply in_app_or in H. destruct H as [H | [<- | []]]; [auto |].
    right. exists e. split; [left; reflexivity |]. split; [reflexivity |]. auto.
  - right. exists e'. split; [right; exact He' | exact H].
Qed.
End HeadingLoop.

Section Dedup.
Variables (average_size : Q) (unique_font_sizes : list Q) (doc_title t : string).
Hypothesis t_not_title : t <> Py.lower doc_title.

(** What the loop adds for the text [t]: the entry of the first fragment
    that passes, unless [t] has been seen. *)
Lemma heading_loop_filter elems : forall acc (seen : gset string),
  List.filter (pheading_for t)
    (fst (Main.heading_loop average_size unique_font_sizes doc_title elems (acc, seen)))
  = List.filter (pheading_for t) acc ++
    (if bool_decide (t ∈ seen) then []
     else match find (passes average_size t) elems with
          | Some f => [heading_entry average_size unique_font_sizes f]
          | None => []
          end).
Proof.
  unfold Main.heading_loop.
  induction elems as [|e elems IH]; intros acc seen; simpl.
  - destruct (bool_decide (t ∈ seen)); rewrite app_nil_r; reflexivity.
  - unfold passes at 1.
    set (te := Py.lower (Main.clean_text (text e))).
    destruct (String.eqb_spec te t) as [Et | Et].
    + (* this fragment carries the text [t] *)
      subst t. destruct (String.eqb_spec te (Py.lower doc_title)) as [E | _];
        [contradiction |].
      rewrite orb_false_r. case_bool_decide as Hseen; simpl.
      * rewrite IH. rewrite bool_decide_true by exact Hseen. reflexivity.
      * destruct (Main.looks_like_heading _ _ _ _ _); simpl.
        -- rewrite IH, List.filter_app. simpl. unfold pheading_for at 2. simpl.
           fold te. rewrite String.eqb_refl.
           rewrite bool_decide_true by set_solver.
           rewrite app_nil_r. reflexivity.
        -- rewrite IH. rewrite bool_decide_false by exact Hseen. reflexivity.
    + (* another text *)
      simpl.
      destruct (bool_decide (te ∈ seen) || String.eqb te (Py.lower doc_title));
        [apply IH |].
      destruct (Main.looks_like_heading _ _ _ _ _); [| apply IH].
      rewrite IH, List.filter_app. simpl. unfold pheading_for at 2. simpl. fold te.
      destruct (String.eqb_spec te t) as [E | _]; [contradiction |].
      rewrite app_nil_r. f_equal.
      destruct (bool_decide_reflect (t ∈ seen)) as [Hs | Hs].
      * rewrite bool_decide_true; [reflexivity | set_solver].
      * rewrite bool_decide_false; [reflexivity |].
        intros Hin. apply elem_of_union in Hin. destruct Hin as [Hin | Hin]; [| auto].
        apply elem_of_singleton in Hin. congruence.
Qed.
End Dedup.

(** C7: [analyze_document_structure] returns; its headings are the
    projection of a sequence of entries that is sorted by page ascending
    and, within a page, by font size descending, where each entry is the
    one that the heading loop builds from its originating fragment: the
    first fragment in document order that has the entry's normalized
    text up to letter case and passes the heading filter against the
    average font size of the document; the entry carries that fragment's
    normalized text, page, font size and level.  Every returned heading
    has at least 2 words, is not made of digits only, is not "page",
    "figure" or "table" in any letter case, and has at least 3
    characters. *)
Theorem headings_sorted_and_clean (elems : list element) :
  exists (ps : list pheading) (title : string),
    Main.analyze_document_structure elems = Ok (map Main.confirm ps, title)
    /\ StronglySorted heading_le ps
    /\ (forall p, In p ps ->
          exists average_size f,
            py_div (py_sum (map size elems)) (Z.of_nat (length (map size elems)))
            = Ok average_size
            /\ In f elems
            /\ find (passes average_size (lower_text p)) elems = Some f
            /\ p = heading_entry average_size (sorted_desc (Q_set (map size elems))) f
            /\ p_text p = Main.clean_text (text f)
            /\ p_page p = page f /\ p_size p = size f)
    /\ (forall h, In h (map Main.confirm ps) ->
          (2 <= Z.of_nat (length (Py.split (h_text h))))%Z
          /\ Re.re_match Pat.only_digits (h_text h) = false
          /\ (Py.lower (h_text h) <> "page" /\ Py.lower (h_text h) <> "figure"
              /\ Py.lower (h_text h) <> "table")
          /\ (3 <= Py.len (Py.strip (h_text h)))%Z
          /\ (3 <= Py.len (h_text h))%Z).
Proof.
  destruct elems as [|e0 elems0].
  { exists [], "No Title Found". split; [reflexivity |]. split; [constructor |].
    split; intros ? []. }
  destruct (analyze_unfold (e0 :: elems0)) as (avg & cands & Havg & _ & Hres);
    [discriminate |].
  set (elems := e0 :: elems0) in *. clearbody elems.
  set (uniq := sorted_desc (Q_set (map size elems))) in *.
  set (title := Main.select_title cands) in *.
  set (potential := fst (Main.heading_loop avg uniq title elems ([], ∅))) in *.
  exists (Main.confirmed_potential potential), title.
  split; [exact Hres |]. split; [| split].
  - unfold Main.confirmed_potential. apply StronglySorted_filter_keep.
    eapply StronglySorted_weaken; [exact heading_not_after_le |].
    apply sort_by_sorted; [exact heading_key_asym | exact heading_key_negtrans].
  - intros p Hp. unfold Main.confirmed_potential in Hp.
    apply List.filter_In in Hp. destruct Hp as [Hp _]. apply sort_by_In in Hp.
    assert (Ht : lower_text p <> Py.lower title).
    { destruct (heading_loop_passed _ _ _ _ _ _ Hp) as [[] | (e & _ & -> & _ & Hnt)].
      exact Hnt. }
    assert (Hin : In p (List.filter (pheading_for (lower_text p)) potential)).
    { apply List.filter_In. split; [exact Hp |]. apply String.eqb_refl. }
    unfold potential in Hin.
    rewrite (heading_loop_filter avg uniq title (lower_text p) Ht elems [] ∅) in Hin.
    rewrite bool_decide_false in Hin by set_solver. simpl in Hin.
    destruct (find (passes avg (lower_text p)) elems) as [f|] eqn:Hfind;
      [| destruct Hin].
    destruct Hin as [Hpf | []]. exists avg, f.
    split; [exact Havg |]. split; [exact (proj1 (find_some _ _ Hfind)) |].
    split; [exact Hfind |]. split; [symmetry; exact Hpf |].
    rewrite <- Hpf. simpl. auto.
  - intros h Hh. apply in_map_iff in Hh. destruct Hh as (p & <- & Hp).
    unfold Main.confirmed_potential in Hp. apply List.filter_In in Hp.
    destruct Hp as [_ Hq]. simpl. apply quality_check_spec. exact Hq.
Qed.

(** ** Deduplication *)

Lemma filter_perm {A : Type} (f : A -> bool) l l' :
  Permutation l l' -> Permutation (List.filter f l) (List.filter f l').
Proof.
  induction 1 as [| x l l' _ IH | x y l | l l' l'' _ IH1 _ IH2]; simpl.
  - apply perm_nil.
  - destruct (f x); [apply perm_skip |]; exact IH.
  - destruct (f x), (f y); try apply Permutation_refl. apply perm_swap.
  - eapply Permutation_trans; eassumption.
Qed.

Lemma filter_swap {A : Type} (f g : A -> bool) l :
  List.filter f (List.filter g l) = List.filter g (List.filter f l).
Proof.
  induction l as [|x l IH]; simpl; [reflexivity |].
  destruct (f x) eqn:Ef, (g x) eqn:Eg; simpl; rewrite ?Ef, ?Eg, IH; reflexivity.
Qed.

Lemma filter_map_comm {A B : Type} (g : A -> B) (f : B -> bool) l :
  List.filter f (map g l) = map g (List.filter (fun x => f (g x)) l).
Proof.
  induction l as [|x l IH]; simpl; [reflexivity |].
  destruct (f (g x)); simpl; rewrite IH; reflexivity.
Qed.

(** A list with at most one element is its own only arrangement. *)
Lemma perm_short {A : Type} (l l' : list A) :
  Permutation l l' -> (length l <= 1)%nat -> l' = l.
Proof.
  intros Hp Hl. destruct l as [|x [|y l]]; simpl in Hl; try lia.
  - apply Permutation_nil. exact Hp.
  - apply Permutation_length_1_inv. exact Hp.
Qed.


Lemma find_of_In {A : Type} (f : A -> bool) l x :
  In x l -> f x = true -> exists y, find f l = Some y.
Proof.
  induction l as [|a l IH]; intros Hin Hf; [destruct Hin |]. simpl.
  destruct (f a) eqn:Ea; [eauto |]. destruct Hin as [-> | Hin]; [congruence | auto].
Qed.

(** C6, as stated, fails: the two fragments have the same normalized text
    up to letter case and both pass the heading filter, and no heading
    for that text is in the result. *)
Lemma one_word_duplicates_vanish :
  map (fun e => Py.lower (Main.clean_text (text e))) one_word_example
  = ["summary:"; "summary:"]
  /\ py_div (py_sum (map size one_word_example))
       (Z.of_nat (length (map size one_word_example))) = Ok 12%Q
  /\ map (fun e => Main.looks_like_heading 12%Q (text e) (size e) (page e) (flags e))
       one_word_example = [true; true]
  /\ Main.analyze_document_structure one_word_example = Ok ([], "Untitled Document").
Proof. repeat split; vm_compute; reflexivity. Qed.

(** C6, amended: among the fragments that have one normalized text up to
    letter case and pass the heading filter, that text not being the
    chosen title, only the earliest in document order can give a heading:
    the headings of the result for that text are exactly that fragment's
    heading (its normalized text, its page, the level of its size) when
    its text passes the final quality check, and none otherwise. *)
Theorem duplicates_kept_once (elems : list element) (hs : list heading)
  (title : string) (average_size : Q) (e : element) :
  Main.analyze_document_structure elems = Ok (hs, title) ->
  py_div (py_sum (map size elems)) (Z.of_nat (length (map size elems))) = Ok average_size ->
  In e elems ->
  Main.looks_like_heading average_size (text e) (size e) (page e) (flags e) = true ->
  Py.lower (Main.clean_text (text e)) <> Py.lower title ->
  exists f,
    find (passes average_size (Py.lower (Main.clean_text (text e)))) elems = Some f
    /\ List.filter (heading_for (Py.lower (Main.clean_text (text e)))) hs
       = if Main.quality_check (Main.clean_text (text f))
         then [Heading
                 (Main.determine_heading_level average_size
                    (sorted_desc (Q_set (map size elems))) (text f) (size f) (page f))
                 (Main.clean_text (text f)) (page f)]
         else [].
Proof.
  intros Hres Havg Hin Hlooks Htitle.
  set (t := Py.lower (Main.clean_text (text e))) in *.
  assert (Hne : elems <> []) by (intros ->; destruct Hin).
  destruct (analyze_unfold elems Hne) as (avg' & cands & Havg' & _ & Hres').
  rewrite Havg in Havg'. injection Havg' as <-.
  rewrite Hres in Hres'. injection Hres' as -> ->.
  destruct (find_of_In (passes average_size t) elems e Hin) as [f Hf].
  { unfold passes. fold t. rewrite String.eqb_refl, Hlooks. reflexivity. }
  exists f. split; [exact Hf |].
  set (uniq := sorted_desc (Q_set (map size elems))).
  set (potential := fst (Main.heading_loop average_size uniq
                           (Main.select_title cands) elems ([], ∅))).
  assert (Hpot : List.filter (pheading_for t) potential
                 = [PHeading (Main.clean_text (text f))
                      (Main.determine_heading_level average_size uniq
                         (text f) (size f) (page f))
                      (page f) (size f)]).
  { unfold potential.
    rewrite (heading_loop_filter average_size uniq _ t Htitle elems [] ∅).
    rewrite bool_decide_false; [| set_solver]. rewrite Hf. reflexivity. }
  assert (Hsorted : List.filter (pheading_for t)
                      (sort_by Main.heading_key_ltb Main.heading_key potential)
                    = List.filter (pheading_for t) potential).
  { apply perm_short.
    - apply filter_perm, Permutation_sym, sort_by_perm.
    - rewrite Hpot. simpl. lia. }
  unfold Main.confirmed_potential.
  rewrite filter_map_comm.
  change (fun x => heading_for t (Main.confirm x)) with (pheading_for t).
  rewrite filter_swap, Hsorted, Hpot. simpl.
  destruct (Main.quality_check (Main.clean_text (text f))); reflexivity.
Qed.

Lemma duplicates_kept_once_witness :
  exists f,
    find (passes (Float.div 40 (Float.of_int 3)) "project background") duplicate_example = Some f
    /\ List.filter (heading_for "project background")
         [Heading H4 "Project Background" 3]
       = if Main.quality_check (Main.clean_text (text f))
         then [Heading
                 (Main.determine_heading_level (Float.div 40 (Float.of_int 3))
                    (sorted_desc (Q_set (map size duplicate_example)))
                    (text f) (size f) (page f))
                 (Main.clean_text (text f)) (page f)]
         else [].
Proof.
  apply (duplicates_kept_once duplicate_example [Heading H4 "Project Background" 3]
           "Untitled Document" (Float.div 40 (Float.of_int 3)) (Element "PROJECT  BACKGROUND" 16 16 2)).
  - vm_compute. reflexivity.
  - vm_compute. reflexivity.
  - simpl. auto.
  - vm_compute. reflexivity.
  - vm_compute. intros H. discriminate H.
Defined.

(** ** Ranking of page sections *)

Lemma section_key_asym : asym Main.section_key_ltb.
Proof.
  apply pair_ltb_asym; auto using Z.eqb_eq, Zltb_asym.
  apply pair_ltb_asym; auto using String.eqb_eq, str_ltb_asym, Zltb_asym.
Qed.

Lemma section_key_negtrans : negtrans Main.section_key_ltb.
Proof.
  apply pair_ltb_negtrans; auto using Z.eqb_eq, Zltb_negtrans, Zltb_tri.
  apply pair_ltb_negtrans;
    auto using String.eqb_eq, str_ltb_negtrans, str_ltb_tri, Zltb_negtrans.
Qed.

Lemma section_not_after_le terms a b :
  not_after Main.section_key_ltb (Main.section_key terms) a b -> section_le terms a b.
Proof.
  unfold not_after, Main.section_key_ltb, Main.section_key, pair_ltb, section_le. simpl.
  destruct (Z.eqb_spec (- Main.match_count terms (r_section_title b))
              (- Main.match_count terms (r_section_title a))) as [E | E].
  - destruct (String.eqb_spec (r_document b) (r_document a)) as [Ed | Ed].
    + rewrite Z.ltb_ge. intros H. right. split; [lia |]. right. split; [congruence | lia].
    + intros H. right. split; [lia |]. left. apply str_ltb_ge in H.
      destruct H as [H | H]; [exact H | congruence].
  - rewrite Z.ltb_ge. lia.
Qed.

Lemma assign_ranks_length i l : length (Main.assign_ranks i l) = length l.
Proof.
  revert i. induction l as [|s l IH]; intros i; simpl; [reflexivity | f_equal; apply IH].
Qed.

Lemma assign_ranks_nth l : forall i n o,
  nth_error (Main.assign_ranks i l) n = Some o ->
  exists s, nth_error l n = Some s /\ ranked_as (i + Z.of_nat n) s o.
Proof.
  induction l as [|s l IH]; intros i n o H.
  - destruct n; discriminate.
  - destruct n as [|n]; simpl in H.
    + injection H as <-. exists s. split; [reflexivity |].
      unfold ranked_as. rewrite Z.add_0_r. reflexivity.
    + destruct (IH _ _ _ H) as (s' & Hs' & Hr). exists s'. split; [exact Hs' |].
      unfold ranked_as in *. rewrite Hr. f_equal. lia.
Qed.

Lemma assign_ranks_In l : forall i o,
  In o (Main.assign_ranks i l) -> exists s, In s l /\ r_section_title o = r_section_title s.
Proof.
  induction l as [|s l IH]; intros i o H; [destruct H |]. simpl in H.
  destruct H as [<- | H].
  - exists s. split; [left; reflexivity | reflexivity].
  - destruct (IH _ _ H) as (s' & Hs' & Ht). exists s'. split; [right; exact Hs' | exact Ht].
Qed.

Lemma main2_assign_ranks l : forall idx,
  Main2.assign_ranks idx l = Main.assign_ranks (idx + 1) l.
Proof.
  induction l as [|s l IH]; intros idx; simpl; [reflexivity | rewrite IH; reflexivity].
Qed.

Lemma main2_ranking_eq top_k secs role task :
  Main2.relevant_sections_k top_k secs role task = Main.top_sections_k top_k secs role task.
Proof.
  unfold Main2.relevant_sections_k, Main.top_sections_k. rewrite main2_assign_ranks.
  reflexivity.
Qed.

Lemma In_firstn {A : Type} n (l : list A) x : In x (firstn n l) -> In x l.
Proof.
  intros H. rewrite <- (firstn_skipn n l). apply in_or_app. left. exact H.
Qed.

Lemma sorted_app_le {A : Type} (R : A -> A -> Prop) l1 l2 :
  StronglySorted R (l1 ++ l2) -> forall x y, In x l1 -> In y l2 -> R x y.
Proof.
  induction l1 as [|a l1 IH]; intros Hs x y Hx Hy; [destruct Hx |].
  simpl in Hs. apply StronglySorted_inv in Hs. destruct Hs as [Hs Hall].
  destruct Hx as [<- | Hx].
  - rewrite List.Forall_forall in Hall. apply Hall, in_or_app. right. exact Hy.
  - exact (IH Hs x y Hx Hy).
Qed.

(** Every ranked entry has a title that shares a word with the query. *)
Lemma ranked_has_match top_k secs role task o :
  In o (Main.top_sections_k top_k secs role task) ->
  Main.match_count (Main.search_terms task role) (r_section_title o) <> 0%Z.
Proof.
  unfold Main.top_sections_k. intros H. apply assign_ranks_In in H.
  destruct H as (s & Hs & ->). apply In_firstn, sort_by_In in Hs.
  unfold Main.important_sections in Hs. apply in_map_iff in Hs.
  destruct Hs as (sec & <- & Hsec). apply List.filter_In in Hsec.
  destruct Hsec as [_ Hm]. simpl. apply negb_true_iff, Z.eqb_neq in Hm. exact Hm.
Qed.

(** C8: a section whose title shares no word with the query is not in the
    ranked output, whatever the number of output slots, in [main.py] and
    in [main2.py]: no ranked entry carries its title. *)
Theorem unmatched_section_not_ranked (top_k : nat) (secs : list section)
  (role task : string) (s : section) :
  Main.search_terms task role ∩ Main.word_set (section_title s) = ∅ ->
  (forall o, In o (Main.top_sections_k top_k secs role task) ->
     r_section_title o <> section_title s)
  /\ (forall o, In o (Main2.relevant_sections_k top_k secs role task) ->
        r_section_title o <> section_title s).
Proof.
  intros Hdisjoint.
  assert (Hzero : Main.match_count (Main.search_terms task role) (section_title s) = 0%Z).
  { unfold Main.match_count. rewrite Hdisjoint, size_empty. reflexivity. }
  assert (Hmain : forall o, In o (Main.top_sections_k top_k secs role task) ->
                    r_section_title o <> section_title s).
  { intros o Ho Heq. apply (ranked_has_match _ _ _ _ _ Ho). rewrite Heq. exact Hzero. }
  split; [exact Hmain |]. intros o Ho. rewrite main2_ranking_eq in Ho. auto.
Qed.

Lemma unmatched_section_not_ranked_witness :
  Main.search_terms "Review project timeline" "Project Manager"
    ∩ Main.word_set "Catering options" = ∅
  /\ ~ In (Ranked "plan.pdf" 2 "Catering options" 2 "Catering options for the event")
         (Main.top_sections_k 5 ranking_example "Project Manager"
            "Review project timeline").
Proof.
  split; [vm_compute; reflexivity |]. intros Hin.
  refine (proj1 (unmatched_section_not_ranked 5 ranking_example "Project Manager"
                   "Review project timeline"
                   (Section_ "plan.pdf" 2 2 "Catering options"
                      "Catering options for the event" "auto") _) _ Hin _).
  - vm_compute. reflexivity.
  - reflexivity.
Defined.

(** C9: the ranked output is the list of matching sections, arranged by
    match score descending, then document name ascending, then page number
    ascending, cut to its first 5 entries, the i-th of which gets the rank
    i; its length is the smaller of 5 and the number of matching sections
    (5 when 8 sections match), and no discarded section has a higher match
    score than a retained one.  [main2.py] computes the same list. *)
Theorem ranking_sorted_top5 (secs : list section) (role task : string) :
  exists sorted : list ranked,
    Permutation sorted (Main.important_sections (Main.search_terms task role) secs)
    /\ StronglySorted (section_le (Main.search_terms task role)) sorted
    /\ Main.top_sections secs role task = Main.assign_ranks 1 (firstn 5 sorted)
    /\ length (Main.top_sections secs role task)
       = Nat.min 5 (length (Main.important_sections (Main.search_terms task role) secs))
    /\ (forall i o, nth_error (Main.top_sections secs role task) i = Some o ->
          importance_rank o = (Z.of_nat i + 1)%Z
          /\ exists s, nth_error sorted i = Some s
                       /\ ranked_as (Z.of_nat i + 1) s o)
    /\ (forall r d, In r (firstn 5 sorted) -> In d (skipn 5 sorted) ->
          (Main.match_count (Main.search_terms task role) (r_section_title d)
           <= Main.match_count (Main.search_terms task role) (r_section_title r))%Z)
    /\ Main2.relevant_sections secs role task = Main.top_sections secs role task.
Proof.
  set (terms := Main.search_terms task role).
  set (matching := Main.important_sections terms secs).
  set (sorted := sort_by Main.section_key_ltb (Main.section_key terms) matching).
  assert (Hsorted : StronglySorted (section_le terms) sorted).
  { eapply StronglySorted_weaken; [exact (section_not_after_le terms) |].
    apply sort_by_sorted; [exact section_key_asym | exact section_key_negtrans]. }
  assert (Hperm : Permutation sorted matching) by apply sort_by_perm.
  exists sorted. split; [exact Hperm |]. split; [exact Hsorted |].
  split; [reflexivity |]. split; [| split; [| split]].
  - change (Main.top_sections secs role task)
      with (Main.assign_ranks 1 (firstn 5 sorted)).
    rewrite assign_ranks_length, length_firstn, (Permutation_length Hperm). reflexivity.
  - intros i o Ho.
    change (Main.top_sections secs role task)
      with (Main.assign_ranks 1 (firstn 5 sorted)) in Ho.
    apply assign_ranks_nth in Ho. destruct Ho as (s & Hs & Hr).
    rewrite Z.add_comm in Hr. split; [rewrite Hr; reflexivity |].
    exists s. split; [| exact Hr].
    rewrite nth_error_firstn in Hs.
    destruct (Nat.ltb_spec i 5); [exact Hs | discriminate Hs].
  - intros r d Hr Hd.
    rewrite <- (firstn_skipn 5 sorted) in Hsorted.
    destruct (sorted_app_le _ _ _ Hsorted r d Hr Hd) as [H | [H _]]; lia.
  - apply main2_ranking_eq.
Qed.

(** ** [main.py] against [main2.py] *)

Lemma title_test_eq all_sizes t s p f :
  Main2.is_title_candidate all_sizes t s p f = Main.could_be_title all_sizes t s p f.
Proof.
  unfold Main2.is_title_candidate, Main.could_be_title.
  destruct (p >? 2)%Z; [reflexivity |].
  destruct (py_max all_sizes) as [m | err]; [| reflexivity].
  cbn [mbind result_bind].
  destruct (Qltb s (Float.mul m (Float.lit 0.9))); [reflexivity |].
  destruct (_ || _); [reflexivity |].
  destruct (Re.re_match Pat.leading_number t); reflexivity.
Qed.

Lemma title_loop_eq all_sizes elems : forall acc,
  Main2.title_loop all_sizes elems acc = Main.title_loop all_sizes elems acc.
Proof.
  induction elems as [|e elems IH]; intros acc; [reflexivity |].
  cbn [Main2.title_loop Main.title_loop]. rewrite title_test_eq.
  destruct (Main.could_be_title all_sizes (text e) (size e) (page e) (flags e))
    as [b | err]; [| reflexivity].
  cbn [mbind result_bind]. apply IH.
Qed.

(** C10: on every non-empty fragment list [analyze_document_structure] of
    [main.py] and [identify_structure] of [main2.py] give the same result:
    the same title and the same headings (levels, texts, pages) in the
    same order. *)
Theorem main_and_main2_agree (elems : list element) :
  elems <> [] ->
  Main.analyze_document_structure elems = Main2.identify_structure elems.
Proof.
  intros Hne. destruct elems as [|e elems]; [congruence |].
  unfold Main.analyze_document_structure, Main2.identify_structure.
  destruct (py_div _ _) as [avg | err]; [| reflexivity].
  cbn [mbind result_bind]. rewrite title_loop_eq.
  destruct (Main.title_loop _ _ _) as [cands | err]; reflexivity.
Qed.

Lemma main_and_main2_agree_witness :
  Main.analyze_document_structure summary_example
  = Main2.identify_structure summary_example.
Proof. apply (main_and_main2_agree summary_example). discriminate. Defined.

(** * Further properties of the code *)

(** ** Text normalization *)

Module TextFacts.

Lemma chars_str l : Py.chars (Py.str l) = l.
Proof. apply list_ascii_of_string_of_list_ascii. Qed.

Lemma str_chars s : Py.str (Py.chars s) = s.
Proof. apply string_of_list_ascii_of_string. Qed.

Lemma chars_app a b : Py.chars (a ++ b) = Py.chars a ++ Py.chars b.
Proof. induction a as [|c a IH]; simpl; [reflexivity | f_equal; exact IH]. Qed.

Lemma lower_char_space c : Py.is_space (Py.lower_char c) = Py.is_space c.
Proof. destruct c as [[] [] [] [] [] [] [] []]; reflexivity. Qed.

Lemma lower_char_idem c : Py.lower_char (Py.lower_char c) = Py.lower_char c.
Proof. destruct c as [[] [] [] [] [] [] [] []]; reflexivity. Qed.

Lemma lstrip_starts_clean l : starts_clean (Py.lstrip_chars l).
Proof.
  induction l as [|c l IH]; simpl; [exact I |].
  destruct (Py.is_space c) eqn:E; [exact IH | exact E].
Qed.

Lemma lstrip_suffix l :
  exists p, l = p ++ Py.lstrip_chars l /\ Forall (fun c => Py.is_space c = true) p.
Proof.
  induction l as [|c l IH]; simpl.
  - exists []. split; [reflexivity | constructor].
  - destruct IH as (p & Hp & Hall). destruct (Py.is_space c) eqn:E.
    + exists (c :: p). split; [simpl; f_equal; exact Hp | constructor; assumption].
    + exists []. split; [reflexivity | constructor].
Qed.

Lemma lstrip_id l : starts_clean l -> Py.lstrip_chars l = l.
Proof. destruct l as [|c l]; simpl; [reflexivity |]. intros ->. reflexivity. Qed.

Lemma ends_clean_snoc l a : ends_clean (l ++ [a]) <-> Py.is_space a = false.
Proof.
  induction l as [|c l IH]; simpl; [reflexivity |].
  destruct (l ++ [a]) eqn:E; [destruct l; discriminate | exact IH].
Qed.

Lemma ends_clean_rev l : ends_clean (rev l) <-> starts_clean l.
Proof.
  destruct l as [|c l]; simpl; [reflexivity | apply ends_clean_snoc].
Qed.

Lemma starts_clean_rev l : starts_clean (rev l) <-> ends_clean l.
Proof. rewrite <- (rev_involutive l) at 2. symmetry. apply ends_clean_rev. Qed.

Lemma starts_clean_prefix l p : starts_clean (l ++ p) -> starts_clean l.
Proof. destruct l; simpl; auto. Qed.

(** [strip] leaves no whitespace at either end. *)
Lemma strip_chars_clean l :
  starts_clean (Py.strip_chars l) /\ ends_clean (Py.strip_chars l).
Proof.
  unfold Py.strip_chars. set (y := Py.lstrip_chars l).
  split.
  - destruct (lstrip_suffix (rev y)) as (p & Hp & _).
    apply (starts_clean_prefix _ (rev p)). rewrite <- rev_app_distr, <- Hp, rev_involutive.
    apply lstrip_starts_clean.
  - apply ends_clean_rev, lstrip_starts_clean.
Qed.

Lemma strip_chars_id l : starts_clean l -> ends_clean l -> Py.strip_chars l = l.
Proof.
  intros Hs He. unfold Py.strip_chars. rewrite (lstrip_id l Hs).
  rewrite lstrip_id; [apply rev_involutive | apply starts_clean_rev; exact He].
Qed.

Lemma ends_clean_tail c l : ends_clean (c :: l) -> l <> [] -> ends_clean l.
Proof. destruct l; [congruence | simpl; auto]. Qed.

Lemma ends_clean_space c l : ends_clean (c :: l) -> Py.is_space c = true -> l <> [].
Proof. intros H Hc ->. simpl in H. congruence. Qed.

(** What [re.sub(r'\s+', ' ', _)] gives on a text that does not end in
    whitespace. *)
Lemma collapse_single_spaced l : forall b,
  ends_clean l ->
  single_spaced (Py.collapse_chars b l) = true
  /\ (l <> [] -> Py.collapse_chars b l <> [])
  /\ (b = true \/ starts_clean l -> starts_clean (Py.collapse_chars b l)).
Proof.
  induction l as [|c l IH]; intros b He; simpl.
  - split; [reflexivity |]. split; [congruence | intros _; exact I].
  - destruct (Py.is_space c) eqn:Ec.
    + pose proof (ends_clean_space c l He Ec) as Hne.
      destruct (IH true (ends_clean_tail c l He Hne)) as (Hs & Hn & Hh).
      specialize (Hn Hne). specialize (Hh (or_introl eq_refl)).
      destruct b.
      * split; [exact Hs |]. split; [intros _; exact Hn | intros _; exact Hh].
      * split; [| split; [discriminate |]].
        -- simpl. rewrite Hs, andb_true_r.
           destruct (Py.collapse_chars true l) as [|x r]; [congruence |].
           simpl in Hh. rewrite Hh. reflexivity.
        -- intros [Hb | Hc]; [discriminate | simpl in Hc; congruence].
    + split; [| split; [discriminate | intros _; exact Ec]].
      simpl. rewrite Ec. simpl. destruct l as [|x r]; [reflexivity |].
      apply (IH false). exact He.
Qed.

Lemma single_spaced_ends_clean l : single_spaced l = true -> ends_clean l.
Proof.
  induction l as [|c l IH]; simpl; [auto |].
  rewrite andb_true_iff. intros [Hc Hs]. destruct l as [|x r]; [| exact (IH Hs)].
  destruct (Py.is_space c); [| reflexivity].
  simpl in Hc. rewrite andb_false_r in Hc. discriminate.
Qed.

Lemma collapse_nonspace_head b c l :
  Py.is_space c = false ->
  Py.collapse_chars b (c :: l) = c :: Py.collapse_chars false l.
Proof. intros H. simpl. rewrite H. reflexivity. Qed.

Lemma collapse_id l : single_spaced l = true -> Py.collapse_chars false l = l.
Proof.
  induction l as [|c l IH]; simpl; [reflexivity |].
  rewrite andb_true_iff. intros [Hc Hs]. destruct (Py.is_space c) eqn:Ec.
  - simpl in Hc. rewrite andb_true_iff in Hc. destruct Hc as [Hsp Hnext].
    apply Ascii.eqb_eq in Hsp. subst c. destruct l as [|x r]; [discriminate |].
    apply negb_true_iff in Hnext. f_equal.
    rewrite (collapse_nonspace_head true x r Hnext).
    rewrite <- (collapse_nonspace_head false x r Hnext). exact (IH Hs).
  - f_equal. exact (IH Hs).
Qed.

Lemma split_lstrip l : Py.split_chars [] (Py.lstrip_chars l) = Py.split_chars [] l.
Proof.
  induction l as [|c l IH]; simpl; [reflexivity |].
  destruct (Py.is_space c) eqn:E; [exact IH |]. simpl. rewrite E. reflexivity.
Qed.

Lemma split_spaces p : Forall (fun c => Py.is_space c = true) p ->
  forall cur, Py.split_chars cur p = Py.split_chars cur [].
Proof.
  induction 1 as [|a p Ha _ IH]; intros cur; [reflexivity |].
  simpl. rewrite Ha, (IH []). simpl. destruct cur; reflexivity.
Qed.

Lemma split_trailing p : Forall (fun c => Py.is_space c = true) p ->
  forall l cur, Py.split_chars cur (l ++ p) = Py.split_chars cur l.
Proof.
  intros Hp. induction l as [|c l IH]; intros cur.
  - apply split_spaces. exact Hp.
  - simpl. destruct (Py.is_space c); [destruct cur; rewrite IH; reflexivity | apply IH].
Qed.

Lemma split_collapse l : forall b cur,
  (b = true -> cur = []) ->
  Py.split_chars cur (Py.collapse_chars b l) = Py.split_chars cur l.
Proof.
  induction l as [|c l IH]; intros b cur Hb; simpl; [reflexivity |].
  destruct (Py.is_space c) eqn:Ec.
  - destruct b.
    + rewrite (Hb eq_refl). apply IH. auto.
    + simpl. destruct cur; rewrite IH; auto.
  - simpl. rewrite Ec. apply IH. discriminate.
Qed.

Lemma split_strip l : Py.split_chars [] (Py.strip_chars l) = Py.split_chars [] l.
Proof.
  unfold Py.strip_chars. set (y := Py.lstrip_chars l).
  destruct (lstrip_suffix (rev y)) as (p & Hp & Hall).
  assert (Hy : y = rev (Py.lstrip_chars (rev y)) ++ rev p).
  { rewrite <- rev_app_distr, <- Hp, rev_involutive. reflexivity. }
  rewrite <- (split_lstrip l). fold y.
  transitivity (Py.split_chars [] (rev (Py.lstrip_chars (rev y)) ++ rev p)).
  - symmetry. apply split_trailing. apply Forall_rev. exact Hall.
  - rewrite <- Hy. reflexivity.
Qed.

Lemma clean_text_normal s : normalized (Main.clean_text s).
Proof.
  unfold normalized, Main.clean_text, Py.sub_ws_space, Py.strip.
  rewrite !chars_str.
  destruct (strip_chars_clean (Py.chars s)) as [Hs He].
  destruct (collapse_single_spaced (Py.strip_chars (Py.chars s)) false He)
    as (Hsingle & _ & Hstart).
  split; [| exact Hsingle]. apply Hstart. right. exact Hs.
Qed.

Lemma clean_text_fixed t : normalized t -> Main.clean_text t = t.
Proof.
  intros [Hs Hsingle]. unfold Main.clean_text, Py.sub_ws_space, Py.strip.
  rewrite chars_str.
  rewrite strip_chars_id; [| exact Hs | apply single_spaced_ends_clean; exact Hsingle].
  rewrite (collapse_id _ Hsingle). apply str_chars.
Qed.

Lemma split_clean_text s : Py.split (Main.clean_text s) = Py.split s.
Proof.
  unfold Py.split, Main.clean_text, Py.sub_ws_space, Py.strip.
  rewrite !chars_str. f_equal.
  rewrite split_collapse by discriminate. apply split_strip.
Qed.

End TextFacts.

(** X1: the normalized text has no whitespace at either end, and every
    whitespace character of it is a single space between two others. *)
Theorem clean_text_normalized (s : string) : normalized (Main.clean_text s).
Proof. exact (TextFacts.clean_text_normal s). Qed.

(** X2: normalizing twice is normalizing once. *)
Theorem clean_text_idempotent (s : string) :
  Main.clean_text (Main.clean_text s) = Main.clean_text s.
Proof. apply TextFacts.clean_text_fixed, TextFacts.clean_text_normal. Qed.

(** X3: normalization keeps the words of a text: the word count that the
    title test takes on the raw text is the word count of the normalized
    text. *)
Theorem clean_text_keeps_words (s : string) :
  Py.split (Main.clean_text s) = Py.split s.
Proof. exact (TextFacts.split_clean_text s). Qed.

(** ** Where the title comes from *)

Lemma py_max_spec l m :
  py_max l = Ok m -> In m l /\ forall x, In x l -> (x <= m)%Q.
Proof.
  destruct l as [|x l]; [discriminate |]. simpl. intros H. injection H as <-.
  exact (max_by_spec (fun x => x) l x).
Qed.

Lemma could_be_title_char all_sizes m e :
  py_max all_sizes = Ok m ->
  exists b, Main.could_be_title all_sizes (text e) (size e) (page e) (flags e) = Ok b
            /\ (b = true <-> title_test m e).
Proof.
  intros Hm. unfold Main.could_be_title, title_test.
  destruct (Z.gtb_spec (page e) 2) as [Hp | Hp].
  { exists false. split; [reflexivity |]. split; [discriminate | lia]. }
  rewrite Hm. cbn [mbind result_bind].
  destruct (Qltb (size e) (Float.mul m (Float.lit 0.9))) eqn:Hs.
  { exists false. split; [reflexivity |]. split; [discriminate |].
    apply Qltb_lt in Hs. intros (_ & Hle & _). exfalso. exact (Qlt_not_le _ _ Hs Hle). }
  apply Qltb_ge in Hs.
  destruct (Z.ltb_spec (Z.of_nat (length (Py.split (text e)))) 3) as [Hw3 | Hw3].
  { exists false. split; [reflexivity |]. split; [discriminate | lia]. }
  destruct (Z.gtb_spec (Z.of_nat (length (Py.split (text e)))) 25) as [Hw25 | Hw25].
  { exists false. split; [reflexivity |]. split; [discriminate | lia]. }
  cbn [orb].
  destruct (Re.re_match Pat.leading_number (text e)) eqn:Hn.
  { exists false. split; [reflexivity |]. split; [discriminate |].
    intros (_ & _ & _ & H & _). discriminate H. }
  destruct (Py.startswith (Py.lower (text e)) "page") eqn:Hpg.
  { exists false. split; [reflexivity |]. split; [discriminate |].
    intros (_ & _ & _ & _ & H & _). discriminate H. }
  destruct (Py.startswith (Py.lower (text e)) "chapter") eqn:Hch.
  { exists false. split; [reflexivity |]. split; [discriminate |].
    intros (_ & _ & _ & _ & _ & H). discriminate H. }
  exists true. split; [reflexivity |]. split; [| reflexivity]. intros _.
  repeat split; auto; lia.
Qed.

(** The candidates are the fragments that pass the title test, no more. *)
Lemma title_loop_char all_sizes m : py_max all_sizes = Ok m -> forall elems acc,
  exists cands, Main.title_loop all_sizes elems acc = Ok cands
    /\ forall c, In c cands <->
         In c acc \/ exists e, In e elems /\ title_test m e
           /\ c = Candidate (Main.clean_text (text e)) (size e) (page e).
Proof.
  intros Hm. induction elems as [|e elems IH]; intros acc; simpl.
  - exists acc. split; [reflexivity |]. intros c. split; [auto |].
    intros [H | (e & [] & _)]. exact H.
  - destruct (could_be_title_char all_sizes m e Hm) as (b & Hb & Htest).
    rewrite Hb. cbn [mbind result_bind].
    destruct (IH (if b then acc ++ [Candidate (Main.clean_text (text e)) (size e) (page e)]
                  else acc)) as (cands & Hc & Hin).
    exists cands. split; [exact Hc |]. intros c. rewrite Hin. split.
    + intros [H | (e' & He' & Ht & ->)].
      * destruct b; [| auto]. apply in_app_or in H. destruct H as [H | [<- | []]]; [auto |].
        right. exists e. split; [left; reflexivity |]. split; [apply Htest |]; reflexivity.
      * right. exists e'. auto.
    + intros [H | (e' & [<- | He'] & Ht & ->)].
      * left. destruct b; [apply in_or_app; left |]; exact H.
      * left. apply Htest in Ht. subst b. apply in_or_app. right. left. reflexivity.
      * right. exists e'. auto.
Qed.

(** X4: on a non-empty list the title is the normalized text of a
    fragment that passes the title test against the largest font size of
    the document (page at most 2, size at least the floating-point
    product of that maximum and 0.9, 3 to 25 words, no leading number, no
    leading "page" or "chapter"); it is "Untitled Document" exactly when
    no fragment passes that test. *)
Theorem title_origin (elems : list element) (hs : list heading) (title : string) :
  elems <> [] ->
  Main.analyze_document_structure elems = Ok (hs, title) ->
  exists m, py_max (map size elems) = Ok m
    /\ (forall e, In e elems -> (size e <= m)%Q)
    /\ ((title = "Untitled Document" /\ forall e, In e elems -> ~ title_test m e)
        \/ exists e, In e elems /\ title_test m e /\ title = Main.clean_text (text e)).
Proof.
  intros Hne Hres.
  destruct (analyze_unfold elems Hne) as (avg & cands & _ & Hloop & Hres').
  rewrite Hres in Hres'. injection Hres' as _ ->.
  assert (Hsizes : map size elems <> []) by (destruct elems; [congruence | discriminate]).
  destruct (py_max_ok _ Hsizes) as [m Hm]. exists m. split; [exact Hm |].
  destruct (py_max_spec _ _ Hm) as [_ Hmax].
  split; [intros e He; apply Hmax, in_map; exact He |].
  destruct (title_loop_char (map size elems) m Hm elems []) as (cands' & Hloop' & Hin).
  rewrite Hloop in Hloop'. injection Hloop' as <-.
  unfold Main.select_title, Main.best_candidate. destruct cands as [|x l].
  - left. split; [reflexivity |]. intros e He Ht.
    apply (proj2 (Hin (Candidate (Main.clean_text (text e)) (size e) (page e)))).
    right. exists e. auto.
  - right. destruct (max_by_spec Main.title_key l x) as [Hbest _].
    apply Hin in Hbest. destruct Hbest as [[] | (e & He & Ht & Heq)].
    exists e. split; [exact He |]. split; [exact Ht |]. rewrite Heq. reflexivity.
Qed.

Lemma title_origin_witness :
  exists e, In e close_sizes_example
            /\ "Annual Report Overview" = Main.clean_text (text e).
Proof.
  destruct (title_origin close_sizes_example [] "Annual Report Overview")
    as (m & _ & _ & [[H _] | (e & He & _ & Ht)]).
  - discriminate.
  - vm_compute. reflexivity.
  - discriminate H.
  - exists e. split; assumption.
Defined.

(** ** What the heading loop keeps *)


Lemma NoDup_map_filter {A B : Type} (f : A -> B) (q : A -> bool) l :
  NoDup (map f l) -> NoDup (map f (List.filter q l)).
Proof.
  induction l as [|x l IH]; simpl; [auto |]. intros H.
  apply NoDup_cons in H. destruct H as [Hx Hl].
  destruct (q x); [| exact (IH Hl)]. simpl. apply NoDup_cons. split; [| exact (IH Hl)].
  intros Hin. apply Hx. apply list_elem_of_In in Hin. apply list_elem_of_In.
  apply in_map_iff in Hin. destruct Hin as (y & Hy & Hyin). apply List.filter_In in Hyin.
  apply in_map_iff. exists y. tauto.
Qed.

Lemma looks_like_heading_bounds average_size t s p f :
  Main.looks_like_heading average_size t s p f = true ->
  (2 <= Py.len (Main.clean_text t) <= 150)%Z
  /\ (Z.of_nat (length (Py.split (Main.clean_text t))) <= 20)%Z.
Proof.
  unfold Main.looks_like_heading.
  destruct (Z.ltb_spec (Py.len (Main.clean_text t)) 2); [discriminate |].
  destruct (Z.gtb_spec (Py.len (Main.clean_text t)) 150); [discriminate |]. cbn [orb].
  destruct (Z.gtb_spec (Z.of_nat (length (Py.split (Main.clean_text t)))) 20);
    [discriminate |].
  intros _. lia.
Qed.

(** X5: no heading of the outline is the title, in any letter case. *)
Theorem headings_exclude_title (elems : list element) :
  exists hs title,
    Main.analyze_document_structure elems = Ok (hs, title)
    /\ forall h, In h hs -> Py.lower (h_text h) <> Py.lower title.
Proof.
  destruct elems as [|e0 elems0].
  { exists [], "No Title Found". split; [reflexivity | intros ? []]. }
  destruct (analyze_unfold (e0 :: elems0)) as (avg & cands & _ & _ & Hres);
    [discriminate |].
  eexists _, _. split; [exact Hres |]. intros h Hh.
  apply in_map_iff in Hh. destruct Hh as (p & <- & Hp).
  unfold Main.confirmed_potential in Hp. apply List.filter_In in Hp.
  destruct Hp as [Hp _]. apply sort_by_In in Hp.
  destruct (heading_loop_passed _ _ _ _ _ _ Hp) as [[] | (e & _ & -> & _ & Hne)].
  exact Hne.
Qed.

(** X6: the texts of the headings of the outline are pairwise different,
    also when letter case is ignored. *)
Theorem headings_distinct (elems : list element) :
  exists hs title,
    Main.analyze_document_structure elems = Ok (hs, title)
    /\ List.NoDup (map (fun h => Py.lower (h_text h)) hs).
Proof.
  destruct elems as [|e0 elems0].
  { exists [], "No Title Found". split; [reflexivity | constructor]. }
  destruct (analyze_unfold (e0 :: elems0)) as (avg & cands & _ & _ & Hres);
    [discriminate |].
  eexists _, _. split; [exact Hres |]. apply NoDup_ListNoDup.
  rewrite map_map. unfold Main.confirmed_potential.
  change (fun x => Py.lower (h_text (Main.confirm x)))
    with (fun p => Py.lower (p_text p)).
  apply NoDup_map_filter.
  rewrite (Permutation_map (fun p => Py.lower (p_text p))
             (sort_by_perm Main.heading_key_ltb Main.heading_key _)).
  apply (heading_loop_distinct avg _ _ (e0 :: elems0) [] ∅).
  - intros p [].
  - apply NoDup_nil_2.
Qed.

(** X7: every heading of the outline is built from a fragment that passes
    the heading filter against the average font size of the document (the
    floating-point sum of the sizes divided by their number): it carries
    that fragment's normalized text, its page and the level assigned to
    it, and its text has 3 to 150 characters and 2 to 20 words. *)
Theorem headings_pass_filter (elems : list element) :
  exists hs title,
    Main.analyze_document_structure elems = Ok (hs, title)
    /\ forall h, In h hs ->
         exists average_size e,
           py_div (py_sum (map size elems)) (Z.of_nat (length (map size elems)))
           = Ok average_size
           /\ In e elems
           /\ h = Heading
                    (Main.determine_heading_level average_size
                       (sorted_desc (Q_set (map size elems))) (text e) (size e) (page e))
                    (Main.clean_text (text e)) (page e)
           /\ Main.looks_like_heading average_size (text e) (size e) (page e) (flags e)
              = true
           /\ (3 <= Py.len (h_text h) <= 150)%Z
           /\ (2 <= Z.of_nat (length (Py.split (h_text h))) <= 20)%Z.
Proof.
  destruct elems as [|e0 elems0].
  { exists [], "No Title Found". split; [reflexivity | intros ? []]. }
  destruct (analyze_unfold (e0 :: elems0)) as (avg & cands & Havg & _ & Hres);
    [discriminate |].
  eexists _, _. split; [exact Hres |]. intros h Hh.
  apply in_map_iff in Hh. destruct Hh as (p & <- & Hp).
  unfold Main.confirmed_potential in Hp. apply List.filter_In in Hp.
  destruct Hp as [Hp Hq]. apply sort_by_In in Hp.
  destruct (heading_loop_passed _ _ _ _ _ _ Hp) as [[] | (e & He & -> & Hl & _)].
  exists avg, e. split; [exact Havg |].
  split; [exact He |]. split; [reflexivity |]. split; [exact Hl |].
  simpl in *. apply quality_check_spec in Hq. destruct Hq as (Hw & _ & _ & _ & Hlen).
  destruct (looks_like_heading_bounds _ _ _ _ _ Hl) as [Hb Hwords]. lia.
Qed.

(** X8: a fragment that is not bold, whose normalized text matches none
    of the structural patterns and contains none of the heading keywords,
    does not pass the heading filter, whatever its font size. *)
Theorem plain_text_is_no_heading (average_size : Q) (t : string) (s : Q) (p f : Z) :
  Z.land f 16 = 0%Z ->
  existsb (fun pat => Re.re_match pat (Main.clean_text t)) Main.heading_patterns = false ->
  existsb (fun w => Py.contains (Py.lower (Main.clean_text t)) w)
    Main.common_heading_words = false ->
  Main.looks_like_heading average_size t s p f = false.
Proof.
  intros Hbold Hpat Hkey. unfold Main.looks_like_heading, Main.heading_score.
  rewrite Hbold, Hpat, Hkey.
  destruct (_ || _); [reflexivity |]. destruct (_ >? 20)%Z; [reflexivity |].
  destruct (existsb _ Main.non_heading_patterns); [reflexivity |].
  destruct (Qltb _ _), (Py.endswith _ _), (Qleb _ _); reflexivity.
Qed.

Lemma plain_text_is_no_heading_witness :
  Main.looks_like_heading 10 "the results were measured twice:" 40 1 4 = false.
Proof.
  apply (plain_text_is_no_heading 10 "the results were measured twice:" 40 1 4);
    reflexivity.
Defined.

(** ** The size fallback of the level assignment *)

Lemma desc_asym : asym (fun a b => Qltb b a).
Proof. intros x y H. apply Qltb_asym. exact H. Qed.

Lemma desc_negtrans : negtrans (fun a b => Qltb b a).
Proof.
  intros x y z. rewrite !Qltb_ge. intros H1 H2. exact (Qle_trans _ _ _ H2 H1).
Qed.

Lemma sorted_desc_sorted l : StronglySorted (fun a b => (b <= a)%Q) (sorted_desc l).
Proof.
  unfold sorted_desc.
  eapply StronglySorted_weaken;
    [| apply (sort_by_sorted _ _ desc_asym desc_negtrans)].
  intros a b. unfold not_after. apply Qltb_ge.
Qed.

Lemma Q_in_spec x l : Q_in x l = true <-> exists y, In y l /\ (y == x)%Q.
Proof.
  unfold Q_in. rewrite existsb_exists. split; intros (y & Hy & H); exists y;
    (split; [exact Hy |]).
  - apply Qeq_bool_iff in H. symmetry. exact H.
  - apply Qeq_bool_iff. symmetry. exact H.
Qed.

Lemma Q_set_keeps l : forall x, Q_in x l = true -> Q_in x (Q_set l) = true.
Proof.
  induction l as [|a l IH]; intros x Hx; [discriminate |]. simpl.
  assert (Hcase : (a == x)%Q \/ Q_in x l = true).
  { apply Q_in_spec in Hx. destruct Hx as (y & [<- | Hy] & Hyx); [auto |].
    right. apply Q_in_spec. eauto. }
  destruct (Q_in a l) eqn:E.
  - apply IH. destruct Hcase as [Hax | H]; [| exact H].
    apply Q_in_spec in E. destruct E as (y & Hy & Hya).
    apply Q_in_spec. exists y. split; [exact Hy |]. rewrite Hya. exact Hax.
  - apply Q_in_spec. destruct Hcase as [Hax | H].
    + exists a. split; [left; reflexivity | exact Hax].
    + destruct (proj1 (Q_in_spec _ _) (IH x H)) as (z & Hz & Hzx).
      exists z. split; [right; exact Hz | exact Hzx].
Qed.

Lemma Q_set_in x l : In x l -> Q_in x (Q_set l) = true.
Proof.
  intros Hin. apply Q_set_keeps, Q_in_spec. exists x. split; [exact Hin | reflexivity].
Qed.

Lemma unique_sizes_in x l : In x l -> Q_in x (sorted_desc (Q_set l)) = true.
Proof.
  intros Hin. apply Q_in_spec. destruct (proj1 (Q_in_spec _ _) (Q_set_in x l Hin))
    as (y & Hy & Hyx).
  exists y. split; [| exact Hyx]. unfold sorted_desc. apply sort_by_In. exact Hy.
Qed.

Lemma Q_in_tail x y l : Q_in x (y :: l) = true -> Qeqb y x = false -> Q_in x l = true.
Proof.
  intros Hin Hne. apply Q_in_spec in Hin. destruct Hin as (z & [<- | Hz] & Hzx).
  - apply Qeq_bool_iff in Hzx. unfold Qeqb in Hne. congruence.
  - apply Q_in_spec. eauto.
Qed.

(** In a descending list the larger value is found first. *)
Lemma Q_index_mono l : StronglySorted (fun a b => (b <= a)%Q) l ->
  forall s1 s2, (s1 <= s2)%Q -> Q_in s1 l = true -> Q_in s2 l = true ->
    (Q_index s2 l <= Q_index s1 l)%nat.
Proof.
  induction 1 as [|y l Hs IH Hall]; intros s1 s2 Hle H1 H2; [discriminate |].
  simpl. destruct (Qeqb y s2) eqn:E2; [lia |].
  pose proof (Q_in_tail _ _ _ H2 E2) as H2'.
  destruct (Qeqb y s1) eqn:E1.
  - exfalso. apply Q_in_spec in H2'. destruct H2' as (z & Hz & Hzs).
    rewrite List.Forall_forall in Hall. specialize (Hall z Hz).
    apply Qeq_bool_iff in E1. unfold Qeqb in E2. apply Qeq_bool_neq in E2.
    apply E2. apply Qle_antisym; lra.
  - specialize (IH s1 s2 Hle (Q_in_tail _ _ _ H1 E1) H2'). lia.
Qed.

(** X9: within one document, for one text, a larger font size never gives
    a deeper heading level: the levels given by the numbering patterns do
    not depend on the size, the rank among the distinct sizes of the
    document falls as the size grows, and so do the fixed thresholds. *)
Theorem larger_size_is_not_deeper (sizes : list Q) (average_size : Q) (t : string)
  (s1 s2 : Q) (p1 p2 : Z) :
  In s1 sizes -> In s2 sizes -> (s1 <= s2)%Q ->
  (depth (Main.determine_heading_level average_size (sorted_desc (Q_set sizes)) t s2 p2)
   <= depth (Main.determine_heading_level average_size (sorted_desc (Q_set sizes)) t s1 p1))%Z.
Proof.
  intros H1 H2 Hle. unfold Main.determine_heading_level.
  repeat match goal with
         | |- context [if Re.re_match ?p ?x then _ else _] =>
             destruct (Re.re_match p x); [simpl; lia |]
         end.
  destruct (4 <=? _)%nat.
  - rewrite (unique_sizes_in s1 sizes H1), (unique_sizes_in s2 sizes H2).
    pose proof (Q_index_mono _ (sorted_desc_sorted (Q_set sizes)) s1 s2 Hle
                  (unique_sizes_in s1 sizes H1) (unique_sizes_in s2 sizes H2)) as Hidx.
    destruct (Q_index s2 _) as [|[|[|n2]]], (Q_index s1 _) as [|[|[|n1]]];
      simpl; lia.
  - unfold Qleb.
    repeat match goal with
           | |- context [Qle_bool ?a ?b] =>
               let E := fresh "E" in
               destruct (Qle_bool a b) eqn:E;
               [apply Qle_bool_iff in E | apply Qltb_lt in E || idtac]
           end; simpl; try lia.
    all: repeat match goal with
                | E : Qle_bool ?a ?b = false |- _ =>
                    assert (b < a)%Q
                      by (apply Qnot_le_lt; intros Hc; apply Qle_bool_iff in Hc; congruence);
                    clear E
                end; exfalso; lra.
Qed.

Lemma larger_size_is_not_deeper_witness :
  (depth (Main.determine_heading_level 12 (sorted_desc (Q_set [10%Q; 12%Q; 14%Q; 18%Q; 10%Q]))
            "Closing remarks" 18 3)
   <= depth (Main.determine_heading_level 12 (sorted_desc (Q_set [10%Q; 12%Q; 14%Q; 18%Q; 10%Q]))
               "Closing remarks" 12 1))%Z.
Proof.
  apply (larger_size_is_not_deeper [10%Q; 12%Q; 14%Q; 18%Q; 10%Q] 12 "Closing remarks"
           12 18 1 3).
  - simpl. auto.
  - simpl. auto 6.
  - apply Qle_bool_iff. reflexivity.
Defined.

(** ** The query of the ranking *)

Module QueryFacts.
Import TextFacts.

Lemma split_chars_lower l : forall cur,
  Py.split_chars (map Py.lower_char cur) (map Py.lower_char l)
  = map (map Py.lower_char) (Py.split_chars cur l).
Proof.
  induction l as [|c l IH]; intros cur; cbn [Py.split_chars map].
  - destruct cur as [|a cur]; [reflexivity |].
    change (Py.lower_char a :: map Py.lower_char cur)
      with (map Py.lower_char (a :: cur)).
    rewrite <- map_rev. reflexivity.
  - rewrite lower_char_space. destruct (Py.is_space c).
    + destruct cur as [|a cur]; [apply (IH []) |].
      change (Py.lower_char a :: map Py.lower_char cur)
        with (map Py.lower_char (a :: cur)).
      rewrite <- map_rev.
      change (map (map Py.lower_char) (rev (a :: cur) :: Py.split_chars [] l))
        with (map Py.lower_char (rev (a :: cur))
                :: map (map Py.lower_char) (Py.split_chars [] l)).
      f_equal. apply (IH []).
    + apply (IH (c :: cur)).
Qed.

Lemma lower_str l : Py.lower (Py.str l) = Py.str (map Py.lower_char l).
Proof. unfold Py.lower. rewrite chars_str. reflexivity. Qed.

Lemma split_lower s : Py.split (Py.lower s) = map Py.lower (Py.split s).
Proof.
  unfold Py.split, Py.lower. rewrite chars_str, (split_chars_lower _ []), !map_map.
  apply map_ext. intros l. symmetry. apply lower_str.
Qed.

Lemma lower_idem s : Py.lower (Py.lower s) = Py.lower s.
Proof.
  unfold Py.lower. rewrite chars_str, map_map. f_equal. apply map_ext.
  exact lower_char_idem.
Qed.

Lemma lower_app (a b : string) : Py.lower (a ++ b) = (Py.lower a ++ Py.lower b)%string.
Proof.
  unfold Py.lower. rewrite chars_app, map_app.
  generalize (map Py.lower_char (Py.chars a)) as x.
  generalize (map Py.lower_char (Py.chars b)) as y.
  intros y x. induction x as [|c x IH]; [reflexivity |].
  change (String c (Py.str (x ++ y)) = String c (Py.str x ++ Py.str y)%string).
  f_equal. exact IH.
Qed.

Lemma split_chars_app l1 c l2 : Py.is_space c = true -> forall cur,
  Py.split_chars cur (l1 ++ c :: l2) = Py.split_chars cur l1 ++ Py.split_chars [] l2.
Proof.
  intros Hc. induction l1 as [|a l1 IH]; intros cur; simpl.
  - rewrite Hc. destruct cur; reflexivity.
  - destruct (Py.is_space a); [destruct cur; rewrite IH; reflexivity | apply IH].
Qed.

Lemma split_app_space (a b : string) :
  Py.split (a ++ " " ++ b) = (Py.split a ++ Py.split b)%list.
Proof.
  unfold Py.split. rewrite chars_app. simpl.
  rewrite (split_chars_app _ " "%char _ eq_refl), map_app. reflexivity.
Qed.

(** The query terms are the words of the task and the words of the role. *)
Lemma search_terms_union task role :
  Main.search_terms task role = Main.word_set task ∪ Main.word_set role.
Proof.
  unfold Main.search_terms, Main.word_set.
  rewrite !lower_app. change (Py.lower " ") with " ".
  rewrite split_app_space. apply list_to_set_app_L.
Qed.

Lemma word_set_lower s : Main.word_set (Py.lower s) = Main.word_set s.
Proof. unfold Main.word_set. rewrite lower_idem. reflexivity. Qed.

Lemma word_set_no_words s : Py.split s = [] -> Main.word_set s = ∅.
Proof. intros H. unfold Main.word_set. rewrite split_lower, H. reflexivity. Qed.

Lemma important_sections_empty secs : Main.important_sections ∅ secs = [].
Proof.
  unfold Main.important_sections, Main.match_count.
  induction secs as [|s secs IH]; [reflexivity |]. simpl.
  rewrite intersection_empty_l_L, size_empty. simpl. exact IH.
Qed.

Lemma take_length n s : (String.length (Py.take n s) <= n)%nat.
Proof. unfold Py.take. rewrite length_str. apply firstn_le_length. Qed.

Lemma assign_ranks_from l : forall i o,
  In o (Main.assign_ranks i l) ->
  exists s, In s l /\ ranked_as (importance_rank o) s o.
Proof.
  induction l as [|s l IH]; intros i o H; [destruct H |]. simpl in H.
  destruct H as [<- | H].
  - exists s. split; [left; reflexivity | reflexivity].
  - destruct (IH _ _ H) as (s' & Hs' & Hr). exists s'. split; [right; exact Hs' | exact Hr].
Qed.

End QueryFacts.

(** X10: every ranked entry is one of the given sections: it has that
    section's document name, page and title, and as text the first 1000
    characters of the section's text; its title shares a word with the
    query. *)
Theorem ranked_entry_origin (top_k : nat) (secs : list section)
  (role task : string) (o : ranked) :
  In o (Main.top_sections_k top_k secs role task) ->
  exists s, In s secs
    /\ r_document o = document s
    /\ r_start_page o = start_page s
    /\ r_section_title o = section_title s
    /\ r_refined_text o = Py.take 1000 (refined_text s)
    /\ (String.length (r_refined_text o) <= 1000)%nat
    /\ (0 < Main.match_count (Main.search_terms task role) (section_title s))%Z.
Proof.
  unfold Main.top_sections_k. intros H. apply QueryFacts.assign_ranks_from in H.
  destruct H as (x & Hx & Hr). apply In_firstn, sort_by_In in Hx.
  unfold Main.important_sections in Hx. apply in_map_iff in Hx.
  destruct Hx as (s & <- & Hs). apply List.filter_In in Hs. destruct Hs as [Hs Hm].
  exists s. rewrite Hr. simpl. repeat split; try reflexivity; try exact Hs.
  - apply QueryFacts.take_length.
  - apply negb_true_iff, Z.eqb_neq in Hm. unfold Main.match_count in *. lia.
Qed.

Lemma ranked_entry_origin_witness :
  exists s, In s ranking_example
    /\ "plan.pdf" = document s /\ 1%Z = start_page s
    /\ "Project timeline and milestones" = section_title s.
Proof.
  destruct (ranked_entry_origin 5 ranking_example "Project Manager"
              "Review project timeline"
              (Ranked "plan.pdf" 1 "Project timeline and milestones" 1 "Project timeline"))
    as (s & Hs & Hd & Hp & Ht & _).
  - vm_compute. left. reflexivity.
  - exists s. auto.
Defined.

(** X11: when neither the task nor the role has a word, nothing is
    ranked. *)
Theorem empty_query_ranks_nothing (top_k : nat) (secs : list section)
  (role task : string) :
  Py.split task = [] -> Py.split role = [] ->
  Main.top_sections_k top_k secs role task = [].
Proof.
  intros Ht Hr. unfold Main.top_sections_k.
  rewrite QueryFacts.search_terms_union, (QueryFacts.word_set_no_words _ Ht),
    (QueryFacts.word_set_no_words _ Hr), union_empty_l_L,
    QueryFacts.important_sections_empty.
  simpl. rewrite firstn_nil. reflexivity.
Qed.

Lemma empty_query_ranks_nothing_witness :
  Main.top_sections_k 5 ranking_example "  " "" = [].
Proof.
  apply (empty_query_ranks_nothing 5 ranking_example "  " ""); reflexivity.
Defined.

(** X12: the ranking does not tell the role from the task: the query is
    the set of the words of both, so exchanging them gives the same
    ranking. *)
Theorem ranking_symmetric_in_query (top_k : nat) (secs : list section)
  (role task : string) :
  Main.search_terms task role = Main.word_set task ∪ Main.word_set role
  /\ Main.top_sections_k top_k secs role task = Main.top_sections_k top_k secs task role.
Proof.
  split; [apply QueryFacts.search_terms_union |].
  unfold Main.top_sections_k. rewrite !QueryFacts.search_terms_union.
  rewrite (union_comm_L (Main.word_set task)). reflexivity.
Qed.

(** X13: matching ignores letter case, of the query and of the titles:
    lower-casing the role and the task gives the same ranking, and a title
    has the match score of its lower-cased form. *)
Theorem ranking_ignores_case (top_k : nat) (secs : list section)
  (role task title : string) :
  Main.top_sections_k top_k secs (Py.lower role) (Py.lower task)
  = Main.top_sections_k top_k secs role task
  /\ Main.match_count (Main.search_terms task role) (Py.lower title)
     = Main.match_count (Main.search_terms task role) title.
Proof.
  split.
  - unfold Main.top_sections_k.
    rewrite !QueryFacts.search_terms_union, !QueryFacts.word_set_lower. reflexivity.
  - unfold Main.match_count. rewrite QueryFacts.word_set_lower. reflexivity.
Qed.

(** ** Extraction of the fragments *)

Module ExtractFacts.
Import Fitz TextFacts.

Lemma strip_idem s : Py.strip (Py.strip s) = Py.strip s.
Proof.
  unfold Py.strip. rewrite chars_str. f_equal.
  destruct (strip_chars_clean (Py.chars s)) as [Hs He].
  apply strip_chars_id; assumption.
Qed.

Lemma span_content_In n sp e :
  In e (MainPdf.span_content n sp) ->
  e = Element (Py.strip (sp_text sp)) (sp_size sp)
        (match sp_flags sp with Some f => f | None => 0%Z end) n
  /\ (2 <= Py.len (Py.strip (sp_text sp)))%Z.
Proof.
  unfold MainPdf.span_content.
  destruct (String.eqb _ ""); [intros [] |]. simpl.
  destruct (Z.leb_spec (Py.len (Py.strip (sp_text sp))) 1); [intros [] |].
  intros [<- | []]. split; [reflexivity | lia].
Qed.

(** Where an extracted fragment sits in the document. *)
Lemma pages_content_In pages : forall i e,
  In e (MainPdf.pages_content i pages) ->
  exists n blocks lines ln sp,
    nth_error pages n = Some blocks /\ page e = (i + Z.of_nat n + 1)%Z
    /\ In (Some lines) blocks /\ In ln lines /\ In sp ln
    /\ text e = Py.strip (sp_text sp) /\ size e = sp_size sp
    /\ flags e = match sp_flags sp with Some f => f | None => 0%Z end
    /\ (2 <= Py.len (text e))%Z.
Proof.
  induction pages as [|blocks pages IH]; intros i e H; [destruct H |].
  simpl in H. apply in_app_or in H. destruct H as [H | H].
  - apply in_flat_map in H. destruct H as (b & Hb & H).
    destruct b as [lines |]; [| destruct H]. simpl in H.
    apply in_flat_map in H. destruct H as (ln & Hln & H).
    apply in_flat_map in H. destruct H as (sp & Hsp & H).
    apply span_content_In in H. destruct H as [-> Hlen].
    exists 0%nat, blocks, lines, ln, sp. simpl. repeat split; auto. lia.
  - destruct (IH _ _ H) as (n & bl & lines & ln & sp & Hn & Hp & Hrest).
    exists (S n), bl, lines, ln, sp. split; [exact Hn |]. split; [lia | exact Hrest].
Qed.

Lemma nth_error_firstn_Some {A : Type} m (l : list A) n x :
  nth_error (firstn m l) n = Some x -> (n < m)%nat /\ nth_error l n = Some x.
Proof.
  rewrite nth_error_firstn. destruct (Nat.ltb_spec n m); [auto | discriminate].
Qed.

Lemma extract_In doc e :
  In e (MainPdf.extract_text_from_pdf doc) ->
  exists n blocks lines ln sp,
    nth_error doc n = Some blocks /\ (n < 50)%nat /\ page e = (Z.of_nat n + 1)%Z
    /\ In (Some lines) blocks /\ In ln lines /\ In sp ln
    /\ text e = Py.strip (sp_text sp) /\ size e = sp_size sp
    /\ flags e = match sp_flags sp with Some f => f | None => 0%Z end
    /\ (2 <= Py.len (text e))%Z.
Proof.
  unfold MainPdf.extract_text_from_pdf. intros H. apply pages_content_In in H.
  destruct H as (n & bl & lines & ln & sp & Hn & Hp & Hrest).
  apply nth_error_firstn_Some in Hn. destruct Hn as [Hlt Hn].
  exists n, bl, lines, ln, sp. split; [exact Hn |]. split; [lia |].
  split; [lia | exact Hrest].
Qed.

Lemma main2_pages_content pages : forall i,
  Main2Pdf.pages_content i pages = MainPdf.pages_content i pages.
Proof.
  induction pages as [|blocks pages IH]; intros i; [reflexivity |].
  cbn [Main2Pdf.pages_content MainPdf.pages_content]. rewrite IH. f_equal.
  apply flat_map_ext. intros [lines |]; [| reflexivity].
  cbn [MainPdf.block_content]. apply flat_map_ext. intros ln.
  apply flat_map_ext. intros sp. unfold MainPdf.span_content.
  destruct (String.eqb _ ""); [reflexivity |]. cbn [negb andb orb].
  rewrite Z.gtb_ltb, Z.ltb_antisym. destruct (_ <=? 1)%Z; reflexivity.
Qed.

End ExtractFacts.

(** X14: every extracted fragment is a span of one of the first 50 pages:
    its page number is the 1-based number of that page, its text is the
    stripped text of the span, with at least 2 characters and no
    whitespace at either end, its size is the span's, and its flags are
    the span's, or 0 when the span has none. *)
Theorem extracted_fragment_origin (doc : Fitz.pdf) (e : element) :
  In e (MainPdf.extract_text_from_pdf doc) ->
  (1 <= page e <= 50)%Z /\ (page e <= Z.of_nat (length doc))%Z
  /\ (2 <= Py.len (text e))%Z /\ Py.strip (text e) = text e
  /\ exists blocks lines ln sp,
       nth_error doc (Z.to_nat (page e - 1)) = Some blocks
       /\ In (Some lines) blocks /\ In ln lines /\ In sp ln
       /\ text e = Py.strip (Fitz.sp_text sp) /\ size e = Fitz.sp_size sp
       /\ flags e = match Fitz.sp_flags sp with Some f => f | None => 0%Z end.
Proof.
  intros H. apply ExtractFacts.extract_In in H.
  destruct H as (n & bl & lines & ln & sp & Hn & Hlt & Hp & Hb & Hl & Hs & Ht & Hsz & Hf & Hlen).
  assert (Hn' : (n < length doc)%nat) by (apply nth_error_Some; congruence).
  split; [lia |]. split; [lia |]. split; [exact Hlen |].
  split; [rewrite Ht; apply ExtractFacts.strip_idem |].
  exists bl, lines, ln, sp. replace (Z.to_nat (page e - 1)) with n by lia. auto 10.
Qed.

Lemma extracted_fragment_origin_witness :
  (1 <= 2 <= 50)%Z /\ Py.strip "1. Introduction" = "1. Introduction".
Proof.
  destruct (extracted_fragment_origin pdf_example (Element "1. Introduction" 14 0 2))
    as (Hp & _ & _ & Hs & _).
  - vm_compute. auto.
  - split; [exact Hp | exact Hs].
Defined.

(** X15: [get_pdf_content] of [main2.py] extracts the same fragments as
    [extract_text_from_pdf] of [main.py]. *)
Theorem main2_extracts_the_same (doc : Fitz.pdf) :
  Main2Pdf.get_pdf_content doc = MainPdf.extract_text_from_pdf doc.
Proof.
  unfold Main2Pdf.get_pdf_content, MainPdf.extract_text_from_pdf.
  apply ExtractFacts.main2_pages_content.
Qed.

(** ** Page sections *)

Module SectionFacts.
Import Fitz.

Lemma sections_from_length name pages : forall i,
  length (MainPdf.sections_from name i pages) = length pages.
Proof.
  induction pages as [|b pages IH]; intros i; simpl; [reflexivity | f_equal; apply IH].
Qed.

Lemma sections_from_nth name pages : forall i n s,
  nth_error (MainPdf.sections_from name i pages) n = Some s ->
  exists blocks, nth_error pages n = Some blocks
    /\ s = Section_ name (i + Z.of_nat n + 1) (i + Z.of_nat n + 1)
             (Py.take 80 (py_join " " (MainPdf.page_content blocks)))
             (py_join " " (MainPdf.page_content blocks)) "auto".
Proof.
  induction pages as [|b pages IH]; intros i n s H; [destruct n; discriminate |].
  destruct n as [|n]; simpl in H.
  - injection H as <-. exists b. split; [reflexivity |].
    rewrite Z.add_0_r. reflexivity.
  - destruct (IH _ _ _ H) as (bl & Hbl & ->). exists bl. split; [exact Hbl |].
    f_equal; lia.
Qed.

Lemma main2_sections_from name pages : forall i,
  Main2Pdf.sections_from name i pages = MainPdf.sections_from name i pages.
Proof.
  induction pages as [|b pages IH]; intros i; [reflexivity |].
  cbn [Main2Pdf.sections_from MainPdf.sections_from]. rewrite IH.
  assert (E : forall bl : page_dict,
             flat_map
               (fun b0 : block =>
                  match b0 with
                  | Some lines =>
                      flat_map
                        (fun ln : line =>
                           flat_map
                             (fun span =>
                                if negb (String.eqb (Py.strip (sp_text span)) "")
                                then [Py.strip (sp_text span)] else [])
                             ln)
                        lines
                  | None => []
                  end)
               bl
             = MainPdf.page_content bl).
  { intros bl. unfold MainPdf.page_content. apply flat_map_ext.
    intros [lines |]; [| reflexivity]. apply flat_map_ext. intros ln.
    apply flat_map_ext. intros sp. destruct (String.eqb _ ""); reflexivity. }
  cbv zeta. rewrite E. reflexivity.
Qed.

Lemma main3_sections_from name pages : forall i,
  Main3.sections_from name i pages = MainPdf.sections_from name i pages.
Proof.
  intros i. rewrite <- main2_sections_from. revert i.
  induction pages as [|b pages IH]; intros i; [reflexivity |].
  cbn [Main3.sections_from Main2Pdf.sections_from]. rewrite IH. reflexivity.
Qed.

Lemma sort_by_ext {A K : Type} (ltb : K -> K -> bool) (k1 k2 : A -> K) l :
  (forall x, k1 x = k2 x) -> sort_by ltb k1 l = sort_by ltb k2 l.
Proof.
  intros E. induction l as [|x l IH]; simpl; [reflexivity |]. rewrite IH.
  generalize (sort_by ltb k2 l) as r. induction r as [|y r IHr]; simpl; [reflexivity |].
  rewrite !E, IHr. reflexivity.
Qed.

Lemma main3_score keys title : Main3.score keys title = Main.match_count keys title.
Proof.
  unfold Main3.score, Main.match_count, Main.word_set.
  rewrite (intersection_comm_L keys). reflexivity.
Qed.

Lemma main3_assign_ranks l : forall i,
  Main3.assign_ranks i l = Main.assign_ranks (i + 1) l.
Proof.
  induction l as [|s l IH]; intros i; simpl; [reflexivity | rewrite IH; reflexivity].
Qed.

(** Without text there is no title, and without title no match. *)
Lemma main3_matched_eq secs persona task :
  (forall s, In s secs -> refined_text s = "" -> section_title s = "") ->
  Main3.matched secs persona task = Main.top_sections secs persona task.
Proof.
  intros Hsecs. unfold Main3.matched, Main.top_sections, Main.top_sections_k.
  rewrite main3_assign_ranks.
  change (list_to_set (Py.split (Py.lower (task ++ " " ++ persona))))
    with (Main.search_terms task persona).
  set (keys := Main.search_terms task persona).
  f_equal. f_equal.
  rewrite (sort_by_ext _ _ (Main.section_key keys)).
  2: { intros x. unfold Main.section_key. rewrite main3_score. reflexivity. }
  unfold Main.section_key_ltb, Main.important_sections. f_equal. f_equal.
  clear -Hsecs. induction secs as [|s secs IH]; [reflexivity |]. simpl.
  rewrite IH by (intros x Hx; apply Hsecs; right; exact Hx).
  rewrite main3_score.
  destruct (String.eqb_spec (refined_text s) "") as [E | E]; [| reflexivity].
  rewrite (Hsecs s (or_introl eq_refl) E). simpl.
  replace (Main.match_count keys "") with 0%Z; [reflexivity |].
  unfold Main.match_count. change (Main.word_set "") with (∅ : gset string).
  rewrite intersection_empty_r_L, size_empty. reflexivity.
Qed.

Lemma sections_from_titled name pages : forall i s,
  In s (MainPdf.sections_from name i pages) ->
  section_title s = Py.take 80 (refined_text s).
Proof.
  induction pages as [|b pages IH]; intros i s H; [destruct H |].
  destruct H as [<- | H]; [reflexivity | exact (IH _ _ H)].
Qed.

End SectionFacts.

(** X16: [split_document_by_sections] gives one section per page, in page
    order: the n-th has the file name as document, the page number n as
    start and end page, the joined stripped texts of the page's spans as
    text, and the first 80 characters of that text as title. *)
Theorem one_section_per_page (doc : Fitz.pdf) (filename : string) :
  length (MainPdf.split_document_by_sections doc filename) = length doc
  /\ forall n s,
       nth_error (MainPdf.split_document_by_sections doc filename) n = Some s ->
       document s = filename
       /\ start_page s = (Z.of_nat n + 1)%Z /\ end_page s = (Z.of_nat n + 1)%Z
       /\ section_title s = Py.take 80 (refined_text s)
       /\ (String.length (section_title s) <= 80)%nat
       /\ exists blocks, nth_error doc n = Some blocks
            /\ refined_text s = py_join " " (MainPdf.page_content blocks).
Proof.
  unfold MainPdf.split_document_by_sections.
  split; [apply SectionFacts.sections_from_length |].
  intros n s H. apply SectionFacts.sections_from_nth in H.
  destruct H as (bl & Hbl & ->). simpl.
  repeat split; try reflexivity; [apply QueryFacts.take_length |].
  exists bl. split; [exact Hbl | reflexivity].
Qed.

(** X17: the three files split a document into the same page sections. *)
Theorem splitters_agree (doc : Fitz.pdf) (filename : string) :
  Main2Pdf.split_pdf_into_sections doc filename
  = MainPdf.split_document_by_sections doc filename
  /\ Main3.extract_sections doc filename
     = MainPdf.split_document_by_sections doc filename.
Proof.
  split; [apply SectionFacts.main2_sections_from | apply SectionFacts.main3_sections_from].
Qed.

(** X18: on the sections of uploaded files [main3.py] ranks as [main.py]
    does: its extra test that a section has text changes nothing, since a
    section without text has no title to match. *)
Theorem main3_ranks_the_same (files : list (string * Fitz.pdf)) (persona task : string) :
  Main3.matched
    (flat_map (fun f => Main3.extract_sections (snd f) (fst f)) files) persona task
  = MainPdf.persona_analysis files persona task.
Proof.
  unfold MainPdf.persona_analysis, MainPdf.all_doc_sections.
  rewrite (flat_map_ext _ (fun f => MainPdf.split_document_by_sections (snd f) (fst f)))
    by (intros f; apply SectionFacts.main3_sections_from).
  apply SectionFacts.main3_matched_eq.
  intros s Hs Htext. apply in_flat_map in Hs. destruct Hs as (f & _ & Hs).
  rewrite (SectionFacts.sections_from_titled _ _ _ _ Hs), Htext. reflexivity.
Qed.

(** X19: every entry of the persona ranking names an uploaded file and a
    page of that file. *)
Theorem persona_entry_is_a_page (files : list (string * Fitz.pdf))
  (role task : string) (o : ranked) :
  In o (MainPdf.persona_analysis files role task) ->
  exists name doc, In (name, doc) files /\ r_document o = name
    /\ (1 <= r_start_page o <= Z.of_nat (length doc))%Z
    /\ (1 <= importance_rank o <= 5)%Z.
Proof.
  unfold MainPdf.persona_analysis, Main.top_sections, Main.top_sections_k.
  intros H. apply In_nth_error in H. destruct H as (i & Hi).
  apply assign_ranks_nth in Hi. destruct Hi as (x & Hx & Hr).
  apply ExtractFacts.nth_error_firstn_Some in Hx. destruct Hx as [Hlt Hx].
  apply nth_error_In, sort_by_In in Hx.
  unfold Main.important_sections in Hx. apply in_map_iff in Hx.
  destruct Hx as (s & <- & Hs). apply List.filter_In in Hs. destruct Hs as [Hs _].
  unfold MainPdf.all_doc_sections in Hs. apply in_flat_map in Hs.
  destruct Hs as ([name doc] & Hf & Hs). simpl in Hs.
  apply In_nth_error in Hs. destruct Hs as (n & Hn).
  unfold MainPdf.split_document_by_sections in Hn.
  apply SectionFacts.sections_from_nth in Hn. destruct Hn as (bl & Hbl & ->).
  assert (Hn' : (n < length doc)%nat) by (apply nth_error_Some; congruence).
  exists name, doc. rewrite Hr. simpl. split; [exact Hf |]. split; [reflexivity |]. lia.
Qed.

Lemma persona_entry_is_a_page_witness :
  exists name doc, In (name, doc) [("a.pdf", pdf_example)] /\ "a.pdf" = name
    /\ (1 <= 2 <= Z.of_nat (length doc))%Z.
Proof.
  destruct (persona_entry_is_a_page [("a.pdf", pdf_example)] "manager" "project timeline"
              (Ranked "a.pdf" 2 "1. Introduction The timeline of the project" 1
                 "1. Introduction The timeline of the project"))
    as (name & doc & Hf & Hn & Hp & _).
  - vm_compute. left. reflexivity.
  - exists name, doc. auto.
Defined.


(** ** [detect] of [main3.py] *)

Module DetectFacts.

Lemma detect_step_cases avg mx ttl out d :
  Main3.detect_step avg mx (ttl, out) d = (ttl, out)
  \/ (Main3.detect_step avg mx (ttl, out) d = (Main3.f_text d, out)
      /\ (3 <= Py.len (Main3.f_text d))%Z /\ (Float.mul mx (Float.lit 0.95) <= Main3.f_size d)%Q)
  \/ exists lvl,
       Main3.detect_step avg mx (ttl, out) d
       = (ttl, out ++ [Heading lvl (Main3.f_text d) (Main3.f_page d)])
       /\ (3 <= Py.len (Main3.f_text d))%Z /\ (Float.mul avg (Float.lit 1.2) < Main3.f_size d)%Q
       /\ lvl <> H4
       /\ (Py.contains (Py.lower (Main3.f_font d)) "bold" = false -> lvl = H1)
       /\ (lvl = H1 <-> (Float.mul avg (Float.lit 1.5) <= Main3.f_size d)%Q).
Proof.
  unfold Main3.detect_step.
  destruct (String.eqb _ ""); [left; reflexivity |]. simpl.
  destruct (Z.ltb_spec (Py.len (Main3.f_text d)) 3) as [Hl | Hl]; [left; reflexivity |].
  destruct (Qleb (Float.mul mx (Float.lit 0.95)) (Main3.f_size d) && String.eqb ttl "Untitled") eqn:Ht.
  { right. left. apply andb_true_iff in Ht. destruct Ht as [Ht _].
    apply Qle_bool_iff in Ht. auto. }
  destruct (Qltb (Float.mul avg (Float.lit 1.2)) (Main3.f_size d)) eqn:H12; [| left; reflexivity].
  apply Qltb_lt in H12. simpl.
  destruct (Py.contains (Py.lower (Main3.f_font d)) "bold") eqn:Hb; simpl.
  - right. right. eexists. split; [reflexivity |]. split; [exact Hl |].
    split; [exact H12 |].
    unfold Qleb. destruct (Qle_bool (Float.mul avg (Float.lit 1.5)) (Main3.f_size d)) eqn:E15.
    + apply Qle_bool_iff in E15. repeat split; auto; discriminate.
    + assert (~ (Float.mul avg (Float.lit 1.5) <= Main3.f_size d)%Q)
        by (intros Hc; apply Qle_bool_iff in Hc; congruence).
      destruct (Qle_bool (Float.mul avg (Float.lit 1.3)) (Main3.f_size d));
        (split; [discriminate |]; split; [discriminate |];
         split; [discriminate | contradiction]).
  - destruct (Qltb (Float.mul avg (Float.lit 1.5)) (Main3.f_size d)) eqn:H15; [| left; reflexivity].
    apply Qltb_lt in H15. right. right. exists H1.
    assert (Hle : (Float.mul avg (Float.lit 1.5) <= Main3.f_size d)%Q) by (apply Qlt_le_weak; exact H15).
    unfold Qleb. rewrite (proj2 (Qle_bool_iff _ _) Hle).
    repeat split; auto; discriminate.
Qed.

Lemma detect_fold avg mx data : forall ttl out,
  exists ttl' new,
    fold_left (Main3.detect_step avg mx) data (ttl, out) = (ttl', out ++ new)
    /\ (ttl' = ttl
        \/ exists d, In d data /\ ttl' = Main3.f_text d
             /\ (3 <= Py.len (Main3.f_text d))%Z /\ (Float.mul mx (Float.lit 0.95) <= Main3.f_size d)%Q)
    /\ sublist (map (fun h => (h_text h, h_page h)) new)
         (map (fun d => (Main3.f_text d, Main3.f_page d)) data)
    /\ forall h, In h new ->
         exists d, In d data /\ h_text h = Main3.f_text d /\ h_page h = Main3.f_page d
           /\ (3 <= Py.len (h_text h))%Z /\ (Float.mul avg (Float.lit 1.2) < Main3.f_size d)%Q
           /\ h_level h <> H4
           /\ (Py.contains (Py.lower (Main3.f_font d)) "bold" = false -> h_level h = H1)
           /\ (h_level h = H1 <-> (Float.mul avg (Float.lit 1.5) <= Main3.f_size d)%Q).
Proof.
  induction data as [|d data IH]; intros ttl out.
  - exists ttl, []. rewrite app_nil_r. split; [reflexivity |]. split; [auto |].
    split; [constructor | intros ? []].
  - cbn [fold_left].
    destruct (detect_step_cases avg mx ttl out d)
      as [E | [(E & Hl & Hs) | (lvl & E & Hl & Hs & H4 & Hb & H1)]]; rewrite E.
    + destruct (IH ttl out) as (t' & new & Hf & Ht & Hsub & Hall).
      exists t', new. split; [exact Hf |]. split.
      * destruct Ht as [-> | (x & Hx & Hrest)]; [auto |]. right. exists x. simpl. auto.
      * split; [simpl; apply sublist_cons; exact Hsub |].
        intros h Hh. destruct (Hall h Hh) as (x & Hx & Hrest). exists x. simpl. auto.
    + destruct (IH (Main3.f_text d) out) as (t' & new & Hf & Ht & Hsub & Hall).
      exists t', new. split; [exact Hf |]. split.
      * right. destruct Ht as [-> | (x & Hx & Hrest)].
        -- exists d. simpl. auto.
        -- exists x. simpl. auto.
      * split; [simpl; apply sublist_cons; exact Hsub |].
        intros h Hh. destruct (Hall h Hh) as (x & Hx & Hrest). exists x. simpl. auto.
    + destruct (IH ttl (out ++ [Heading lvl (Main3.f_text d) (Main3.f_page d)]))
        as (t' & new & Hf & Ht & Hsub & Hall).
      exists t', (Heading lvl (Main3.f_text d) (Main3.f_page d) :: new).
      split; [rewrite Hf, <- app_assoc; reflexivity |]. split.
      * destruct Ht as [-> | (x & Hx & Hrest)]; [auto |]. right. exists x. simpl. auto.
      * split; [simpl; apply sublist_skip; exact Hsub |].
        intros h [<- | Hh].
        -- exists d. simpl. auto 10.
        -- destruct (Hall h Hh) as (x & Hx & Hrest). exists x. simpl. auto.
Qed.

Lemma detect_unfold data : data <> [] ->
  exists avg mx ttl out,
    py_div (py_sum (map Main3.f_size data)) (Z.of_nat (length (map Main3.f_size data)))
    = Ok avg
    /\ py_max (map Main3.f_size data) = Ok mx
    /\ fold_left (Main3.detect_step avg mx) data ("Untitled", []) = (ttl, out)
    /\ Main3.detect data = Ok (out, ttl).
Proof.
  intros Hne.
  assert (Hsizes : map Main3.f_size data <> []) by (destruct data; [congruence | discriminate]).
  assert (Hlen : Z.of_nat (length (map Main3.f_size data)) <> 0%Z)
    by (destruct data; [congruence | simpl; lia]).
  destruct (py_max_ok _ Hsizes) as [mx Hmx].
  exists (Float.div (py_sum (map Main3.f_size data))
            (Float.of_int (Z.of_nat (length (map Main3.f_size data))))), mx.
  destruct (fold_left
              (Main3.detect_step
                 (Float.div (py_sum (map Main3.f_size data))
                    (Float.of_int (Z.of_nat (length (map Main3.f_size data))))) mx)
              data ("Untitled", [])) as [ttl out] eqn:Hf.
  exists ttl, out. split; [apply py_div_ok; exact Hlen |]. split; [exact Hmx |].
  split; [reflexivity |].
  destruct data as [|d data]; [congruence |]. unfold Main3.detect.
  rewrite (py_div_ok _ _ Hlen). cbn [mbind result_bind]. rewrite Hmx.
  cbn [mbind result_bind]. rewrite Hf. reflexivity.
Qed.

End DetectFacts.

(** X21: [detect] never fails; its headings follow the document order of
    the fragments they come from, each from a fragment of at least 3
    characters whose size exceeds 1.2 times the average; the level is H1
    exactly when the size reaches 1.5 times the average, never H4, and a
    fragment whose font name does not contain "bold" can only give H1.
    The average is the floating-point sum of the sizes divided by their
    number, and the products are the rounded floating-point products. *)
Theorem detect_headings (data : list Main3.fragment) :
  exists out ttl,
    Main3.detect data = Ok (out, ttl)
    /\ sublist (map (fun h => (h_text h, h_page h)) out)
         (map (fun d => (Main3.f_text d, Main3.f_page d)) data)
    /\ forall h, In h out ->
         exists d avg, In d data
           /\ py_div (py_sum (map Main3.f_size data))
                (Z.of_nat (length (map Main3.f_size data))) = Ok avg
           /\ h_text h = Main3.f_text d /\ h_page h = Main3.f_page d
           /\ (3 <= Py.len (h_text h))%Z /\ (Float.mul avg (Float.lit 1.2) < Main3.f_size d)%Q
           /\ h_level h <> H4
           /\ (Py.contains (Py.lower (Main3.f_font d)) "bold" = false -> h_level h = H1)
           /\ (h_level h = H1 <-> (Float.mul avg (Float.lit 1.5) <= Main3.f_size d)%Q).
Proof.
  destruct data as [|d0 data0].
  { exists [], "Untitled". split; [reflexivity |]. split; [constructor | intros ? []]. }
  destruct (DetectFacts.detect_unfold (d0 :: data0)) as (avg & mx & ttl & out & Ha & _ & Hf & Hres);
    [discriminate |].
  exists out, ttl. split; [exact Hres |].
  destruct (DetectFacts.detect_fold avg mx (d0 :: data0) "Untitled" [])
    as (t' & new & Hf' & _ & Hsub & Hall).
  rewrite Hf in Hf'. injection Hf' as _ ->. simpl.
  split; [exact Hsub |]. intros h Hh. destruct (Hall h Hh) as (d & Hd & Hrest).
  exists d, avg. auto.
Qed.

(** X22: the title that [detect] returns is "Untitled" or the text of a
    fragment of at least 3 characters whose size is at least the
    floating-point product of the largest size and 0.95. *)
Theorem detect_title (data : list Main3.fragment) :
  exists out ttl,
    Main3.detect data = Ok (out, ttl)
    /\ (ttl = "Untitled"
        \/ exists d mx, In d data /\ py_max (map Main3.f_size data) = Ok mx
             /\ ttl = Main3.f_text d /\ (3 <= Py.len ttl)%Z
             /\ (Float.mul mx (Float.lit 0.95) <= Main3.f_size d)%Q).
Proof.
  destruct data as [|d0 data0].
  { exists [], "Untitled". split; [reflexivity | left; reflexivity]. }
  destruct (DetectFacts.detect_unfold (d0 :: data0)) as (avg & mx & ttl & out & _ & Hm & Hf & Hres);
    [discriminate |].
  exists out, ttl. split; [exact Hres |].
  destruct (DetectFacts.detect_fold avg mx (d0 :: data0) "Untitled" [])
    as (t' & new & Hf' & Ht & _).
  rewrite Hf in Hf'. injection Hf' as -> _.
  destruct Ht as [-> | (d & Hd & -> & Hl & Hs)]; [left; reflexivity |].
  right. exists d, mx. auto.
Qed.

(** ** The ranking and the order of its input *)

Lemma sorted_perm_unique {A : Type} (R : A -> A -> Prop) (l1 : list A) :
  forall l2,
    (forall x y, In x l1 -> In y l1 -> R x y -> R y x -> x = y) ->
    StronglySorted R l1 -> StronglySorted R l2 -> Permutation l1 l2 -> l1 = l2.
Proof.
  induction l1 as [|x l1 IH]; intros l2 Hanti Hs1 Hs2 Hp.
  - symmetry. apply Permutation_nil. exact Hp.
  - destruct l2 as [|y l2]; [apply Permutation_sym, Permutation_nil in Hp; discriminate |].
    apply StronglySorted_inv in Hs1, Hs2. destruct Hs1 as [Hs1 Hx], Hs2 as [Hs2 Hy].
    rewrite List.Forall_forall in Hx, Hy.
    assert (Hxy : x = y).
    { assert (Hyin : In y (x :: l1))
        by (apply (Permutation_in _ (Permutation_sym Hp)); left; reflexivity).
      assert (Hxin : In x (y :: l2)) by (apply (Permutation_in _ Hp); left; reflexivity).
      destruct Hyin as [E | Hyin]; [exact E |].
      destruct Hxin as [E | Hxin]; [symmetry; exact E |].
      apply Hanti; [left; reflexivity | right; exact Hyin | apply Hx; exact Hyin
                   | apply Hy; exact Hxin]. }
    subst y. f_equal. apply IH; [| exact Hs1 | exact Hs2 | exact (Permutation_cons_inv Hp)].
    intros a b Ha Hb. apply Hanti; right; assumption.
Qed.

Lemma section_key_tri : trichotomous Main.section_key_ltb.
Proof.
  apply pair_ltb_tri; auto using Z.eqb_eq, Zltb_tri.
  apply pair_ltb_tri; auto using String.eqb_eq, str_ltb_tri, Zltb_tri.
Qed.

Lemma NoDup_map_inj {A B : Type} (f : A -> B) l x y :
  NoDup (map f l) -> In x l -> In y l -> f x = f y -> x = y.
Proof.
  induction l as [|a l IH]; intros Hnd Hx Hy E; [destruct Hx |].
  simpl in Hnd. apply NoDup_cons in Hnd. destruct Hnd as [Ha Hnd].
  assert (Hnot : forall z, In z l -> f a <> f z).
  { intros z Hz Heq. apply Ha. rewrite Heq. apply list_elem_of_In, in_map. exact Hz. }
  destruct Hx as [<- | Hx], Hy as [<- | Hy]; auto.
  - destruct (Hnot y Hy E).
  - destruct (Hnot x Hx (eq_sym E)).
Qed.

(** X23: the ranking does not depend on the order in which the sections
    are given, as long as no two of them have the same document name and
    page: the sort key then tells any two matching sections apart. *)
Theorem ranking_order_independent (top_k : nat) (secs secs' : list section)
  (role task : string) :
  Permutation secs secs' ->
  List.NoDup (map (fun s => (document s, start_page s)) secs) ->
  Main.top_sections_k top_k secs' role task = Main.top_sections_k top_k secs role task.
Proof.
  intros Hperm Hnd. unfold Main.top_sections_k.
  set (terms := Main.search_terms task role).
  f_equal. f_equal.
  assert (Hp : Permutation (Main.important_sections terms secs')
                 (Main.important_sections terms secs)).
  { unfold Main.important_sections. apply Permutation_map, filter_perm, Permutation_sym.
    exact Hperm. }
  assert (Hnd' : NoDup (map (fun o => (r_document o, r_start_page o))
                          (Main.important_sections terms secs'))).
  { rewrite Hp. unfold Main.important_sections. rewrite map_map. simpl.
    apply NoDup_map_filter, NoDup_ListNoDup. exact Hnd. }
  apply (sorted_perm_unique (not_after Main.section_key_ltb (Main.section_key terms))).
  - intros x y Hx Hy Hxy Hyx. apply sort_by_In in Hx, Hy.
    apply (NoDup_map_inj _ _ x y Hnd' Hx Hy).
    pose proof (section_key_tri _ _ Hyx Hxy) as E. unfold Main.section_key in E.
    injection E as _ Hd Hpg. rewrite Hd, Hpg. reflexivity.
  - apply sort_by_sorted; [exact section_key_asym | exact section_key_negtrans].
  - apply sort_by_sorted; [exact section_key_asym | exact section_key_negtrans].
  - eapply Permutation_trans; [apply sort_by_perm |].
    eapply Permutation_trans; [exact Hp | apply Permutation_sym, sort_by_perm].
Qed.

Lemma ranking_order_independent_witness :
  Main.top_sections_k 5 (rev ranking_example) "Project Manager" "Review project timeline"
  = Main.top_sections_k 5 ranking_example "Project Manager" "Review project timeline".
Proof.
  apply (ranking_order_independent 5 ranking_example (rev ranking_example)).
  - apply Permutation_rev.
  - repeat constructor; simpl; intros H; repeat destruct H as [H | H]; try discriminate H;
      exact H.
Defined.
